(** * RestaurantApp: client authentication and session lifecycle

    A shallow embedding of the authentication layer of the two React/Redux
    front-ends (owner portal and customer storefront):

    - [utils/permissions.js]            -> [Permissions]
    - [components/ProtectedRoute.jsx]   -> [Guard]
    - [store/slices/authSlice.js]       -> [AuthSlice], [Thunks], [Session]
    - owner [services/api.js]           -> [OwnerApi]
    - customer [services/api.js]        -> [CustomerApi]

    JavaScript objects become records, [null]/[undefined] become [None],
    [localStorage] is a finite map from keys to strings, module-level
    variables and the Redux store are fields of an explicit world that every
    operation threads through.  An [async] function is cut at its [await]:
    the part that runs when it is called, and the part that runs when the
    awaited reply arrives, which the environment supplies. *)

From Stdlib Require Import ZArith String List Bool Lia Ascii.
From stdpp Require Import base gmap strings list option.
Import ListNotations.
Open Scope string_scope.

(** ** JavaScript values *)

Module Js.

(** Truthiness of a value that is a string, [null] or [undefined]. *)
Definition truthy (v : option string) : bool :=
  match v with
  | Some s => negb (bool_decide (s = ""))
  | None => false
  end.

(** [String(v)], as [localStorage.setItem] and template literals apply it:
    an [undefined] value is stored as the text "undefined". *)
Definition to_string (v : option string) : string :=
  match v with
  | Some s => s
  | None => "undefined"
  end.

(** [a || b] on such values. *)
Definition or_else (a b : option string) : option string :=
  if truthy a then a else b.

(** [s.startsWith(p)]. *)
Definition startsWith (p s : string) : bool := String.prefix p s.

(** [s.includes(p)]. *)
Fixpoint includes (p s : string) : bool :=
  String.prefix p s ||
  match s with
  | EmptyString => false
  | String _ s' => includes p s'
  end.

Definition lower_ascii (c : ascii) : ascii :=
  let n := nat_of_ascii c in
  if (65 <=? n)%nat && (n <=? 90)%nat then ascii_of_nat (n + 32) else c.

(** [s.toLowerCase()] on ASCII text. *)
Fixpoint toLowerCase (s : string) : string :=
  match s with
  | EmptyString => EmptyString
  | String c s' => String (lower_ascii c) (toLowerCase s')
  end.

(** [s.split(sep)] for a non-empty separator: [skip] counts the characters
    of a separator that was just matched and is being stepped over. *)
Fixpoint split_go (sep s : string) (skip : nat) (cur : string) : list string :=
  match s with
  | EmptyString => [cur]
  | String c s' =>
      match skip with
      | S k => split_go sep s' k cur
      | O =>
          if String.prefix sep s
          then cur :: split_go sep s' (String.length sep - 1) ""
          else split_go sep s' 0 (cur ++ String c "")
      end
  end.

Definition split (sep s : string) : list string := split_go sep s 0 "".

End Js.

(** ** [localStorage] *)

Abbreviation LocalStorage := (gmap string string).

Definition getItem (k : string) (ls : LocalStorage) : option string := ls !! k.
Definition setItem (k v : string) (ls : LocalStorage) : LocalStorage := <[k := v]> ls.
Definition removeItem (k : string) (ls : LocalStorage) : LocalStorage := delete k ls.

(** ** The user object returned by the server *)

Record Restaurant := { restaurant_id : Z }.

Record StaffProfile := {
  restaurant : Restaurant;
  can_view_reports : bool;
  can_manage_menu : bool;
  can_manage_orders : bool;
  can_manage_staff : bool;
  role : string
}.

Record User := {
  email : string;
  email_verified : option bool;   (* [None]: the field is missing *)
  user_type : string;
  staff_profile : option StaffProfile
}.

(** ** utils/permissions.js *)

Module Permissions.

(** An id argument is truthy when it is given and is not [0]. *)
Definition id_truthy (i : option Z) : bool :=
  match i with
  | Some z => negb (z =? 0)%Z
  | None => false
  end.

Definition hasPermission (user : option User) (permission : string)
    (restaurantId : option Z) : bool :=
  match user with
  | None => false
  | Some user =>
      if bool_decide (user_type user = "owner") then true
      else
        match bool_decide (user_type user = "staff"), staff_profile user with
        | true, Some staff =>
            if id_truthy restaurantId &&
               negb (bool_decide (Some (restaurant_id (restaurant staff)) = restaurantId))
            then false
            else if bool_decide (permission = "view_reports") then can_view_reports staff
            else if bool_decide (permission = "manage_menu") then can_manage_menu staff
            else if bool_decide (permission = "manage_orders") then can_manage_orders staff
            else if bool_decide (permission = "manage_staff") then can_manage_staff staff
            else if bool_decide (permission = "access_kitchen")
                 then bool_decide (role staff = "chef") || bool_decide (role staff = "manager")
            else if bool_decide (permission = "process_payments")
                 then bool_decide (role staff = "cashier") || bool_decide (role staff = "manager")
            else false
        | _, _ => false
        end
  end.

End Permissions.

(** Assignments are written in source order: [s |> set_a x |> set_b y]. *)
Notation "x |> f" := (f x) (at level 68, left associativity, only parsing).

(** ** store/slices/authSlice.js: state and reducers *)

Module AuthSlice.

Record Credentials := { username : string; password : string }.

Record Tokens := { access : option string; refresh : option string }.

(** Body of a successful reply of an authentication endpoint; every field
    may be missing. *)
Record AuthResponse := {
  requires_2fa : bool;
  resp_user : option User;
  tokens : option Tokens;
  message : option string
}.

(** What [loadUserFromToken] hands to its reducer: the profile object, and
    its [data] property when the profile came wrapped. *)
Record Profile := { profile : User; data : option User }.

(** Error bodies: [{ error, requiresVerification, email }]. *)
Record ErrorData := {
  error_text : option string;
  requiresVerification : bool;
  error_email : option string
}.

(** The value given to [rejectWithValue]: a reply body or a bare message. *)
Inductive Payload :=
| PData (d : ErrorData)
| PText (m : string).

Record State := mkState {
  user : option User;
  owner : option User;
  restaurants : list Z;
  staff : list Z;
  token : option string;
  refreshToken : option string;
  isAuthenticated : bool;
  isOwner : bool;
  requires2FA : bool;
  tempLoginData : option Credentials;
  loading : bool;
  loginLoading : bool;
  registerLoading : bool;
  staffLoading : bool;
  verificationLoading : bool;
  csrfInitialized : bool;
  csrfLoading : bool;
  csrfError : option Payload;
  error : option Payload;
  loginError : option Payload;
  registerError : option Payload;
  staffError : option Payload;
  verificationError : option Payload;
  successMessage : option string
}.

Definition set_user (v : option User) (s : State) : State :=
  mkState v (owner s) (restaurants s) (staff s) (token s) (refreshToken s)
    (isAuthenticated s) (isOwner s) (requires2FA s) (tempLoginData s) (loading s)
    (loginLoading s) (registerLoading s) (staffLoading s) (verificationLoading s)
    (csrfInitialized s) (csrfLoading s) (csrfError s) (error s) (loginError s)
    (registerError s) (staffError s) (verificationError s) (successMessage s).
Definition set_owner (v : option User) (s : State) : State :=
  mkState (user s) v (restaurants s) (staff s) (token s) (refreshToken s)
    (isAuthenticated s) (isOwner s) (requires2FA s) (tempLoginData s) (loading s)
    (loginLoading s) (registerLoading s) (staffLoading s) (verificationLoading s)
    (csrfInitialized s) (csrfLoading s) (csrfError s) (error s) (loginError s)
    (registerError s) (staffError s) (verificationError s) (successMessage s).
Definition set_restaurants (v : list Z) (s : State) : State :=
  mkState (user s) (owner s) v (staff s) (token s) (refreshToken s) (isAuthenticated s)
    (isOwner s) (requires2FA s) (tempLoginData s) (loading s) (loginLoading s)
    (registerLoading s) (staffLoading s) (verificationLoading s) (csrfInitialized s)
    (csrfLoading s) (csrfError s) (error s) (loginError s) (registerError s) (staffError
    s) (verificationError s) (successMessage s).
Definition set_staff (v : list Z) (s : State) : State :=
  mkState (user s) (owner s) (restaurants s) v (token s) (refreshToken s)
    (isAuthenticated s) (isOwner s) (requires2FA s) (tempLoginData s) (loading s)
    (loginLoading s) (registerLoading s) (staffLoading s) (verificationLoading s)
    (csrfInitialized s) (csrfLoading s) (csrfError s) (error s) (loginError s)
    (registerError s) (staffError s) (verificationError s) (successMessage s).
Definition set_token (v : option string) (s : State) : State :=
  mkState (user s) (owner s) (restaurants s) (staff s) v (refreshToken s)
    (isAuthenticated s) (isOwner s) (requires2FA s) (tempLoginData s) (loading s)
    (loginLoading s) (registerLoading s) (staffLoading s) (verificationLoading s)
    (csrfInitialized s) (csrfLoading s) (csrfError s) (error s) (loginError s)
    (registerError s) (staffError s) (verificationError s) (successMessage s).
Definition set_refreshToken (v : option string) (s : State) : State :=
  mkState (user s) (owner s) (restaurants s) (staff s) (token s) v (isAuthenticated s)
    (isOwner s) (requires2FA s) (tempLoginData s) (loading s) (loginLoading s)
    (registerLoading s) (staffLoading s) (verificationLoading s) (csrfInitialized s)
    (csrfLoading s) (csrfError s) (error s) (loginError s) (registerError s) (staffError
    s) (verificationError s) (successMessage s).
Definition set_isAuthenticated (v : bool) (s : State) : State :=
  mkState (user s) (owner s) (restaurants s) (staff s) (token s) (refreshToken s) v
    (isOwner s) (requires2FA s) (tempLoginData s) (loading s) (loginLoading s)
    (registerLoading s) (staffLoading s) (verificationLoading s) (csrfInitialized s)
    (csrfLoading s) (csrfError s) (error s) (loginError s) (registerError s) (staffError
    s) (verificationError s) (successMessage s).
Definition set_isOwner (v : bool) (s : State) : State :=
  mkState (user s) (owner s) (restaurants s) (staff s) (token s) (refreshToken s)
    (isAuthenticated s) v (requires2FA s) (tempLoginData s) (loading s) (loginLoading s)
    (registerLoading s) (staffLoading s) (verificationLoading s) (csrfInitialized s)
    (csrfLoading s) (csrfError s) (error s) (loginError s) (registerError s) (staffError
    s) (verificationError s) (successMessage s).
Definition set_requires2FA (v : bool) (s : State) : State :=
  mkState (user s) (owner s) (restaurants s) (staff s) (token s) (refreshToken s)
    (isAuthenticated s) (isOwner s) v (tempLoginData s) (loading s) (loginLoading s)
    (registerLoading s) (staffLoading s) (verificationLoading s) (csrfInitialized s)
    (csrfLoading s) (csrfError s) (error s) (loginError s) (registerError s) (staffError
    s) (verificationError s) (successMessage s).
Definition set_tempLoginData (v : option Credentials) (s : State) : State :=
  mkState (user s) (owner s) (restaurants s) (staff s) (token s) (refreshToken s)
    (isAuthenticated s) (isOwner s) (requires2FA s) v (loading s) (loginLoading s)
    (registerLoading s) (staffLoading s) (verificationLoading s) (csrfInitialized s)
    (csrfLoading s) (csrfError s) (error s) (loginError s) (registerError s) (staffError
    s) (verificationError s) (successMessage s).
Definition set_loading (v : bool) (s : State) : State :=
  mkState (user s) (owner s) (restaurants s) (staff s) (token s) (refreshToken s)
    (isAuthenticated s) (isOwner s) (requires2FA s) (tempLoginData s) v (loginLoading s)
    (registerLoading s) (staffLoading s) (verificationLoading s) (csrfInitialized s)
    (csrfLoading s) (csrfError s) (error s) (loginError s) (registerError s) (staffError
    s) (verificationError s) (successMessage s).
Definition set_loginLoading (v : bool) (s : State) : State :=
  mkState (user s) (owner s) (restaurants s) (staff s) (token s) (refreshToken s)
    (isAuthenticated s) (isOwner s) (requires2FA s) (tempLoginData s) (loading s) v
    (registerLoading s) (staffLoading s) (verificationLoading s) (csrfInitialized s)
    (csrfLoading s) (csrfError s) (error s) (loginError s) (registerError s) (staffError
    s) (verificationError s) (successMessage s).
Definition set_registerLoading (v : bool) (s : State) : State :=
  mkState (user s) (owner s) (restaurants s) (staff s) (token s) (refreshToken s)
    (isAuthenticated s) (isOwner s) (requires2FA s) (tempLoginData s) (loading s)
    (loginLoading s) v (staffLoading s) (verificationLoading s) (csrfInitialized s)
    (csrfLoading s) (csrfError s) (error s) (loginError s) (registerError s) (staffError
    s) (verificationError s) (successMessage s).
Definition set_staffLoading (v : bool) (s : State) : State :=
  mkState (user s) (owner s) (restaurants s) (staff s) (token s) (refreshToken s)
    (isAuthenticated s) (isOwner s) (requires2FA s) (tempLoginData s) (loading s)
    (loginLoading s) (registerLoading s) v (verificationLoading s) (csrfInitialized s)
    (csrfLoading s) (csrfError s) (error s) (loginError s) (registerError s) (staffError
    s) (verificationError s) (successMessage s).
Definition set_verificationLoading (v : bool) (s : State) : State :=
  mkState (user s) (owner s) (restaurants s) (staff s) (token s) (refreshToken s)
    (isAuthenticated s) (isOwner s) (requires2FA s) (tempLoginData s) (loading s)
    (loginLoading s) (registerLoading s) (staffLoading s) v (csrfInitialized s)
    (csrfLoading s) (csrfError s) (error s) (loginError s) (registerError s) (staffError
    s) (verificationError s) (successMessage s).
Definition set_csrfInitialized (v : bool) (s : State) : State :=
  mkState (user s) (owner s) (restaurants s) (staff s) (token s) (refreshToken s)
    (isAuthenticated s) (isOwner s) (requires2FA s) (tempLoginData s) (loading s)
    (loginLoading s) (registerLoading s) (staffLoading s) (verificationLoading s) v
    (csrfLoading s) (csrfError s) (error s) (loginError s) (registerError s) (staffError
    s) (verificationError s) (successMessage s).
Definition set_csrfLoading (v : bool) (s : State) : State :=
  mkState (user s) (owner s) (restaurants s) (staff s) (token s) (refreshToken s)
    (isAuthenticated s) (isOwner s) (requires2FA s) (tempLoginData s) (loading s)
    (loginLoading s) (registerLoading s) (staffLoading s) (verificationLoading s)
    (csrfInitialized s) v (csrfError s) (error s) (loginError s) (registerError s)
    (staffError s) (verificationError s) (successMessage s).
Definition set_csrfError (v : option Payload) (s : State) : State :=
  mkState (user s) (owner s) (restaurants s) (staff s) (token s) (refreshToken s)
    (isAuthenticated s) (isOwner s) (requires2FA s) (tempLoginData s) (loading s)
    (loginLoading s) (registerLoading s) (staffLoading s) (verificationLoading s)
    (csrfInitialized s) (csrfLoading s) v (error s) (loginError s) (registerError s)
    (staffError s) (verificationError s) (successMessage s).
Definition set_error (v : option Payload) (s : State) : State :=
  mkState (user s) (owner s) (restaurants s) (staff s) (token s) (refreshToken s)
    (isAuthenticated s) (isOwner s) (requires2FA s) (tempLoginData s) (loading s)
    (loginLoading s) (registerLoading s) (staffLoading s) (verificationLoading s)
    (csrfInitialized s) (csrfLoading s) (csrfError s) v (loginError s) (registerError s)
    (staffError s) (verificationError s) (successMessage s).
Definition set_loginError (v : option Payload) (s : State) : State :=
  mkState (user s) (owner s) (restaurants s) (staff s) (token s) (refreshToken s)
    (isAuthenticated s) (isOwner s) (requires2FA s) (tempLoginData s) (loading s)
    (loginLoading s) (registerLoading s) (staffLoading s) (verificationLoading s)
    (csrfInitialized s) (csrfLoading s) (csrfError s) (error s) v (registerError s)
    (staffError s) (verificationError s) (successMessage s).
Definition set_registerError (v : option Payload) (s : State) : State :=
  mkState (user s) (owner s) (restaurants s) (staff s) (token s) (refreshToken s)
    (isAuthenticated s) (isOwner s) (requires2FA s) (tempLoginData s) (loading s)
    (loginLoading s) (registerLoading s) (staffLoading s) (verificationLoading s)
    (csrfInitialized s) (csrfLoading s) (csrfError s) (error s) (loginError s) v
    (staffError s) (verificationError s) (successMessage s).
Definition set_staffError (v : option Payload) (s : State) : State :=
  mkState (user s) (owner s) (restaurants s) (staff s) (token s) (refreshToken s)
    (isAuthenticated s) (isOwner s) (requires2FA s) (tempLoginData s) (loading s)
    (loginLoading s) (registerLoading s) (staffLoading s) (verificationLoading s)
    (csrfInitialized s) (csrfLoading s) (csrfError s) (error s) (loginError s)
    (registerError s) v (verificationError s) (successMessage s).
Definition set_verificationError (v : option Payload) (s : State) : State :=
  mkState (user s) (owner s) (restaurants s) (staff s) (token s) (refreshToken s)
    (isAuthenticated s) (isOwner s) (requires2FA s) (tempLoginData s) (loading s)
    (loginLoading s) (registerLoading s) (staffLoading s) (verificationLoading s)
    (csrfInitialized s) (csrfLoading s) (csrfError s) (error s) (loginError s)
    (registerError s) (staffError s) v (successMessage s).
Definition set_successMessage (v : option string) (s : State) : State :=
  mkState (user s) (owner s) (restaurants s) (staff s) (token s) (refreshToken s)
    (isAuthenticated s) (isOwner s) (requires2FA s) (tempLoginData s) (loading s)
    (loginLoading s) (registerLoading s) (staffLoading s) (verificationLoading s)
    (csrfInitialized s) (csrfLoading s) (csrfError s) (error s) (loginError s)
    (registerError s) (staffError s) (verificationError s) v.

Definition initialState (ls : LocalStorage) : State := {|
  user := None;
  owner := None;
  restaurants := [];
  staff := [];
  token := getItem "token" ls;
  refreshToken := getItem "refreshToken" ls;
  isAuthenticated := Js.truthy (getItem "token" ls);
  isOwner := false;
  requires2FA := false;
  tempLoginData := None;
  loading := false;
  loginLoading := false;
  registerLoading := false;
  staffLoading := false;
  verificationLoading := false;
  csrfInitialized := false;
  csrfLoading := false;
  csrfError := None;
  error := None;
  loginError := None;
  registerError := None;
  staffError := None;
  verificationError := None;
  successMessage := None
|}.

(** [{ ...u, email_verified: v }]. *)
Definition with_email_verified (v : option bool) (u : User) : User :=
  {| email := email u; email_verified := v;
     user_type := user_type u; staff_profile := staff_profile u |}.

(** [u.email_verified !== undefined ? u.email_verified : d]. *)
Definition email_verified_or (d : bool) (u : User) : option bool :=
  match email_verified u with
  | Some b => Some b
  | None => Some d
  end.

(** [payload?.requiresVerification]. *)
Definition payload_requiresVerification (p : Payload) : bool :=
  match p with
  | PData d => requiresVerification d
  | PText _ => false
  end.

(** [u?.user_type === 'owner']. *)
Definition is_owner_type (u : option User) : bool :=
  match u with
  | Some u => bool_decide (user_type u = "owner")
  | None => false
  end.

(** The actions the slice has a case for.  The life-cycle actions of the
    [login] and [logout] thunks and [socialLogin.pending] have none:
    [other] stands for them and for the actions of the other slices. *)
Inductive Action :=
| clearError
| setLoginError (p : option Payload)
| setRegisterError (p : option Payload)
| clearAuth
| clearVerificationData
| set2FARequired (p : option Credentials)
| clear2FA
| setEmailVerified (b : option bool)
| debugAuthState
| initializeCSRF_pending
| initializeCSRF_fulfilled
| initializeCSRF_rejected (p : option Payload)
| ownerLogin_pending
| ownerLogin_fulfilled (payload : AuthResponse) (arg : Credentials)
| ownerLogin_rejected (p : option Payload)
| ownerRegister_pending
| ownerRegister_fulfilled (payload : AuthResponse)
| ownerRegister_rejected (p : option Payload)
| loadUserFromToken_pending
| loadUserFromToken_fulfilled (payload : Profile)
| loadUserFromToken_rejected (p : option Payload)
| verifyEmailCode_pending
| verifyEmailCode_fulfilled (payload : AuthResponse)
| verifyEmailCode_rejected (p : option Payload)
| resendVerificationEmail_pending
| resendVerificationEmail_fulfilled
| resendVerificationEmail_rejected (p : option Payload)
| ownerVerifyEmail_pending
| ownerVerifyEmail_fulfilled (payload : AuthResponse)
| ownerVerifyEmail_rejected (p : option Payload)
| ownerVerifyCode_pending
| ownerVerifyCode_fulfilled (payload : AuthResponse)
| ownerVerifyCode_rejected (p : option Payload)
| verify2FACode_pending
| verify2FACode_fulfilled (payload : AuthResponse)
| verify2FACode_rejected (p : option Payload)
| socialLogin_fulfilled (payload : AuthResponse)
| socialLogin_rejected (p : option Payload)
| other.

(** [payload.message || fallback]. *)
Definition message_or (fallback : string) (payload : AuthResponse) : option string :=
  Js.or_else (message payload) (Some fallback).

(** The slice reducer with the [localStorage] writes its cases perform.
    [None]: the case throws a [TypeError] (a property of [undefined] is
    read); the draft is dropped and neither the state nor the storage
    changes, every such read coming before the first storage write. *)
Definition reducer (a : Action) (s : State) (ls : LocalStorage)
    : option (State * LocalStorage) :=
  match a with
  | clearError =>
      Some (s |> set_error None |> set_csrfError None |> set_loginError None
              |> set_registerError None |> set_staffError None
              |> set_verificationError None |> set_successMessage None, ls)
  | setLoginError p => Some (s |> set_loginError p, ls)
  | setRegisterError p => Some (s |> set_registerError p, ls)
  | clearAuth =>
      Some (s |> set_user None |> set_owner None |> set_restaurants []
              |> set_staff [] |> set_token None |> set_refreshToken None
              |> set_isAuthenticated false |> set_isOwner false
              |> set_requires2FA false |> set_tempLoginData None
              |> set_error None |> set_loginError None |> set_registerError None
              |> set_staffError None |> set_verificationError None
              |> set_successMessage None,
            ls |> removeItem "token" |> removeItem "refreshToken"
               |> removeItem "csrfToken" |> removeItem "pendingVerificationEmail"
               |> removeItem "pendingUserType")
  | clearVerificationData =>
      Some (s, ls |> removeItem "pendingVerificationEmail"
                  |> removeItem "pendingUserType")
  | set2FARequired p =>
      Some (s |> set_requires2FA true |> set_tempLoginData p, ls)
  | clear2FA =>
      Some (s |> set_requires2FA false |> set_tempLoginData None, ls)
  | setEmailVerified b =>
      Some (s |> set_user (with_email_verified b <$> user s)
              |> set_owner (with_email_verified b <$> owner s), ls)
  | debugAuthState => Some (s, ls)
  | initializeCSRF_pending =>
      Some (s |> set_csrfLoading true |> set_csrfError None, ls)
  | initializeCSRF_fulfilled =>
      Some (s |> set_csrfLoading false |> set_csrfInitialized true, ls)
  | initializeCSRF_rejected p =>
      Some (s |> set_csrfLoading false |> set_csrfError p
              |> set_csrfInitialized true, ls)
  | ownerLogin_pending =>
      Some (s |> set_loginLoading true |> set_loginError None, ls)
  | ownerLogin_fulfilled payload arg =>
      let s := s |> set_loginLoading false in
      if requires_2fa payload
      then Some (s |> set_requires2FA true |> set_tempLoginData (Some arg), ls)
      else
        u ← resp_user payload;
        let userData := with_email_verified (email_verified_or true u) u in
        t ← tokens payload;
        Some (s |> set_user (Some userData) |> set_owner (Some userData)
                |> set_token (access t) |> set_refreshToken (refresh t)
                |> set_isAuthenticated true |> set_isOwner true
                |> set_successMessage (Some "Login successful"),
              ls |> setItem "token" (Js.to_string (access t))
                 |> setItem "refreshToken" (Js.to_string (refresh t))
                 |> removeItem "pendingVerificationEmail"
                 |> removeItem "pendingUserType")
  | ownerLogin_rejected p =>
      let s := s |> set_loginLoading false |> set_loginError p in
      if from_option payload_requiresVerification false p
      then Some (s |> set_loginError (Some (PData
                   {| error_text := Some "Please verify your email to activate your account.";
                      requiresVerification := true;
                      error_email := None |})), ls)
      else Some (s, ls)
  | ownerRegister_pending =>
      Some (s |> set_registerLoading true |> set_registerError None, ls)
  | ownerRegister_fulfilled payload =>
      Some (s |> set_registerLoading false
              |> set_successMessage (message_or
                   "Registration successful! Please check your email for verification."
                   payload), ls)
  | ownerRegister_rejected p =>
      Some (s |> set_registerLoading false |> set_registerError p, ls)
  | loadUserFromToken_pending => Some (s |> set_loading true, ls)
  | loadUserFromToken_fulfilled payload =>
      let s := s |> set_loading false in
      let userData := from_option id (profile payload) (data payload) in
      let verifiedUserData :=
        with_email_verified (email_verified_or true userData) userData in
      Some (s |> set_user (Some verifiedUserData) |> set_owner (Some verifiedUserData)
              |> set_isAuthenticated true
              |> set_isOwner (bool_decide (user_type verifiedUserData = "owner")), ls)
  | loadUserFromToken_rejected p =>
      Some (s |> set_loading false |> set_isAuthenticated false
              |> set_user None |> set_owner None, ls)
  | verifyEmailCode_pending =>
      Some (s |> set_verificationLoading true |> set_verificationError None, ls)
  | verifyEmailCode_fulfilled payload =>
      Some (s |> set_verificationLoading false |> set_user (resp_user payload)
              |> set_isAuthenticated true
              |> set_successMessage (Some "Email verified successfully!"), ls)
  | verifyEmailCode_rejected p =>
      Some (s |> set_verificationLoading false |> set_verificationError p, ls)
  | resendVerificationEmail_pending =>
      Some (s |> set_verificationLoading true |> set_verificationError None, ls)
  | resendVerificationEmail_fulfilled =>
      Some (s |> set_verificationLoading false
              |> set_successMessage (Some "Verification code sent successfully!"), ls)
  | resendVerificationEmail_rejected p =>
      Some (s |> set_verificationLoading false |> set_verificationError p, ls)
  | ownerVerifyEmail_pending =>
      Some (s |> set_verificationLoading true |> set_verificationError None, ls)
  | ownerVerifyEmail_fulfilled payload =>
      Some (s |> set_verificationLoading false
              |> set_successMessage (message_or
                   "Verification email sent successfully!" payload), ls)
  | ownerVerifyEmail_rejected p =>
      Some (s |> set_verificationLoading false |> set_verificationError p, ls)
  | ownerVerifyCode_pending =>
      Some (s |> set_verificationLoading true |> set_verificationError None, ls)
  | ownerVerifyCode_fulfilled payload =>
      Some (s |> set_verificationLoading false
              |> set_successMessage (message_or
                   "Email verified successfully! You can now log in." payload), ls)
  | ownerVerifyCode_rejected p =>
      Some (s |> set_verificationLoading false |> set_verificationError p, ls)
  | verify2FACode_pending =>
      Some (s |> set_verificationLoading true |> set_verificationError None, ls)
  | verify2FACode_fulfilled payload =>
      t ← tokens payload;
      Some (s |> set_verificationLoading false |> set_user (resp_user payload)
              |> set_token (access t) |> set_refreshToken (refresh t)
              |> set_isAuthenticated true
              |> set_isOwner (is_owner_type (resp_user payload))
              |> set_requires2FA false |> set_tempLoginData None
              |> set_successMessage (Some "Login successful"),
            ls |> setItem "token" (Js.to_string (access t))
               |> setItem "refreshToken" (Js.to_string (refresh t)))
  | verify2FACode_rejected p =>
      Some (s |> set_verificationLoading false |> set_verificationError p, ls)
  | socialLogin_fulfilled payload =>
      Some (s |> set_user (resp_user payload)
              |> set_token (tokens payload ≫= access)
              |> set_refreshToken (tokens payload ≫= refresh)
              |> set_isAuthenticated true
              |> set_isOwner (is_owner_type (resp_user payload))
              |> set_successMessage (Some "Login successful"), ls)
  | socialLogin_rejected p => Some (s |> set_loginError p, ls)
  | other => Some (s, ls)
  end.

End AuthSlice.

(** ** components/ProtectedRoute.jsx *)

Module Guard.

Record Props := {
  requiredPermission : option string;
  restaurantId : option Z;
  ownerOnly : bool;
  requireEmailVerified : bool;
  allowUnverified : bool
}.


(** What the component returns. *)
Inductive Rendered :=
| Spinner                                        (* "Checking authentication..." *)
| Navigate (to : string) (from : option string)  (* [from]: the [state] prop *)
| Children
| TypeError.                                     (* [user.user_type] of [null] *)

(** [user?.email_verified] as a condition. *)
Definition verified (u : option User) : bool :=
  match u ≫= email_verified with
  | Some b => b
  | None => false
  end.

Definition allowedWithoutVerification (pathname : string) : bool :=
  existsb (fun path => Js.includes path pathname)
          ["/verify-email"; "/logout"; "/settings"].

Definition ProtectedRoute (props : Props) (auth : AuthSlice.State)
    (ls : LocalStorage) (pathname : string) : Rendered :=
  let isAuthenticated := AuthSlice.isAuthenticated auth in
  let user := AuthSlice.user auth in
  if AuthSlice.loading auth then Spinner
  else
    let hasPendingVerification := Js.truthy (getItem "pendingVerificationEmail" ls) in
    if isAuthenticated && verified user && bool_decide (pathname = "/login")
    then Navigate "/owner/dashboard" None
    else if negb isAuthenticated && negb hasPendingVerification
    then Navigate "/login" (Some pathname)
    else if negb isAuthenticated && hasPendingVerification
            && negb (Js.includes "/verify-email" pathname)
    then Navigate "/verify-email" None
    else if isAuthenticated && requireEmailVerified props && negb (verified user)
            && (negb (allowedWithoutVerification pathname) && negb (allowUnverified props))
    then Navigate "/verify-email" (Some pathname)
    else
      match (if isAuthenticated && ownerOnly props
             then (fun u => negb (bool_decide (user_type u = "owner"))) <$> user
             else Some false) with
      | None => TypeError
      | Some true => Navigate "/unauthorized" None
      | Some false =>
          if isAuthenticated && Js.truthy (requiredPermission props)
             && negb (Permissions.hasPermission user
                        (Js.to_string (requiredPermission props)) (restaurantId props))
          then Navigate "/unauthorized" None
          else Children
      end.

End Guard.

(** ** HTTP: what both clients share *)

Abbreviation Headers := (gmap string string).
Abbreviation Body := (gmap string string).

(** What the network delivers for a request. *)
Inductive HttpResponse :=
| Http (status : Z) (body : Body)
| NoResponse.

(** Axios resolves a 2xx status and rejects every other. *)
Definition is_2xx (status : Z) : bool := (200 <=? status)%Z && (status <? 300)%Z.

(** Bookkeeping of the model, not of the program: what a run did for the
    request it was started for, its resends included.  The requests its
    recovery makes (the CSRF fetch, the refresh call) are requests of their
    own; they appear in the log of sent requests. *)
Record Tally := mkTally {
  sends : nat;            (* times the request went on the wire *)
  csrf_recoveries : nat;  (* CSRF re-acquisitions made for it *)
  token_refreshes : nat   (* calls of the refresh endpoint made for it *)
}.

Definition no_tally : Tally := mkTally 0 0 0.
Definition one_send : Tally := mkTally 1 0 0.
Definition one_csrf_recovery : Tally := mkTally 0 1 0.
Definition one_token_refresh : Tally := mkTally 0 0 1.

Definition counted {W O : Type} (t : Tally) (r : W * O * Tally) : W * O * Tally :=
  let '(w, o, u) := r in
  (w, o, mkTally (sends t + sends u) (csrf_recoveries t + csrf_recoveries u)
                 (token_refreshes t + token_refreshes u)).

(** ** Owner portal, services/api.js: CSRF coordinator and HTTP client *)

Module OwnerApi.

(** An axios request config, with the two retry marks the response
    interceptor writes on it. *)
Record Config := mkConfig {
  method : string;
  url : string;
  headers : Headers;
  data : Body;
  _csrfRetried : bool;
  _retry : bool
}.

Definition set_header (k v : string) (c : Config) : Config :=
  mkConfig (method c) (url c) (<[k := v]> (headers c)) (data c) (_csrfRetried c) (_retry c).
Definition set__csrfRetried (v : bool) (c : Config) : Config :=
  mkConfig (method c) (url c) (headers c) (data c) v (_retry c).
Definition set__retry (v : bool) (c : Config) : Config :=
  mkConfig (method c) (url c) (headers c) (data c) (_csrfRetried c) v.

(** A rejection: an axios error ([error.config], [error.response]) or a
    plain [Error]. *)
Inductive Error :=
| AxiosError (config : Config) (response : option (Z * Body))
| JsError (message : string).

(** [error.response?.status]. *)
Definition status_of (e : Error) : option Z :=
  match e with
  | AxiosError _ response => fst <$> response
  | JsError _ => None
  end.

(** What an awaited axios call yields. *)
Inductive Reply :=
| Response (body : Body)
| Thrown (error : Error).

(** A run stops at [Pending] when it awaits something that has not
    arrived. *)
Inductive Outcome :=
| Done (reply : Reply)
| Pending.

(** Settlement of a promise made by [getCSRFToken]. *)
Inductive Settled :=
| Fulfilled (token : string)
| RejectedWith (error : Error).

(** The Redux auth state, [localStorage], the module variables of api.js,
    the promises [getCSRFToken] has made (a pending one is [None]), the
    requests put on the wire (latest first) and the replies the network is
    going to deliver, in order. *)
Record World := mkWorld {
  auth : AuthSlice.State;
  storage : LocalStorage;
  csrfToken : option string;
  isInitialized : bool;
  initializationPromise : option nat;
  initializationCount : nat;
  promises : list (option Settled);
  sent : list Config;
  inbox : list HttpResponse
}.

Definition set_auth (v : AuthSlice.State) (s : World) : World :=
  mkWorld v (storage s) (csrfToken s) (isInitialized s) (initializationPromise s)
    (initializationCount s) (promises s) (sent s) (inbox s).
Definition set_storage (v : LocalStorage) (s : World) : World :=
  mkWorld (auth s) v (csrfToken s) (isInitialized s) (initializationPromise s)
    (initializationCount s) (promises s) (sent s) (inbox s).
Definition set_csrfToken (v : option string) (s : World) : World :=
  mkWorld (auth s) (storage s) v (isInitialized s) (initializationPromise s)
    (initializationCount s) (promises s) (sent s) (inbox s).
Definition set_isInitialized (v : bool) (s : World) : World :=
  mkWorld (auth s) (storage s) (csrfToken s) v (initializationPromise s)
    (initializationCount s) (promises s) (sent s) (inbox s).
Definition set_initializationPromise (v : option nat) (s : World) : World :=
  mkWorld (auth s) (storage s) (csrfToken s) (isInitialized s) v (initializationCount s)
    (promises s) (sent s) (inbox s).
Definition set_initializationCount (v : nat) (s : World) : World :=
  mkWorld (auth s) (storage s) (csrfToken s) (isInitialized s) (initializationPromise s)
    v (promises s) (sent s) (inbox s).
Definition set_promises (v : list (option Settled)) (s : World) : World :=
  mkWorld (auth s) (storage s) (csrfToken s) (isInitialized s) (initializationPromise s)
    (initializationCount s) v (sent s) (inbox s).
Definition set_sent (v : list Config) (s : World) : World :=
  mkWorld (auth s) (storage s) (csrfToken s) (isInitialized s) (initializationPromise s)
    (initializationCount s) (promises s) v (inbox s).
Definition set_inbox (v : list HttpResponse) (s : World) : World :=
  mkWorld (auth s) (storage s) (csrfToken s) (isInitialized s) (initializationPromise s)
    (initializationCount s) (promises s) (sent s) v.

(** The module variables when the script is loaded. *)
Definition boot (ls : LocalStorage) (net : list HttpResponse) : World := {|
  auth := AuthSlice.initialState ls;
  storage := ls;
  csrfToken := getItem "csrfToken" ls;
  isInitialized := false;
  initializationPromise := None;
  initializationCount := 0;
  promises := [];
  sent := [];
  inbox := net
|}.

(** [api.get(url, { headers })], [api.post(url, data)]: a fresh config over
    the defaults of the instance. *)
Definition new_config (method url : string) (headers : Headers) (data : Body) : Config :=
  mkConfig method url (<["Content-Type" := "application/json"]> headers) data false false.

Definition csrf_config : Config :=
  new_config "get" "/auth/csrf/" {["X-CSRF-Request" := "true"]} ∅.

Definition refresh_config (refreshToken : string) : Config :=
  new_config "post" "/auth/token/refresh/" ∅ {["refresh" := refreshToken]}.

(** The request interceptor. *)
Definition request_interceptor (w : World) (config : Config) : Config :=
  let token := getItem "token" (storage w) in
  let config :=
    if Js.truthy token
    then set_header "Authorization" ("Bearer " ++ Js.to_string token) config
    else config in
  let isStateChangingMethod :=
    bool_decide (Js.toLowerCase (method config) ∈ ["post"; "put"; "patch"; "delete"]) in
  let isInternalAPI := Js.startsWith "/" (url config) in
  let isCSRFRequest := Js.truthy (headers config !! "X-CSRF-Request") in
  if isStateChangingMethod && isInternalAPI && negb isCSRFRequest
     && Js.truthy (csrfToken w)
  then set_header "X-CSRFToken" (Js.to_string (csrfToken w)) config
  else config.

(** A request of the [api] instance leaves: the request interceptor runs
    and the result goes on the wire. *)
Definition put_on_wire (config : Config) (w : World) : Config * World :=
  let config := request_interceptor w config in
  (config, w |> set_sent (config :: sent w)).

(** *** getCSRFToken *)

(** What a caller of [getCSRFToken] holds when the call returns: the cached
    token, the promise of an acquisition already in flight, or the promise
    of the acquisition this call has started (with its request). *)
Inductive Returned :=
| Cached (token : string)
| Joined (pid : nat)
| Started (pid : nat) (request : Config).

Definition promise_of (r : Returned) : option nat :=
  match r with
  | Cached _ => None
  | Joined pid | Started pid _ => Some pid
  end.

(** [getCSRFToken(forceRefresh)] up to the [await] of [api.get]. *)
Definition getCSRFToken (forceRefresh : bool) (w : World) : World * Returned :=
  if negb forceRefresh && Js.truthy (csrfToken w)
  then (w, Cached (Js.to_string (csrfToken w)))
  else
    match initializationPromise w with
    | Some pid => (w, Joined pid)
    | None =>
        let w := w |> set_initializationCount (S (initializationCount w)) in
        let pid := length (promises w) in
        let '(request, w) := put_on_wire csrf_config w in
        (w |> set_promises (promises w ++ [None])
           |> set_initializationPromise (Some pid),
         Started pid request)
    end.

(** The [catch] block: the cache is dropped on 403 and 401 only, and the
    error is thrown again. *)
Definition csrf_catch (error : Error) (w : World) : World * Settled :=
  (if bool_decide (status_of error = Some 403%Z) || bool_decide (status_of error = Some 401%Z)
   then w |> set_csrfToken None
          |> set_storage (removeItem "csrfToken" (storage w))
          |> set_isInitialized false
   else w,
   RejectedWith error).

(** [getCSRFToken] from the moment [api.get] settles with [reply]: the rest
    of the [try], the [catch], the [finally], and the settlement of the
    shared promise. *)
Definition csrf_settle (reply : Reply) (w : World) : World :=
  match initializationPromise w with
  | None => w
  | Some pid =>
      let '(w, result) :=
        match reply with
        | Response body =>
            if Js.truthy (body !! "csrfToken")
            then
              let newToken := Js.to_string (body !! "csrfToken") in
              (w |> set_csrfToken (Some newToken)
                 |> set_storage (setItem "csrfToken" newToken (storage w))
                 |> set_isInitialized true,
               Fulfilled newToken)
            else csrf_catch (JsError "No CSRF token in response") w
        | Thrown error => csrf_catch error w
        end in
      w |> set_initializationPromise None
        |> set_promises (<[pid := Some result]> (promises w))
  end.

(** What awaiting promise [pid] gives: [None] while it is pending. *)
Definition awaited (pid : nat) (w : World) : option Settled :=
  mjoin (promises w !! pid).

(** [initializeApp()] up to its first [await]. *)
Definition initializeApp (w : World) : World * Returned :=
  if isInitialized w && Js.truthy (csrfToken w)
  then (w, Cached (Js.to_string (csrfToken w)))
  else
    match initializationPromise w with
    | Some pid => (w, Joined pid)
    | None => getCSRFToken false w
    end.

(** Interleavings of callers and of the network: a caller runs
    [getCSRFToken] up to its [await]; the network settles the fetch that is
    in flight. *)
Inductive Event :=
| Call (forceRefresh : bool)
| Settle (reply : Reply).

Fixpoint run (events : list Event) (w : World) : World * list Returned :=
  match events with
  | [] => (w, [])
  | Call forceRefresh :: events =>
      let '(w, r) := getCSRFToken forceRefresh w in
      let '(w, rs) := run events w in
      (w, r :: rs)
  | Settle reply :: events => run events (csrf_settle reply w)
  end.

(** Acquisitions in flight: the promises not settled yet. *)
Definition is_pending (p : option Settled) : bool :=
  match p with
  | None => true
  | Some _ => false
  end.
Definition in_flight (w : World) : nat := length (List.filter is_pending (promises w)).

(** The coordinator is consistent: the promise [initializationPromise]
    points to is the one pending promise, and without it none is pending. *)
Definition coordinated (w : World) : Prop :=
  match initializationPromise w with
  | Some pid => promises w !! pid = Some None /\ in_flight w = 1
  | None => in_flight w = 0
  end.

(** A call that is not served from the cache: it is forced, or no token is
    cached. *)
Definition misses_cache (w : World) (forceRefresh : bool) : Prop :=
  forceRefresh = true \/ Js.truthy (csrfToken w) = false.

(** The fetches of the CSRF endpoint among the requests sent. *)
Definition is_csrf_fetch (c : Config) : bool := bool_decide (url c = "/auth/csrf/").
Definition csrf_fetches (w : World) : nat := length (List.filter is_csrf_fetch (sent w)).

(** *** The response interceptor, one request at a time

    A request and everything its recovery starts, run to the end against
    the replies of [inbox].  No other task is scheduled: a run that has to
    wait for an acquisition it did not start stays [Pending].

    The [Tally] of a run counts what was done for the request itself. *)

(** The reply an awaited request settles with: axios rejects every status
    outside 2xx. *)
Definition reply_of (config : Config) (r : HttpResponse) : Reply :=
  match r with
  | Http status body =>
      if is_2xx status
      then Response body
      else Thrown (AxiosError config (Some (status, body)))
  | NoResponse => Thrown (AxiosError config None)
  end.

Section Interceptor.

(** How a request that is on the wire completes (the recursive call). *)
Variable recv : Config -> World -> World * Outcome * Tally.

(** [api(config)]: through the request interceptor, onto the wire, then
    completion. *)
Definition api_with (config : Config) (w : World) : World * Outcome * Tally :=
  let '(config, w) := put_on_wire config w in
  counted one_send (recv config w).

(** [await getCSRFToken(forceRefresh)]. *)
Definition await_getCSRFToken (forceRefresh : bool) (w : World)
    : World * option Settled :=
  let '(w, ret) := getCSRFToken forceRefresh w in
  match ret with
  | Cached token => (w, Some (Fulfilled token))
  | Joined pid => (w, awaited pid w)
  | Started pid request =>
      let '(w, o, _) := recv request w in
      match o with
      | Pending => (w, None)
      | Done reply =>
          let w := csrf_settle reply w in
          (w, awaited pid w)
      end
  end.

(** The 401 branch and the final [Promise.reject(error)]. *)
Definition jwt_expiration (originalRequest : Config) (response : option (Z * Body))
    (w : World) : World * Outcome * Tally :=
  if bool_decide (fst <$> response = Some 401%Z) && negb (_retry originalRequest)
  then
    let originalRequest := set__retry true originalRequest in
    let refreshToken := getItem "refreshToken" (storage w) in
    if Js.truthy refreshToken
    then
      let '(w, o, _) := api_with (refresh_config (Js.to_string refreshToken)) w in
      match o with
      | Pending => (w, Pending, one_token_refresh)
      | Done (Response body) =>
          let newToken := Js.to_string (body !! "access") in
          let w := w |> set_storage (setItem "token" newToken (storage w)) in
          let originalRequest :=
            set_header "Authorization" ("Bearer " ++ newToken) originalRequest in
          counted one_token_refresh (api_with originalRequest w)
      | Done (Thrown refreshError) =>
          (w, Done (Thrown (AxiosError originalRequest response)), one_token_refresh)
      end
    else (w, Done (Thrown (AxiosError originalRequest response)), no_tally)
  else (w, Done (Thrown (AxiosError originalRequest response)), no_tally).

(** The error handler of the response interceptor. *)
Definition response_error (error : Error) (w : World) : World * Outcome * Tally :=
  match error with
  | JsError _ => (w, Done (Thrown error), no_tally)
  | AxiosError originalRequest response =>
      if bool_decide (fst <$> response = Some 403%Z)
         && negb (_csrfRetried originalRequest)
         && negb (Js.truthy (headers originalRequest !! "X-CSRF-Request"))
      then
        let originalRequest := set__csrfRetried true originalRequest in
        let '(w, token) := await_getCSRFToken true w in
        match token with
        | None => (w, Pending, one_csrf_recovery)
        | Some (RejectedWith csrfError) =>
            (w, Done (Thrown (JsError "Security token validation failed")),
             one_csrf_recovery)
        | Some (Fulfilled _) =>
            if Js.truthy (csrfToken w)
            then
              let originalRequest :=
                set_header "X-CSRFToken" (Js.to_string (csrfToken w)) originalRequest in
              counted one_csrf_recovery (api_with originalRequest w)
            else counted one_csrf_recovery (jwt_expiration originalRequest response w)
        end
      else jwt_expiration originalRequest response w
  end.

End Interceptor.

(** Completion of a request that is on the wire: its reply is the next of
    [inbox]; a failure goes through the error handler.  Every step takes a
    reply, so [fuel] above the length of [inbox] is never used up. *)
Fixpoint receive (fuel : nat) (config : Config) (w : World) : World * Outcome * Tally :=
  match fuel with
  | O => (w, Pending, no_tally)
  | S fuel =>
      match inbox w with
      | [] => (w, Pending, no_tally)
      | r :: rest =>
          let w := w |> set_inbox rest in
          match reply_of config r with
          | Response body => (w, Done (Response body), no_tally)
          | Thrown error => response_error (receive fuel) error w
          end
      end
  end.

(** [api(config)] run to the end. *)
Definition api (config : Config) (w : World) : World * Outcome * Tally :=
  api_with (receive (S (length (inbox w)))) config w.

Definition is_refresh_call (c : Config) : bool :=
  bool_decide (url c = "/auth/token/refresh/").
Definition refresh_calls (w : World) : nat := length (List.filter is_refresh_call (sent w)).

End OwnerApi.

(** ** store/slices/authSlice.js: the thunks

    A thunk dispatches its [pending] action, runs its payload creator and
    dispatches [fulfilled] or [rejected].  The call of [authService] inside
    is a request of the owner [api] instance; what awaiting it gives (the
    body, or the error thrown) is the [reply] argument.  The request log
    gets the request as the thunk sends it; what the response interceptor
    does before the call settles (a CSRF fetch, a token refresh, a resend)
    is the run of [OwnerApi.api], and is not repeated here. *)

Module Thunks.

Import AuthSlice.

(** The error caught by a payload creator: [error.response?.data] and
    [error.message]. *)
Record ServiceError := {
  response_data : option ErrorData;
  error_message : string
}.

Inductive ServiceReply :=
| Returned (response : AuthResponse)
| Threw (e : ServiceError).

(** The registration form; only [email] is read by the thunk. *)
Record OwnerData := { od_email : string; od_fields : Body }.

(** The body of a login request: the credentials as typed. *)
Definition credentials_body (c : Credentials) : Body :=
  <["username" := username c]> {["password" := password c]}.

(** [store.dispatch(action)] on the auth slice. *)
Definition dispatch (a : Action) (w : OwnerApi.World) : OwnerApi.World :=
  match reducer a (OwnerApi.auth w) (OwnerApi.storage w) with
  | Some (s, ls) => w |> OwnerApi.set_auth s |> OwnerApi.set_storage ls
  | None => w
  end.

(** The last dispatch of a thunk; the action is returned with the world. *)
Definition finish (a : Action) (w : OwnerApi.World) : OwnerApi.World * Action :=
  (dispatch a w, a).

(** [api.post(url, data)] leaves. *)
Definition post (url : string) (data : Body) (w : OwnerApi.World) : OwnerApi.World :=
  snd (OwnerApi.put_on_wire (OwnerApi.new_config "post" url ∅ data) w).

Definition store (f : LocalStorage -> LocalStorage) (w : OwnerApi.World) : OwnerApi.World :=
  w |> OwnerApi.set_storage (f (OwnerApi.storage w)).

(** [error.response?.data || error.message]. *)
Definition payload_of (e : ServiceError) : Payload :=
  match response_data e with
  | Some d => PData d
  | None => PText (error_message e)
  end.

(** [response.tokens?.access], [response.tokens?.refresh]. *)
Definition tokens_access (r : AuthResponse) : option string := tokens r ≫= access.
Definition tokens_refresh (r : AuthResponse) : option string := tokens r ≫= refresh.

(** [authService.login] and [authService.ownerLogin] after the reply. *)
Definition keep_refresh (r : AuthResponse) (w : OwnerApi.World) : OwnerApi.World :=
  if Js.truthy (tokens_refresh r)
  then store (setItem "refreshToken" (Js.to_string (tokens_refresh r))) w
  else w.

(** [if (response.tokens?.access) { setItem('token'); setItem('refreshToken') }]. *)
Definition keep_tokens (r : AuthResponse) (w : OwnerApi.World) : OwnerApi.World :=
  if Js.truthy (tokens_access r)
  then w |> store (setItem "token" (Js.to_string (tokens_access r)))
         |> store (setItem "refreshToken" (Js.to_string (tokens_refresh r)))
  else w.

Definition initializeCSRF (reply : OwnerApi.Reply) (w : OwnerApi.World)
    : OwnerApi.World * Action :=
  let w := dispatch initializeCSRF_pending w in
  if csrfInitialized (OwnerApi.auth w)
  then finish initializeCSRF_fulfilled w
  else
    let '(w, ret) := OwnerApi.initializeApp w in
    match ret with
    | OwnerApi.Cached _ => finish initializeCSRF_fulfilled w
    | OwnerApi.Joined _ | OwnerApi.Started _ _ =>
        (* resolved or thrown, the creator returns an object *)
        finish initializeCSRF_fulfilled (OwnerApi.csrf_settle reply w)
    end.

Definition includes_not_verified (d : ErrorData) : bool :=
  match error_text d with
  | Some e => Js.includes "not verified" e || Js.includes "not activated" e
  | None => false
  end.

Definition ownerLogin (credentials : Credentials) (reply : ServiceReply)
    (w : OwnerApi.World) : OwnerApi.World * Action :=
  let w := dispatch ownerLogin_pending w in
  let w := post "/owner/auth/login/" (credentials_body credentials) w in
  let catch (e : ServiceError) (w : OwnerApi.World) :=
    let errorData :=
      match response_data e with
      | Some d => d
      | None => {| error_text := Some (error_message e);
                   requiresVerification := false; error_email := None |}
      end in
    if includes_not_verified errorData
    then
      let w := w |> store (setItem "pendingVerificationEmail" (username credentials))
                 |> store (setItem "pendingUserType" "owner") in
      finish (ownerLogin_rejected (Some (PData
               {| error_text := error_text errorData;
                  requiresVerification := true;
                  error_email := Some (username credentials) |}))) w
    else finish (ownerLogin_rejected (Some (PData errorData))) w in
  match reply with
  | Returned response =>
      let w := keep_refresh response w in
      match resp_user response with
      | None =>
          catch {| response_data := None;
                   error_message := "Cannot read properties of undefined (reading 'email_verified')" |} w
      | Some u =>
          let userData := with_email_verified (email_verified_or false u) u in
          finish (ownerLogin_fulfilled
                    {| requires_2fa := requires_2fa response;
                       resp_user := Some userData;
                       tokens := tokens response;
                       message := message response |} credentials) w
      end
  | Threw e => catch e w
  end.

(** What [authService.getCurrentOwner()] gives. *)
Inductive ProfileReply :=
| GotProfile (response : Profile)
| ProfileThrew (e : ServiceError).

Definition loadUserFromToken (reply : ProfileReply) (w : OwnerApi.World)
    : OwnerApi.World * Action :=
  let w := dispatch loadUserFromToken_pending w in
  let catch (e : ServiceError) (w : OwnerApi.World) :=
    let w := w |> store (removeItem "token") |> store (removeItem "refreshToken") in
    finish (loadUserFromToken_rejected (Some (payload_of e))) w in
  if Js.truthy (getItem "token" (OwnerApi.storage w))
  then
    let w := snd (OwnerApi.put_on_wire
                    (OwnerApi.new_config "get" "/owner/auth/me/" ∅ ∅) w) in
    match reply with
    | GotProfile response =>
        let userData := from_option id (profile response) (data response) in
        let verifiedStatus := email_verified_or true userData in
        finish (loadUserFromToken_fulfilled
                  {| profile := with_email_verified verifiedStatus userData;
                     data := None |}) w
    | ProfileThrew e => catch e w
    end
  else catch {| response_data := None; error_message := "No token found" |} w.

Definition ownerRegister (ownerData : OwnerData) (reply : ServiceReply)
    (w : OwnerApi.World) : OwnerApi.World * Action :=
  let w := dispatch ownerRegister_pending w in
  let w := post "/owner/auth/register/" (od_fields ownerData) w in
  match reply with
  | Returned response =>
      let w := w |> store (setItem "pendingVerificationEmail" (od_email ownerData))
                 |> store (setItem "pendingUserType" "owner") in
      finish (ownerRegister_fulfilled response) w
  | Threw e => finish (ownerRegister_rejected (Some (payload_of e))) w
  end.

Definition verifyEmailCode (email code : string) (reply : ServiceReply)
    (w : OwnerApi.World) : OwnerApi.World * Action :=
  let w := dispatch verifyEmailCode_pending w in
  let w := post "/auth/verify-code/" (<["email" := email]> {["code" := code]}) w in
  match reply with
  | Returned response =>
      let w := w |> store (removeItem "pendingVerificationEmail")
                 |> store (removeItem "pendingUserType") in
      finish (verifyEmailCode_fulfilled response) w
  | Threw e => finish (verifyEmailCode_rejected (Some (payload_of e))) w
  end.

Definition socialLogin (provider token : string) (reply : ServiceReply)
    (w : OwnerApi.World) : OwnerApi.World * Action :=
  let w := dispatch other w in
  let catch (e : ServiceError) (w : OwnerApi.World) :=
    finish (socialLogin_rejected (Some (PData
      match response_data e with
      | Some d => d
      | None => {| error_text := Some (provider ++ " authentication failed");
                   requiresVerification := false; error_email := None |}
      end))) w in
  let after (w : OwnerApi.World) :=
    match reply with
    | Returned response => finish (socialLogin_fulfilled response) (keep_tokens response w)
    | Threw e => catch e w
    end in
  if bool_decide (provider = "google")
  then after (post "/auth/google/login/" {["token" := token]} w)
  else if bool_decide (provider = "facebook")
  then after (post "/auth/facebook/login/" {["token" := token]} w)
  else catch {| response_data := None;
                error_message := "Unsupported provider: " ++ provider |} w.

Definition login (credentials : Credentials) (reply : ServiceReply)
    (w : OwnerApi.World) : OwnerApi.World * Action :=
  let w := dispatch other w in
  let w := post "/auth/login/" (credentials_body credentials) w in
  match reply with
  | Returned response => finish other (keep_tokens response (keep_refresh response w))
  | Threw e => finish other w
  end.


End Thunks.

(** ** Customer storefront, services/api.js *)

Module CustomerApi.

Record Config := mkConfig {
  method : string;
  url : string;
  headers : Headers;
  data : Body;
  _retry : bool
}.

Definition set_header (k : string) (v : option string) (c : Config) : Config :=
  mkConfig (method c) (url c)
           (match v with Some v => <[k := v]> (headers c) | None => delete k (headers c) end)
           (data c) (_retry c).
Definition set__retry (v : bool) (c : Config) : Config :=
  mkConfig (method c) (url c) (headers c) (data c) v.

(** A request on the wire: of the [api] instance, or of plain [axios]
    (which has no interceptors). *)
Inductive Wire :=
| ViaApi (config : Config)
| Direct (method url : string).

Inductive Error :=
| ApiError (config : Config) (response : option (Z * Body))
| DirectError (response : option (Z * Body)).

Inductive Reply :=
| Response (body : Body)
| Thrown (error : Error).

Inductive Outcome :=
| Done (reply : Reply)
| Pending.

(** [localStorage], [document.cookie], [window.location.href], the requests
    put on the wire (latest first) and the replies the network is going to
    deliver, in order. *)
Record World := mkWorld {
  storage : LocalStorage;
  document_cookie : string;
  location_href : string;
  sent : list Wire;
  inbox : list HttpResponse
}.

Definition set_storage (v : LocalStorage) (s : World) : World :=
  mkWorld v (document_cookie s) (location_href s) (sent s) (inbox s).
Definition set_document_cookie (v : string) (s : World) : World :=
  mkWorld (storage s) v (location_href s) (sent s) (inbox s).
Definition set_location_href (v : string) (s : World) : World :=
  mkWorld (storage s) (document_cookie s) v (sent s) (inbox s).
Definition set_sent (v : list Wire) (s : World) : World :=
  mkWorld (storage s) (document_cookie s) (location_href s) v (inbox s).
Definition set_inbox (v : list HttpResponse) (s : World) : World :=
  mkWorld (storage s) (document_cookie s) (location_href s) (sent s) v.

Section Client.

(** [import.meta.env.VITE_BASE_URL]. *)
Variable VITE_BASE_URL : string.

Definition csrf_url : string := VITE_BASE_URL ++ "/api/auth/csrf/".
Definition refresh_url : string := VITE_BASE_URL ++ "/api/auth/token/refresh/".

(** [getCSRFToken()]: the value of the [csrftoken] cookie, or the empty string. *)
Definition getCSRFToken (w : World) : string :=
  let name := "csrftoken" in
  let row := List.find (fun row => Js.startsWith (name ++ "=") row)
                       (Js.split "; " (document_cookie w)) in
  let cookiesVlaue := row ≫= (fun row => Js.split "=" row !! 1%nat) in
  from_option id "" (Js.or_else cookiesVlaue (Some "")).

(** What a caller of [ensureCSRFToken] holds at its first stop: the cookie
    token, or a fetch of its own in flight. *)
Inductive Ensured :=
| Have (csrfToken : string)
| Fetching.

(** [ensureCSRFToken()] up to the [await] of [axios.get]. *)
Definition ensureCSRFToken (w : World) : World * Ensured :=
  let csrfToken := getCSRFToken w in
  if negb (Js.truthy (Some csrfToken))
  then (w |> set_sent (Direct "get" csrf_url :: sent w), Fetching)
  else (w, Have csrfToken).

(** [ensureCSRFToken()] from the reply on: the token of the body, or the
    empty cookie value when the fetch failed (the error is logged). *)
Definition ensureCSRFToken_settle (r : HttpResponse) : option string :=
  match r with
  | Http status body => if is_2xx status then body !! "csrfToken" else Some ""
  | NoResponse => Some ""
  end.

(** [await ensureCSRFToken()] in a run of one request: [None] when the
    reply of the fetch has not arrived. *)
Definition await_ensureCSRFToken (w : World) : World * option (option string) :=
  let '(w, e) := ensureCSRFToken w in
  match e with
  | Have csrfToken => (w, Some (Some csrfToken))
  | Fetching =>
      match inbox w with
      | [] => (w, None)
      | r :: rest => (w |> set_inbox rest, Some (ensureCSRFToken_settle r))
      end
  end.

(** Callers that reach [ensureCSRFToken] before any fetch is answered. *)
Fixpoint callers (n : nat) (w : World) : World * list Ensured :=
  match n with
  | O => (w, [])
  | S n =>
      let '(w, e) := ensureCSRFToken w in
      let '(w, es) := callers n w in
      (w, e :: es)
  end.

Definition is_csrf_fetch (x : Wire) : bool :=
  match x with
  | Direct _ url => bool_decide (url = csrf_url)
  | ViaApi _ => false
  end.
Definition csrf_fetches (w : World) : nat := length (List.filter is_csrf_fetch (sent w)).

Definition is_refresh_call (x : Wire) : bool :=
  match x with
  | Direct _ url => bool_decide (url = refresh_url)
  | ViaApi _ => false
  end.
Definition refresh_calls (w : World) : nat := length (List.filter is_refresh_call (sent w)).

Definition reply_of (config : Config) (r : HttpResponse) : Reply :=
  match r with
  | Http status body =>
      if is_2xx status
      then Response body
      else Thrown (ApiError config (Some (status, body)))
  | NoResponse => Thrown (ApiError config None)
  end.

(** The [catch] blocks of the interceptor: log the user out. *)
Definition force_login (w : World) : World :=
  w |> set_storage (storage w |> removeItem "access_token"
                              |> removeItem "refresh_token"
                              |> removeItem "user")
    |> set_location_href "/login".

(** The error handler of the response interceptor; [call] is [api]. *)
Definition response_error (call : Config -> World -> World * Outcome * Tally)
    (originalRequest : Config) (response : option (Z * Body)) (w : World)
    : World * Outcome * Tally :=
  let status := fst <$> response in
  if bool_decide (status = Some 403%Z) && negb (_retry originalRequest)
  then
    let originalRequest := set__retry true originalRequest in
    let '(w, newCSRFToken) := await_ensureCSRFToken w in
    match newCSRFToken with
    | None => (w, Pending, one_csrf_recovery)
    | Some newCSRFToken =>
        let originalRequest := set_header "X-CSRFToken" newCSRFToken originalRequest in
        counted one_csrf_recovery (call originalRequest w)
    end
  else if bool_decide (status = Some 401%Z) && negb (_retry originalRequest)
  then
    let originalRequest := set__retry true originalRequest in
    let refreshToken := getItem "refresh_token" (storage w) in
    if Js.truthy refreshToken
    then
      let w := w |> set_sent (Direct "post" refresh_url :: sent w) in
      match inbox w with
      | [] => (w, Pending, one_token_refresh)
      | r :: rest =>
          let w := w |> set_inbox rest in
          match r with
          | Http status body =>
              if is_2xx status
              then
                let access := body !! "access" in
                let w := w |> set_storage
                               (setItem "access_token" (Js.to_string access) (storage w)) in
                let originalRequest :=
                  set_header "Authorization" (Some ("Bearer " ++ Js.to_string access))
                             originalRequest in
                counted one_token_refresh (call originalRequest w)
              else (force_login w,
                    Done (Thrown (DirectError (Some (status, body)))),
                    one_token_refresh)
          | NoResponse =>
              (force_login w, Done (Thrown (DirectError None)), one_token_refresh)
          end
      end
    else (w, Done (Thrown (ApiError originalRequest response)), no_tally)
  else (w, Done (Thrown (ApiError originalRequest response)), no_tally).

(** The request interceptor, which may have to await a CSRF fetch. *)
Definition request_interceptor (config : Config) (w : World) : World * option Config :=
  let '(w, config) :=
    if negb (bool_decide (method config = "get"))
    then
      let '(w, csrfToken) := await_ensureCSRFToken w in
      match csrfToken with
      | None => (w, None)
      | Some csrfToken =>
          (w, Some (if Js.truthy csrfToken
                    then set_header "X-CSRFToken" csrfToken config
                    else config))
      end
    else (w, Some config) in
  match config with
  | None => (w, None)
  | Some config =>
      let authToken := getItem "access_token" (storage w) in
      (w, Some (if Js.truthy authToken
                then set_header "Authorization"
                                (Some ("Bearer " ++ Js.to_string authToken)) config
                else config))
  end.

(** [api(config)] run against the replies of [inbox].  Every call that
    recurses has taken a reply first. *)
Fixpoint api_fuel (fuel : nat) (config : Config) (w : World) : World * Outcome * Tally :=
  match fuel with
  | O => (w, Pending, no_tally)
  | S fuel =>
      let '(w, config) := request_interceptor config w in
      match config with
      | None => (w, Pending, no_tally)
      | Some config =>
          let w := w |> set_sent (ViaApi config :: sent w) in
          match inbox w with
          | [] => (w, Pending, one_send)
          | r :: rest =>
              let w := w |> set_inbox rest in
              match reply_of config r with
              | Response body => (w, Done (Response body), one_send)
              | Thrown (ApiError originalRequest response) =>
                  counted one_send
                    (response_error (api_fuel fuel) originalRequest response w)
              | Thrown error => (w, Done (Thrown error), one_send)
              end
          end
      end
  end.

Definition api (config : Config) (w : World) : World * Outcome * Tally :=
  api_fuel (S (length (inbox w))) config w.

End Client.

End CustomerApi.

(** ** Session states the application can reach *)

Module Session.

Import AuthSlice.

(** The store starts from [initialState], computed from the [localStorage]
    found at start; from there every action of the slice may be dispatched
    with any payload, and [localStorage] may be rewritten in between (the
    thunks, the services and the interceptors all write it). *)
Inductive reachable (ls0 : LocalStorage) : State -> LocalStorage -> Prop :=
| reach_start : reachable ls0 (initialState ls0) ls0
| reach_dispatch a s ls s' ls' :
    reachable ls0 s ls -> reducer a s ls = Some (s', ls') -> reachable ls0 s' ls'
| reach_storage s ls ls' :
    reachable ls0 s ls -> reachable ls0 s ls'.

(** The invariant as the specification words it. *)
Definition authenticated_iff_token_and_user (s : State) : Prop :=
  isAuthenticated s = true <-> Js.truthy (token s) = true /\ is_Some (user s).

(** What logout leaves of a state: the initial state of an empty storage,
    except for the loading flags and the CSRF status, which it keeps. *)
Definition logged_out (s : State) : State :=
  initialState ∅
    |> set_loading (loading s) |> set_loginLoading (loginLoading s)
    |> set_registerLoading (registerLoading s) |> set_staffLoading (staffLoading s)
    |> set_verificationLoading (verificationLoading s)
    |> set_csrfInitialized (csrfInitialized s) |> set_csrfLoading (csrfLoading s)
    |> set_csrfError (csrfError s).

End Session.


(** ** Retry bounds *)

Module Retry.

(** What the retry marks of a request still allow the owner client to do
    for it: one CSRF re-fetch unless [_csrfRetried] is set, one token
    refresh unless [_retry] is set, and a resend only after a recovery. *)
Definition owner_allows (config : OwnerApi.Config) (t : Tally) : Prop :=
  csrf_recoveries t <= (if OwnerApi._csrfRetried config then 0 else 1) /\
  token_refreshes t <= (if OwnerApi._retry config then 0 else 1) /\
  sends t <= csrf_recoveries t + token_refreshes t.

(** The customer client has one mark for both recoveries. *)
Definition customer_allows (config : CustomerApi.Config) (t : Tally) : Prop :=
  csrf_recoveries t + token_refreshes t <= (if CustomerApi._retry config then 0 else 1) /\
  sends t <= 1 + csrf_recoveries t + token_refreshes t.

End Retry.

(** * Further parts of the owner portal

    - [utils/permissions.js], [canAccessRoute]       -> [RouteAccess]
    - [App.jsx]                                      -> [App]
    - [components/verification/VerifyEmailRoute.jsx] -> [VerifyEmail]
    - [authSlice.js], verification and 2FA thunks    -> [VerificationThunks]
    - [components/verification/TwoFactorAuth.jsx]    -> [TwoFactorAuth]
    - [utils/paginationUtils.js]                     -> [Json], [PaginationUtils]
    - [store/slices/ownerAuthSlice.js]               -> [OwnerAuthSlice]
    - [store/slices/logoutActions.js]                -> [LogoutActions]
    - [components/PublicRoute.jsx]                   -> [PublicGuard]
    - one CSRF acquisition and the interceptors      -> [Acquisition] *)

(** ** utils/permissions.js: the route table *)

Module RouteAccess.

(** The names an object literal inherits from [Object.prototype].  Read
    with [routePermissions[route]] they give a function (for [__proto__],
    the prototype object), which is truthy and has no [includes]. *)
Definition inherited : list string :=
  ["constructor"; "hasOwnProperty"; "isPrototypeOf"; "propertyIsEnumerable";
   "toLocaleString"; "toString"; "valueOf"; "__defineGetter__";
   "__defineSetter__"; "__lookupGetter__"; "__lookupSetter__"; "__proto__"].

Definition routePermissions : list (string * list string) :=
  [("/owner/dashboard", ["owner"; "manager"]);
   ("/owner/reports", ["owner"; "manager"]);
   ("/owner/staff", ["owner"; "manager"]);
   ("/owner/menu", ["owner"; "manager"]);
   ("/kitchen/orders", ["owner"; "manager"; "kitchen"]);
   ("/cashier/pos", ["owner"; "manager"; "cashier"])].

(** The own property [routePermissions[route]]. *)
Definition own (route : string) : option (list string) :=
  snd <$> List.find (fun entry => bool_decide (fst entry = route)) routePermissions.

(** [user.user_type === 'owner' ? 'owner' : user.staff_profile?.role]. *)
Definition level (user : User) : option string :=
  if bool_decide (user_type user = "owner") then Some "owner"
  else role <$> staff_profile user.

(** [canAccessRoute(user, route)]; [None]: a [TypeError] is thrown
    ([includes] is not a function). *)
Definition canAccessRoute (user : option User) (route : string) : option bool :=
  match user with
  | None => Some false
  | Some user =>
      match own route with
      | Some allowed =>
          Some (match level user with
                | Some l => bool_decide (l ∈ allowed)
                | None => false
                end)
      | None =>
          if bool_decide (route ∈ inherited) then None else Some false
      end
  end.

End RouteAccess.

(** ** App.jsx: redirects and start-up *)

Module App.

Import AuthSlice.

(** The redirect effect of [AutoRedirectHandler]: the path it navigates
    to, if it navigates.  [initialCheckComplete] is the component's own
    state. *)
Definition AutoRedirectHandler (auth : State) (initialCheckComplete : bool)
    (ls : LocalStorage) (currentPath : string) : option string :=
  if loading auth || negb initialCheckComplete then None
  else
    let pendingEmail := getItem "pendingVerificationEmail" ls in
    if isAuthenticated auth && Guard.verified (user auth)
       && (bool_decide (currentPath = "/login")
           || bool_decide (currentPath = "/verify-email"))
    then Some "/owner/dashboard"
    else if requires2FA auth && negb (Js.includes "/2fa" currentPath)
    then Some "/2fa"
    else if negb (isAuthenticated auth) && Js.truthy pendingEmail
            && negb (Js.includes "/verify-email" currentPath)
    then Some "/verify-email"
    else if isAuthenticated auth && bool_decide (is_Some (user auth))
            && negb (Guard.verified (user auth))
            && Js.includes "/owner" currentPath
    then Some "/verify-email"
    else None.

(** What [DashboardRoute] renders. *)
Inductive Dashboard :=
| LoadingUserData
| DashboardOverview
| ToVerifyEmail.

Definition DashboardRoute (auth : State) : Dashboard :=
  match user auth with
  | None => LoadingUserData
  | Some u => if Guard.verified (Some u) then DashboardOverview else ToVerifyEmail
  end.

(** [validateLocalStorage] of [useLocalStorageValidation]: a stored token
    that has not the three parts of a JWT is removed with its refresh
    token.  (No call of the [try] block throws here, so the [catch] block
    is not reached.) *)
Definition validateLocalStorage (ls : LocalStorage) : LocalStorage :=
  let token := getItem "token" ls in
  if Js.truthy token
     && negb (length (Js.split "." (Js.to_string token)) =? 3)%nat
  then ls |> removeItem "token" |> removeItem "refreshToken"
  else ls.

(** The [initializeApp] effect of [AppContent]; [csrfReply] and
    [profileReply] are what the two awaited requests give.  Both [unwrap]
    calls end the effect the same way: [appInitialized] is set. *)
Definition initializeApp (csrfReply : OwnerApi.Reply) (profileReply : Thunks.ProfileReply)
    (w : OwnerApi.World) : OwnerApi.World :=
  let '(w, _) := Thunks.initializeCSRF csrfReply w in
  let token := getItem "token" (OwnerApi.storage w) in
  if Js.truthy token
  then fst (Thunks.loadUserFromToken profileReply w)
  else w.

(** The page is loaded with [ls] in [localStorage]: the modules are
    evaluated (the store takes its initial state), then the effects of
    [AppContent] run in the order of its hooks. *)
Definition mount (ls : LocalStorage) (net : list HttpResponse)
    (csrfReply : OwnerApi.Reply) (profileReply : Thunks.ProfileReply) : OwnerApi.World :=
  OwnerApi.boot ls net
    |> Thunks.store validateLocalStorage
    |> initializeApp csrfReply profileReply.

End App.

(** ** components/verification/VerifyEmailRoute.jsx *)

Module VerifyEmail.

Import AuthSlice.

Inductive Rendered :=
| Spinner
| EmailVerification
| Navigate (to : string).

(** The user objects of the store have no [data] property here, so
    [user?.data || user] is [user]. *)
Definition VerifyEmailRoute (auth : State) (ls : LocalStorage) : Rendered :=
  if loading auth then Spinner
  else
    let hasPendingVerification := Js.truthy (getItem "pendingVerificationEmail" ls) in
    let actualUser := user auth in
    let isVerified := Guard.verified actualUser in
    if hasPendingVerification
       || (isAuthenticated auth && bool_decide (is_Some actualUser) && negb isVerified)
    then EmailVerification
    else if isAuthenticated auth && bool_decide (is_Some actualUser) && isVerified
    then Navigate "/owner/dashboard"
    else Navigate "/login".

End VerifyEmail.

(** ** store/slices/authSlice.js: the owner verification and 2FA thunks *)

Module VerificationThunks.

Import AuthSlice.

Definition ownerVerifyCode (email code : string) (reply : Thunks.ServiceReply)
    (w : OwnerApi.World) : OwnerApi.World * Action :=
  let w := Thunks.dispatch ownerVerifyCode_pending w in
  let w := Thunks.post "/owner/auth/verify-code/"
             (<["email" := email]> {["code" := code]}) w in
  match reply with
  | Thunks.Returned response =>
      let w := w |> Thunks.store (removeItem "pendingVerificationEmail")
                 |> Thunks.store (removeItem "pendingUserType") in
      Thunks.finish (ownerVerifyCode_fulfilled response) w
  | Thunks.Threw e =>
      Thunks.finish (ownerVerifyCode_rejected (Some (Thunks.payload_of e))) w
  end.

(** [{ ...loginData, totp_token: code }]. *)
Definition totp_body (code : string) (loginData : option Credentials) : Body :=
  <["totp_token" := code]>
    (match loginData with
     | Some c => Thunks.credentials_body c
     | None => ∅
     end).

(** [verify2FACode({ code, rememberDevice, ...loginData })] up to its last
    dispatch, with the action it is going to dispatch: the second step of
    a login goes to the general login endpoint. *)
Definition verify2FACode_creator (code : string) (rememberDevice : bool)
    (loginData : option Credentials) (reply : Thunks.ServiceReply)
    (w : OwnerApi.World) : OwnerApi.World * Action :=
  let w := Thunks.dispatch verify2FACode_pending w in
  let w := Thunks.post "/auth/login/" (totp_body code loginData) w in
  match reply with
  | Thunks.Returned response =>
      (Thunks.keep_refresh response w, verify2FACode_fulfilled response)
  | Thunks.Threw e => (w, verify2FACode_rejected (Some (Thunks.payload_of e)))
  end.

Definition verify2FACode (code : string) (rememberDevice : bool)
    (loginData : option Credentials) (reply : Thunks.ServiceReply)
    (w : OwnerApi.World) : OwnerApi.World * Action :=
  let '(w, a) := verify2FACode_creator code rememberDevice loginData reply w in
  Thunks.finish a w.

(** The [type] of a life-cycle action of [verify2FACode]. *)
Definition verify2FACode_type (a : Action) : string :=
  "auth/verify2FACode" ++
  match a with
  | verify2FACode_pending => "/pending"
  | verify2FACode_fulfilled _ => "/fulfilled"
  | _ => "/rejected"
  end.

End VerificationThunks.

(** ** components/verification/TwoFactorAuth.jsx *)

Module TwoFactorAuth.

Import AuthSlice.

(** [\d]. *)
Definition is_digit (c : ascii) : bool :=
  (48 <=? nat_of_ascii c)%nat && (nat_of_ascii c <=? 57)%nat.

(** The [onChange] of the input: [value.replace(/\D/g, '').slice(0, 6)]. *)
Definition onChange (value : string) : string :=
  string_of_list_ascii (take 6 (List.filter is_digit (list_ascii_of_string value))).

(** [/^\d+$/.test(code)]. *)
Definition all_digits (code : string) : bool :=
  negb (bool_decide (code = "")) && forallb is_digit (list_ascii_of_string code).

(** The [disabled] attribute of the submit button, negated. *)
Definition submit_enabled (auth : State) (code : string) : bool :=
  negb (loading auth || negb (String.length code =? 6)%nat).

(** What [handleSubmit] leaves: the world, the path it navigated to (if
    it did) and the [code] state of the component. *)
Record Submitted := {
  world : OwnerApi.World;
  navigated : option string;
  code_after : string
}.

(** [handleSubmit]; [returnUrl] is [location.state?.returnUrl], [reply]
    what the login endpoint answers.  When the reducer of the thunk's last
    action throws, so does the awaited [dispatch]: the [catch] block
    empties the input. *)
Definition handleSubmit (code : string) (rememberDevice : bool)
    (returnUrl : option string) (reply : Thunks.ServiceReply)
    (w : OwnerApi.World) : Submitted :=
  let tempLoginData := tempLoginData (OwnerApi.auth w) in
  let w := Thunks.dispatch clearError w in
  if negb (String.length code =? 6)%nat || negb (all_digits code)
  then
    {| world := Thunks.dispatch
                  (setLoginError (Some (PData
                     {| error_text := Some "Please enter a valid 6-digit code";
                        requiresVerification := false;
                        error_email := None |}))) w;
       navigated := None;
       code_after := code |}
  else
    let '(w, result) :=
      VerificationThunks.verify2FACode_creator code rememberDevice tempLoginData reply w in
    match reducer result (OwnerApi.auth w) (OwnerApi.storage w) with
    | None => {| world := w; navigated := None; code_after := "" |}
    | Some _ =>
        let w := Thunks.dispatch result w in
        if bool_decide (VerificationThunks.verify2FACode_type result
                        = "auth/verify2FA/fulfilled")
        then
          let w := Thunks.dispatch clear2FA w in
          let payload_user :=
            match result with
            | verify2FACode_fulfilled payload => resp_user payload
            | _ => None
            end in
          {| world := w;
             navigated :=
               if bool_decide (is_Some payload_user) && negb (Guard.verified payload_user)
               then Some "/verify-email"
               else Js.or_else returnUrl (Some "/owner/dashboard");
             code_after := code |}
        else {| world := w; navigated := None; code_after := code |}
    end.

End TwoFactorAuth.

(** ** JSON values, as the helpers that take a response of any shape see
    them *)

Module Json.

#[warnings="-register-all"]
Inductive Value :=
| Undefined
| Null
| Bool (b : bool)
| Num (n : Z)
| Str (s : string)
| Arr (items : list Value)
| Obj (fields : list (string * Value)).

Definition truthy (v : Value) : bool :=
  match v with
  | Undefined | Null => false
  | Bool b => b
  | Num n => negb (n =? 0)%Z
  | Str s => negb (bool_decide (s = ""))
  | Arr _ | Obj _ => true
  end.

(** [Array.isArray(v)]. *)
Definition isArray (v : Value) : bool :=
  match v with
  | Arr _ => true
  | _ => false
  end.

Fixpoint lookup (k : string) (fields : list (string * Value)) : Value :=
  match fields with
  | [] => Undefined
  | (k', v) :: fields => if bool_decide (k' = k) then v else lookup k fields
  end.

(** [v.k] for a [v] that is neither [null] nor [undefined], and a [k] that
    no prototype defines: only an object has it. *)
Definition get (k : string) (v : Value) : Value :=
  match v with
  | Obj fields => lookup k fields
  | _ => Undefined
  end.

(** [a || b]. *)
Definition or_else (a b : Value) : Value := if truthy a then a else b.

(** [v[0]] for such a [v]. *)
Definition first (v : Value) : Value :=
  match v with
  | Arr (x :: _) => x
  | Str (String c _) => Str (String c "")
  | Obj fields => lookup "0" fields
  | _ => Undefined
  end.

(** [a === b] where [b] came with an action: two objects are never the
    same object. *)
Definition strict_eq (a b : Value) : bool :=
  match a, b with
  | Undefined, Undefined | Null, Null => true
  | Bool x, Bool y => bool_decide (x = y)
  | Num x, Num y => (x =? y)%Z
  | Str x, Str y => bool_decide (x = y)
  | _, _ => false
  end.

End Json.

(** ** utils/paginationUtils.js *)

Module PaginationUtils.

Import Json.

Definition extractDataFromResponse (response : Value) : Value :=
  if negb (truthy response) then Arr []
  else if isArray response then response
  else if isArray (get "results" response) then get "results" response
  else if truthy (get "data" response)
          && isArray (get "results" (get "data" response))
  then get "results" (get "data" response)
  else if truthy (get "data" response) && isArray (get "data" response)
  then get "data" response
  else or_else response (Arr []).

Definition getPaginationInfo (response : Value) : Value :=
  if negb (truthy response) || isArray response then Null
  else
    Obj [("count", or_else (or_else (get "count" response) (get "total_count" response))
                           (Num 0));
         ("next", or_else (get "next" response) Null);
         ("previous", or_else (get "previous" response) Null);
         ("totalPages", or_else (or_else (get "total_pages" response)
                                         (get "totalPages" response)) (Num 0));
         ("currentPage", or_else (or_else (get "current_page" response)
                                          (get "currentPage" response)) (Num 1));
         ("pageSize", or_else (or_else (get "page_size" response)
                                       (get "pageSize" response)) (Num 20))].

End PaginationUtils.

(** ** store/slices/ownerAuthSlice.js *)

Module OwnerAuthSlice.

Import Json.

Record State := mkState {
  owner : Value;
  restaurants : Value;
  currentRestaurant : Value;
  loading : bool;
  error : option string
}.

Definition initialState : State := {|
  owner := Null;
  restaurants := Arr [];
  currentRestaurant := Null;
  loading := false;
  error := None
|}.

Inductive Action :=
| switchRestaurant (payload : Value)
| logoutOwner
| fetchOwnerProfile_pending
| fetchOwnerProfile_fulfilled (payload_owner payload_restaurants : Value)
| fetchOwnerProfile_rejected (message : option string).

(** [fetchOwnerProfile]'s payload creator, from what the two services
    return. *)
Definition fetchOwnerProfile (ownerResponse restaurantsResponse : Value) : Action :=
  fetchOwnerProfile_fulfilled
    (PaginationUtils.extractDataFromResponse ownerResponse)
    (PaginationUtils.extractDataFromResponse restaurantsResponse).

(** [restaurants.find(r => r.restaurant_id === payload)] on the items of
    an array; [None]: [r] is [null] or [undefined] and reading its
    property throws. *)
Fixpoint find (payload : Value) (items : list Value) : option Value :=
  match items with
  | [] => Some Undefined
  | r :: items =>
      match r with
      | Undefined | Null => None
      | _ =>
          if strict_eq (get "restaurant_id" r) payload then Some r
          else find payload items
      end
  end.

(** The reducer, with the request that [logoutOwner] sends from inside
    it ([authService.logout()], whose promise is dropped).  [None]: the
    case throws and the state stays. *)
Definition reducer (a : Action) (s : State) (w : OwnerApi.World)
    : option (State * OwnerApi.World) :=
  match a with
  | switchRestaurant payload =>
      match restaurants s with
      | Arr items =>
          current ← find payload items;
          Some (mkState (owner s) (restaurants s) current (loading s) (error s), w)
      | _ => None
      end
  | logoutOwner =>
      Some (mkState Null (Arr []) Null (loading s) (error s),
            Thunks.post "/auth/logout/" ∅ w)
  | fetchOwnerProfile_pending =>
      Some (mkState (owner s) (restaurants s) (currentRestaurant s) true (error s), w)
  | fetchOwnerProfile_fulfilled payload_owner payload_restaurants =>
      match payload_restaurants with
      | Undefined | Null => None
      | _ =>
          Some (mkState payload_owner payload_restaurants
                        (or_else (first payload_restaurants) Null) false (error s), w)
      end
  | fetchOwnerProfile_rejected message =>
      Some (mkState (owner s) (restaurants s) (currentRestaurant s) false message, w)
  end.

Definition dispatch (a : Action) (sw : State * OwnerApi.World) : State * OwnerApi.World :=
  from_option id sw (reducer a (fst sw) (snd sw)).

(** The states the slice reaches, whatever is dispatched. *)
Fixpoint after (actions : list Action) (sw : State * OwnerApi.World)
    : State * OwnerApi.World :=
  match actions with
  | [] => sw
  | a :: actions => after actions (dispatch a sw)
  end.

End OwnerAuthSlice.

(** ** store/slices/logoutActions.js *)

Module LogoutActions.

(** [api.post('/auth/logout/')]. *)
Definition logout_config : OwnerApi.Config :=
  OwnerApi.new_config "post" "/auth/logout/" ∅ ∅.

(** [await dispatch(logout())]: the [logout] thunk of authSlice.js with the
    request of [authService.logout] run through the interceptors against
    the replies of the network.  The flag tells whether the thunk was
    fulfilled; [None]: the request never settles, and neither does the
    thunk. *)
Definition authLogout (w : OwnerApi.World) : OwnerApi.World * option bool :=
  let w := Thunks.dispatch AuthSlice.other w in
  let '(w, o, _) := OwnerApi.api logout_config w in
  match o with
  | OwnerApi.Pending => (w, None)
  | OwnerApi.Done (OwnerApi.Response _) =>
      let w := w |> Thunks.store (removeItem "token")
                 |> Thunks.store (removeItem "refreshToken")
                 |> Thunks.store (removeItem "csrfToken") in
      (Thunks.dispatch AuthSlice.other (Thunks.dispatch AuthSlice.clearAuth w), Some true)
  | OwnerApi.Done (OwnerApi.Thrown _) =>
      (Thunks.dispatch AuthSlice.other (Thunks.dispatch AuthSlice.clearAuth w), Some false)
  end.

(** [performLogout()].  [unwrap] throws when the thunk was rejected; the
    [catch] block dispatches the thunk again without awaiting it.  A call
    of [authService.logout] that is not awaited (that one, and the one
    inside the [logoutOwner] reducer) is followed up to the moment its
    request leaves: the log gets the request as first sent. *)
Definition performLogout (sw : OwnerAuthSlice.State * OwnerApi.World)
    : OwnerAuthSlice.State * OwnerApi.World :=
  let '(s, w) := sw in
  let '(w, fulfilled) := authLogout w in
  match fulfilled with
  | None => (s, w)
  | Some true => OwnerAuthSlice.dispatch OwnerAuthSlice.logoutOwner (s, w)
  | Some false =>
      let w := Thunks.post "/auth/logout/" ∅ (Thunks.dispatch AuthSlice.other w) in
      OwnerAuthSlice.dispatch OwnerAuthSlice.logoutOwner (s, w)
  end.

(** The POSTs of the logout endpoint among the requests sent. *)
Definition is_logout_post (c : OwnerApi.Config) : bool :=
  bool_decide (OwnerApi.url c = "/auth/logout/").
Definition logout_posts (w : OwnerApi.World) : nat :=
  length (List.filter is_logout_post (OwnerApi.sent w)).

(** The resends the retry marks of a logout request still allow. *)
Definition posts_left (c : OwnerApi.Config) (n : nat) : nat :=
  if is_logout_post c then n else 0.

(** What a run of the interceptors leaves alone: the Redux session is not
    touched, no request is taken from the log, and the logout endpoint
    gets at most [extra] more POSTs. *)
Definition calm (extra : nat) (w : OwnerApi.World)
    (r : OwnerApi.World * OwnerApi.Outcome * Tally) : Prop :=
  OwnerApi.auth r.1.1 = OwnerApi.auth w /\
  logout_posts w <= logout_posts r.1.1 /\
  logout_posts r.1.1 <= logout_posts w + extra.

End LogoutActions.

(** ** components/PublicRoute.jsx *)

Module PublicGuard.

Import AuthSlice.

Record Props := {
  restricted : bool;
  redirectTo : option string
}.


(** What the component returns; [Navigate None]: [to] is [undefined]. *)
Inductive Rendered :=
| Navigate (to : option string)
| Children.



End PublicGuard.

(** ** One CSRF acquisition in flight, seen from the interceptors *)

Module Acquisition.

(** The request carries the header that keeps it out of the 403 branch. *)
Definition exempt (c : OwnerApi.Config) : bool :=
  Js.truthy (OwnerApi.headers c !! "X-CSRF-Request").

(** The resends the marks of a request still allow. *)
Definition csrf_resend_left (c : OwnerApi.Config) : nat :=
  if OwnerApi._csrfRetried c || exempt c then 0 else 1.
Definition retry_left (c : OwnerApi.Config) : nat :=
  if OwnerApi._retry c then 0 else 1.

(** What holds of a step made for request [c] from world [w] while
    acquisition [pid] is in flight: it stays the one in flight, none is
    started, and the CSRF endpoint gets at most [extra] more requests. *)
Definition quiet (pid : nat) (extra : nat) (w : OwnerApi.World)
    (r : OwnerApi.World * OwnerApi.Outcome * Tally) : Prop :=
  OwnerApi.initializationPromise r.1.1 = Some pid /\
  OwnerApi.initializationCount r.1.1 = OwnerApi.initializationCount w /\
  OwnerApi.promises r.1.1 = OwnerApi.promises w /\
  OwnerApi.csrf_fetches r.1.1 <= OwnerApi.csrf_fetches w + extra.

(** The bound for a request: only a request to the CSRF endpoint adds. *)
Definition resends (c : OwnerApi.Config) (n : nat) : nat :=
  if OwnerApi.is_csrf_fetch c then n else 0.

End Acquisition.
(** ** Concrete users, sessions and replies used below *)

Definition an_owner : User :=
  {| email := "owner@example.com"; email_verified := Some true;
     user_type := "owner"; staff_profile := None |}.

Definition a_customer : User :=
  {| email := "guest@example.com"; email_verified := Some true;
     user_type := "customer"; staff_profile := None |}.

Definition a_cashier : User :=
  {| email := "till@example.com"; email_verified := Some true;
     user_type := "staff";
     staff_profile := Some {| restaurant := {| restaurant_id := 7 |};
                              can_view_reports := false; can_manage_menu := false;
                              can_manage_orders := true; can_manage_staff := false;
                              role := "cashier" |} |}.

(** A session that is signed in as [u]. *)
Definition signed_in (u : User) : AuthSlice.State :=
  AuthSlice.initialState ∅
    |> AuthSlice.set_user (Some u) |> AuthSlice.set_token (Some "jwt")
    |> AuthSlice.set_isAuthenticated true.

(** A browser that still holds an access token from an earlier visit. *)
Definition returning_visitor : LocalStorage :=
  <["token" := "jwt"]> (<["refreshToken" := "rjwt"]> ∅).

(** The owner portal after its start-up: the CSRF token was fetched, the
    owner signed in. *)
Definition portal_in_use : OwnerApi.World := {|
  OwnerApi.auth :=
    signed_in an_owner |> AuthSlice.set_csrfInitialized true
                       |> AuthSlice.set_owner (Some an_owner)
                       |> AuthSlice.set_isOwner true;
  OwnerApi.storage := <["csrfToken" := "c0"]> returning_visitor;
  OwnerApi.csrfToken := Some "c0";
  OwnerApi.isInitialized := true;
  OwnerApi.initializationPromise := None;
  OwnerApi.initializationCount := 1;
  OwnerApi.promises := [Some (OwnerApi.Fulfilled "c0")];
  OwnerApi.sent := [];
  OwnerApi.inbox := []
|}.


Definition server_down : Thunks.ServiceError :=
  {| Thunks.response_data := None; Thunks.error_message := "Network Error" |}.

(** A reply of a login endpoint with both tokens and the owner. *)
Definition signed_in_reply : AuthSlice.AuthResponse :=
  {| AuthSlice.requires_2fa := false;
     AuthSlice.resp_user := Some an_owner;
     AuthSlice.tokens := Some {| AuthSlice.access := Some "a1"; AuthSlice.refresh := Some "r1" |};
     AuthSlice.message := None |}.

Definition some_credentials : AuthSlice.Credentials :=
  {| AuthSlice.username := "owner@example.com"; AuthSlice.password := "secret" |}.

(** A browser on its first visit, with a registration waiting for its
    e-mail code. *)
Definition first_visit : OwnerApi.World :=
  OwnerApi.boot (<["pendingVerificationEmail" := "owner@example.com"]>
                   (<["pendingUserType" := "owner"]> ∅)) [].

(** A reply of a login endpoint that asks for the second factor. *)
Definition second_factor_reply : AuthSlice.AuthResponse :=
  {| AuthSlice.requires_2fa := true;
     AuthSlice.resp_user := Some an_owner;
     AuthSlice.tokens := None;
     AuthSlice.message := None |}.

(** The storefront in a browser that has no [csrftoken] cookie yet. *)
Definition storefront_no_cookie : CustomerApi.World := {|
  CustomerApi.storage := ∅;
  CustomerApi.document_cookie := "";
  CustomerApi.location_href := "/";
  CustomerApi.sent := [];
  CustomerApi.inbox := []
|}.

Definition csrf_reply (token : string) : OwnerApi.Reply :=
  OwnerApi.Response {["csrfToken" := token]}.

(** The CSRF endpoint answers with a server error. *)
Definition csrf_fetch_fails : OwnerApi.Error :=
  OwnerApi.AxiosError OwnerApi.csrf_config (Some (500%Z, ∅)).

(** The owner portal with an expired access token and a refresh token the
    server no longer accepts. *)
Definition stale_tokens : LocalStorage :=
  <["token" := "expired"]> (<["refreshToken" := "invalid"]> ∅).

Definition stale_session (net : list HttpResponse) : OwnerApi.World :=
  OwnerApi.boot stale_tokens net.

Definition list_restaurants : OwnerApi.Config :=
  OwnerApi.new_config "get" "/owner/restaurants/" ∅ ∅.

Definition place_order : OwnerApi.Config :=
  OwnerApi.new_config "post" "/orders/" ∅ ∅.

(** The server rejects the CSRF token, hands out a new one, then finds the
    access token expired, refreshes it, and accepts the request. *)
Definition csrf_then_expiry : list HttpResponse :=
  [Http 403 ∅; Http 200 {["csrfToken" := "c1"]};
   Http 401 ∅; Http 200 {["access" := "a2"]};
   Http 200 {["order" := "17"]}].

(** The storefront with an expired access token and a refresh token the
    server no longer accepts; the refresh call is answered 401. *)
Definition storefront_stale : CustomerApi.World := {|
  CustomerApi.storage :=
    <["access_token" := "expired"]> (<["refresh_token" := "invalid"]> ∅);
  CustomerApi.document_cookie := "csrftoken=abc";
  CustomerApi.location_href := "/orders";
  CustomerApi.sent := [];
  CustomerApi.inbox := [Http 401 ∅]
|}.

Definition storefront_orders : CustomerApi.Config :=
  CustomerApi.mkConfig "get" "/orders/" ∅ ∅ false.


(** A cook and a kitchen hand of restaurant 7. *)
Definition a_staff_member (r : string) : User :=
  {| email := "staff@example.com"; email_verified := Some true;
     user_type := "staff";
     staff_profile := Some {| restaurant := {| restaurant_id := 7 |};
                              can_view_reports := true; can_manage_menu := false;
                              can_manage_orders := true; can_manage_staff := false;
                              role := r |} |}.

(** The owner signed in with a password and is asked for the second
    factor, while a registration still waits for its e-mail code. *)
Definition second_factor_pending : OwnerApi.World :=
  fst (Thunks.ownerLogin some_credentials (Thunks.Returned second_factor_reply) first_visit).

(** The props of the [/owner] route: [<ProtectedRoute ownerOnly>]. *)
Definition owner_only_props : Guard.Props :=
  {| Guard.requiredPermission := None;
     Guard.restaurantId := None;
     Guard.ownerOnly := true;
     Guard.requireEmailVerified := true;
     Guard.allowUnverified := false |}.

(** The server refuses a login because the e-mail is not verified yet. *)
Definition account_not_verified : Thunks.ServiceError :=
  {| Thunks.response_data :=
       Some {| AuthSlice.error_text := Some "Account not verified";
               AuthSlice.requiresVerification := false;
               AuthSlice.error_email := None |};
     Thunks.error_message := "Request failed with status code 403" |}.

(** The first visit of a browser, and the session after the owner has
    signed in with a password there. *)
Definition owner_signed_in : AuthSlice.State * LocalStorage :=
  from_option id (AuthSlice.initialState ∅, ∅)
    (AuthSlice.reducer (AuthSlice.ownerLogin_fulfilled signed_in_reply some_credentials)
       (AuthSlice.initialState ∅) ∅).

(** The server refuses the logout of the owner: it rejects the CSRF
    token and hands out a new one, finds the access token expired and
    refreshes it, and fails on the request sent again. *)
Definition logout_refused : OwnerApi.World :=
  OwnerApi.set_inbox
    [Http 403 ∅; Http 200 {["csrfToken" := "c1"]};
     Http 401 ∅; Http 200 {["access" := "a2"]};
     Http 500 ∅]
    portal_in_use.
(** * Properties *)

(** ** The JavaScript helpers on concrete inputs *)

Example split_cookie_rows :
  Js.split "; " "a=b; csrftoken=xyz; c=d" = ["a=b"; "csrftoken=xyz"; "c=d"].
Proof. reflexivity. Qed.

Example split_empty : Js.split "; " "" = [""].
Proof. reflexivity. Qed.

Example includes_inner : Js.includes "/verify-email" "/owner/verify-email/again" = true.
Proof. reflexivity. Qed.

Example toLowerCase_method : Js.toLowerCase "PoST" = "post".
Proof. reflexivity. Qed.

Example cookie_token :
  CustomerApi.getCSRFToken
    (CustomerApi.set_document_cookie "a=b; csrftoken=xyz; c=d" storefront_no_cookie) = "xyz".
Proof. reflexivity. Qed.

Example request_interceptor_attaches :
  let sent_config := OwnerApi.request_interceptor portal_in_use place_order in
  OwnerApi.headers sent_config !! "Authorization" = Some "Bearer jwt" /\
  OwnerApi.headers sent_config !! "X-CSRFToken" = Some "c0" /\
  OwnerApi.headers (OwnerApi.request_interceptor portal_in_use OwnerApi.csrf_config)
    !! "X-CSRFToken" = None /\
  OwnerApi.headers (OwnerApi.request_interceptor portal_in_use list_restaurants)
    !! "X-CSRFToken" = None.
Proof. repeat split. Qed.

(** ** Permissions *)

(** C10.  [hasPermission] answers [false] for no user, and for a user that
    is neither an owner nor a staff member with a staff profile; it answers
    [true] for an owner, whatever the permission and the restaurant: the
    owner of one restaurant passes the check for any other. *)
Theorem hasPermission_owner_all_others_none (permission : string) (restaurantId : option Z) :
  Permissions.hasPermission None permission restaurantId = false /\
  (forall u : User,
      user_type u <> "owner" ->
      user_type u <> "staff" \/ staff_profile u = None ->
      Permissions.hasPermission (Some u) permission restaurantId = false) /\
  (forall u : User,
      user_type u = "owner" ->
      Permissions.hasPermission (Some u) permission restaurantId = true).
Proof.
  split; [reflexivity|]. split.
  - intros u Hnot_owner Hnot_staff. unfold Permissions.hasPermission.
    rewrite bool_decide_eq_false_2 by assumption.
    destruct Hnot_staff as [Hs | Hp].
    + rewrite bool_decide_eq_false_2 by assumption. reflexivity.
    + rewrite Hp. destruct (bool_decide _); reflexivity.
  - intros u Howner. unfold Permissions.hasPermission.
    rewrite bool_decide_eq_true_2 by assumption. reflexivity.
Qed.

Lemma hasPermission_owner_all_others_none_witness :
  Permissions.hasPermission (Some an_owner) "manage_staff" (Some 42%Z) = true /\
  Permissions.hasPermission (Some a_customer) "manage_staff" (Some 42%Z) = false.
Proof.
  destruct (hasPermission_owner_all_others_none "manage_staff" (Some 42%Z))
    as (_ & Hnone & Hall).
  split.
  - apply Hall. reflexivity.
  - apply Hnone; [discriminate | left; discriminate].
Defined.

(** ** Route guard *)




(** ** Session invariant *)

Lemma reducer_keeps_user_authenticated a s ls s' ls' :
  AuthSlice.reducer a s ls = Some (s', ls') ->
  (is_Some (AuthSlice.user s) -> AuthSlice.isAuthenticated s = true) ->
  is_Some (AuthSlice.user s') -> AuthSlice.isAuthenticated s' = true.
Proof.
  intros Hstep Hinv.
  destruct a; simpl in Hstep;
    repeat match type of Hstep with
           | context [if ?b then _ else _] => destruct b
           | context [mbind _ ?o] => destruct o; simpl in Hstep
           end;
    try discriminate;
    injection Hstep as <- <-; simpl; auto;
    try (intros H; apply Hinv; revert H; rewrite fmap_is_Some; auto; fail);
    try (intros [? ?]; discriminate).
Qed.

(** C2, as the code has it.  In every reachable session state a present
    user implies [isAuthenticated]; so a present access token together with
    a present user implies it too.  The converse is not maintained: the
    state created at start has no user and is authenticated exactly when a
    non-empty access token is persisted, and a successful [verifyEmailCode]
    sets [isAuthenticated] with the user of the reply, leaving the token
    field as it was. *)
Theorem user_present_implies_isAuthenticated (ls0 : LocalStorage)
    (s : AuthSlice.State) (ls : LocalStorage) :
  Session.reachable ls0 s ls ->
  (is_Some (AuthSlice.user s) -> AuthSlice.isAuthenticated s = true) /\
  (Js.truthy (AuthSlice.token s) = true /\ is_Some (AuthSlice.user s) ->
   AuthSlice.isAuthenticated s = true) /\
  (AuthSlice.user (AuthSlice.initialState ls0) = None /\
   AuthSlice.token (AuthSlice.initialState ls0) = getItem "token" ls0 /\
   AuthSlice.isAuthenticated (AuthSlice.initialState ls0)
     = Js.truthy (getItem "token" ls0)) /\
  (forall payload, exists s',
      AuthSlice.reducer (AuthSlice.verifyEmailCode_fulfilled payload) s ls = Some (s', ls) /\
      AuthSlice.isAuthenticated s' = true /\
      AuthSlice.user s' = AuthSlice.resp_user payload /\
      AuthSlice.token s' = AuthSlice.token s).
Proof.
  intros Hreach.
  assert (Hinv : is_Some (AuthSlice.user s) -> AuthSlice.isAuthenticated s = true).
  { induction Hreach as [| a s ls s' ls' _ IH Hstep | s ls ls' _ IH].
    - simpl. intros [? ?]. discriminate.
    - eapply reducer_keeps_user_authenticated; eassumption.
    - exact IH. }
  split; [exact Hinv|]. split; [intros [_ Hu]; auto|].
  split; [repeat split|].
  intros payload. eexists. split; [reflexivity|]. repeat split.
Qed.

Lemma user_present_implies_isAuthenticated_witness :
  Session.reachable ∅ (fst owner_signed_in) (snd owner_signed_in) /\
  AuthSlice.user (fst owner_signed_in) = Some an_owner /\
  AuthSlice.isAuthenticated (fst owner_signed_in) = true.
Proof.
  assert (Hstep : AuthSlice.reducer
                    (AuthSlice.ownerLogin_fulfilled signed_in_reply some_credentials)
                    (AuthSlice.initialState ∅) ∅
                  = Some (fst owner_signed_in, snd owner_signed_in))
    by (vm_compute; reflexivity).
  assert (Hreach : Session.reachable ∅ (fst owner_signed_in) (snd owner_signed_in))
    by exact (Session.reach_dispatch ∅ _ _ _ _ _ (Session.reach_start ∅) Hstep).
  assert (Huser : AuthSlice.user (fst owner_signed_in) = Some an_owner)
    by (vm_compute; reflexivity).
  destruct (user_present_implies_isAuthenticated ∅ (fst owner_signed_in)
              (snd owner_signed_in) Hreach)
    as (Hinv & _).
  split; [exact Hreach|]. split; [exact Huser|].
  apply Hinv. rewrite Huser. eexists. reflexivity.
Defined.

(** C2 as stated fails at application start: with an access token left in
    [localStorage] the first state is authenticated and has no user. *)
Lemma initialState_authenticated_without_user :
  Session.reachable returning_visitor
    (AuthSlice.initialState returning_visitor) returning_visitor /\
  AuthSlice.isAuthenticated (AuthSlice.initialState returning_visitor) = true /\
  AuthSlice.user (AuthSlice.initialState returning_visitor) = None /\
  ~ Session.authenticated_iff_token_and_user (AuthSlice.initialState returning_visitor).
Proof.
  split; [constructor|]. split; [reflexivity|]. split; [reflexivity|].
  intros [Hto _]. destruct (Hto eq_refl) as [_ [u Hu]]. discriminate.
Qed.

(** ** Logout *)

Ltac storage_lookup :=
  unfold getItem, setItem, removeItem;
  repeat first [ rewrite lookup_insert_eq | rewrite lookup_delete_eq
               | rewrite lookup_insert_ne by discriminate
               | rewrite lookup_delete_ne by discriminate ].






(** ** Registration and e-mail verification *)

(** C7.  A registration that the server accepts stores the e-mail of the
    form under [pendingVerificationEmail] (and the account type under
    [pendingUserType]) and leaves user, token and [isAuthenticated] as they
    were.  Verifying with a code the server accepts clears both markers and
    sets [isAuthenticated]; with a code the server rejects the markers
    stay, the error is recorded in [verificationError], and user, token and
    [isAuthenticated] are as they were. *)
Theorem register_then_verifyEmailCode (w : OwnerApi.World) (ownerData : Thunks.OwnerData)
    (registered verified : AuthSlice.AuthResponse) (code : string)
    (wrong_code : Thunks.ServiceError) :
  let email := Thunks.od_email ownerData in
  let w1 := fst (Thunks.ownerRegister ownerData (Thunks.Returned registered) w) in
  let w2 := fst (Thunks.verifyEmailCode email code (Thunks.Returned verified) w1) in
  let w3 := fst (Thunks.verifyEmailCode email code (Thunks.Threw wrong_code) w1) in
  (getItem "pendingVerificationEmail" (OwnerApi.storage w1) = Some email /\
   getItem "pendingUserType" (OwnerApi.storage w1) = Some "owner" /\
   AuthSlice.isAuthenticated (OwnerApi.auth w1) = AuthSlice.isAuthenticated (OwnerApi.auth w) /\
   AuthSlice.user (OwnerApi.auth w1) = AuthSlice.user (OwnerApi.auth w) /\
   AuthSlice.token (OwnerApi.auth w1) = AuthSlice.token (OwnerApi.auth w) /\
   getItem "token" (OwnerApi.storage w1) = getItem "token" (OwnerApi.storage w)) /\
  (getItem "pendingVerificationEmail" (OwnerApi.storage w2) = None /\
   getItem "pendingUserType" (OwnerApi.storage w2) = None /\
   AuthSlice.isAuthenticated (OwnerApi.auth w2) = true /\
   AuthSlice.user (OwnerApi.auth w2) = AuthSlice.resp_user verified) /\
  (getItem "pendingVerificationEmail" (OwnerApi.storage w3) = Some email /\
   getItem "pendingUserType" (OwnerApi.storage w3) = Some "owner" /\
   AuthSlice.verificationError (OwnerApi.auth w3) = Some (Thunks.payload_of wrong_code) /\
   AuthSlice.isAuthenticated (OwnerApi.auth w3) = AuthSlice.isAuthenticated (OwnerApi.auth w) /\
   AuthSlice.user (OwnerApi.auth w3) = AuthSlice.user (OwnerApi.auth w) /\
   AuthSlice.token (OwnerApi.auth w3) = AuthSlice.token (OwnerApi.auth w)).
Proof.
  intros email w1 w2 w3. subst email w1 w2 w3.
  unfold getItem. simpl. unfold setItem, removeItem.
  repeat split;
    rewrite ?lookup_delete, ?lookup_insert; repeat case_decide; congruence.
Qed.

(** ** Social login *)

(** C9, as the code has it.  With a provider other than [google] and
    [facebook] no request is sent, nothing is stored, the thunk is rejected
    and its payload becomes [loginError]; the session stays as it was.
    With a known provider and a reply that carries an access token, both
    tokens are stored, in [localStorage] and in the state, the user of the
    reply is set and [isAuthenticated] is [true]: the token, refresh token
    and [isAuthenticated] that [ownerLogin] sets for the same reply.  A
    failed call is rejected with the body of the error, or with
    ["<provider> authentication failed"] when there is none, and that
    payload becomes [loginError]. *)
Theorem socialLogin_effects (provider token : string) (w : OwnerApi.World)
    (response : AuthSlice.AuthResponse) (e : Thunks.ServiceError)
    (credentials : AuthSlice.Credentials) :
  (provider <> "google" -> provider <> "facebook" ->
   forall reply,
     let w' := fst (Thunks.socialLogin provider token reply w) in
     OwnerApi.sent w' = OwnerApi.sent w /\
     OwnerApi.storage w' = OwnerApi.storage w /\
     (exists p, snd (Thunks.socialLogin provider token reply w)
                  = AuthSlice.socialLogin_rejected (Some p) /\
                AuthSlice.loginError (OwnerApi.auth w') = Some p) /\
     AuthSlice.isAuthenticated (OwnerApi.auth w') = AuthSlice.isAuthenticated (OwnerApi.auth w) /\
     AuthSlice.user (OwnerApi.auth w') = AuthSlice.user (OwnerApi.auth w) /\
     AuthSlice.token (OwnerApi.auth w') = AuthSlice.token (OwnerApi.auth w)) /\
  (provider = "google" \/ provider = "facebook" ->
   (Js.truthy (Thunks.tokens_access response) = true ->
    let w' := fst (Thunks.socialLogin provider token (Thunks.Returned response) w) in
    getItem "token" (OwnerApi.storage w') = Thunks.tokens_access response /\
    getItem "refreshToken" (OwnerApi.storage w')
      = Some (Js.to_string (Thunks.tokens_refresh response)) /\
    AuthSlice.token (OwnerApi.auth w') = Thunks.tokens_access response /\
    AuthSlice.refreshToken (OwnerApi.auth w') = Thunks.tokens_refresh response /\
    AuthSlice.user (OwnerApi.auth w') = AuthSlice.resp_user response /\
    AuthSlice.isAuthenticated (OwnerApi.auth w') = true /\
    (AuthSlice.requires_2fa response = false ->
     is_Some (AuthSlice.resp_user response) ->
     let wo := fst (Thunks.ownerLogin credentials (Thunks.Returned response) w) in
     AuthSlice.token (OwnerApi.auth wo) = AuthSlice.token (OwnerApi.auth w') /\
     AuthSlice.refreshToken (OwnerApi.auth wo) = AuthSlice.refreshToken (OwnerApi.auth w') /\
     AuthSlice.isAuthenticated (OwnerApi.auth wo) = true /\
     getItem "token" (OwnerApi.storage wo) = getItem "token" (OwnerApi.storage w') /\
     getItem "refreshToken" (OwnerApi.storage wo)
       = getItem "refreshToken" (OwnerApi.storage w'))) /\
   (let w' := fst (Thunks.socialLogin provider token (Thunks.Threw e) w) in
    let p := AuthSlice.PData
               match Thunks.response_data e with
               | Some d => d
               | None => {| AuthSlice.error_text := Some (provider ++ " authentication failed");
                            AuthSlice.requiresVerification := false;
                            AuthSlice.error_email := None |}
               end in
    snd (Thunks.socialLogin provider token (Thunks.Threw e) w)
      = AuthSlice.socialLogin_rejected (Some p) /\
    AuthSlice.loginError (OwnerApi.auth w') = Some p /\
    OwnerApi.storage w' = OwnerApi.storage w /\
    AuthSlice.isAuthenticated (OwnerApi.auth w') = AuthSlice.isAuthenticated (OwnerApi.auth w))).
Proof.
  split.
  - intros Hg Hf reply. unfold Thunks.socialLogin.
    rewrite !bool_decide_eq_false_2 by assumption.
    simpl. repeat split. eexists. split; reflexivity.
  - intros Hknown.
    assert (Hsocial : forall reply,
      Thunks.socialLogin provider token reply w
      = match reply with
        | Thunks.Returned r =>
            Thunks.finish (AuthSlice.socialLogin_fulfilled r)
              (Thunks.keep_tokens r
                 (Thunks.post (if bool_decide (provider = "google")
                               then "/auth/google/login/" else "/auth/facebook/login/")
                              {["token" := token]} (Thunks.dispatch AuthSlice.other w)))
        | Thunks.Threw e =>
            Thunks.finish (AuthSlice.socialLogin_rejected (Some (AuthSlice.PData
               match Thunks.response_data e with
               | Some d => d
               | None => {| AuthSlice.error_text := Some (provider ++ " authentication failed");
                            AuthSlice.requiresVerification := false;
                            AuthSlice.error_email := None |}
               end)))
              (Thunks.post (if bool_decide (provider = "google")
                            then "/auth/google/login/" else "/auth/facebook/login/")
                           {["token" := token]} (Thunks.dispatch AuthSlice.other w))
        end).
    { intros reply. unfold Thunks.socialLogin.
      destruct Hknown as [-> | ->]; destruct reply; reflexivity. }
    split.
    + intros Haccess. rewrite Hsocial. unfold Thunks.keep_tokens. rewrite Haccess.
      unfold getItem. simpl. unfold setItem.
      assert (Hacc : Some (Js.to_string (Thunks.tokens_access response))
                     = Thunks.tokens_access response).
      { destruct (Thunks.tokens_access response); [reflexivity | discriminate]. }
      repeat match goal with |- _ /\ _ => split end;
        storage_lookup; try congruence; try reflexivity.
      intros H2fa [u Hu]. unfold Thunks.ownerLogin, Thunks.keep_refresh.
      rewrite Hu.
      assert (Htok : exists t, AuthSlice.tokens response = Some t).
      { unfold Thunks.tokens_access in Haccess.
        destruct (AuthSlice.tokens response); [eauto | discriminate]. }
      destruct Htok as [t Ht].
      unfold Thunks.tokens_access, Thunks.tokens_refresh in *. rewrite Ht in *. simpl in *.
      destruct (Js.truthy (AuthSlice.refresh t)); unfold Thunks.finish, Thunks.dispatch;
        simpl; rewrite H2fa; simpl;
        repeat match goal with |- _ /\ _ => split end;
        storage_lookup; congruence.
    + rewrite Hsocial. simpl. repeat split.
Qed.

Lemma socialLogin_effects_witness :
  OwnerApi.sent (fst (Thunks.socialLogin "twitter" "t0"
                        (Thunks.Returned signed_in_reply) first_visit)) = [] /\
  AuthSlice.isAuthenticated
    (OwnerApi.auth (fst (Thunks.socialLogin "google" "t0"
                           (Thunks.Returned signed_in_reply) first_visit))) = true /\
  getItem "token"
    (OwnerApi.storage (fst (Thunks.socialLogin "google" "t0"
                              (Thunks.Returned signed_in_reply) first_visit))) = Some "a1".
Proof.
  destruct (socialLogin_effects "twitter" "t0" first_visit signed_in_reply
              server_down some_credentials) as [Hunknown _].
  destruct (socialLogin_effects "google" "t0" first_visit signed_in_reply
              server_down some_credentials) as [_ Hknown].
  destruct (Hunknown ltac:(discriminate) ltac:(discriminate)
              (Thunks.Returned signed_in_reply)) as (Hsent & _).
  destruct (Hknown (or_introl eq_refl)) as [Hok _].
  destruct (Hok eq_refl) as (Htoken & _ & _ & _ & _ & Hauth & _).
  repeat split; assumption.
Defined.

(** C9 as stated fails: the success effect is not the one of a password
    login.  For a reply that asks for the second factor [ownerLogin] sets
    [requires2FA] and does not authenticate, where [socialLogin]
    authenticates with no token at all; for a full reply [ownerLogin] also
    sets [owner] and clears the verification markers, which [socialLogin]
    leaves, and the [login] thunk has no reducer case and leaves the session
    unauthenticated. *)
Lemma socialLogin_differs_from_password_login :
  let social r := fst (Thunks.socialLogin "google" "t0" (Thunks.Returned r) first_visit) in
  let password r := fst (Thunks.ownerLogin some_credentials (Thunks.Returned r) first_visit) in
  let general r := fst (Thunks.login some_credentials (Thunks.Returned r) first_visit) in
  (AuthSlice.isAuthenticated (OwnerApi.auth (password second_factor_reply)) = false /\
   AuthSlice.requires2FA (OwnerApi.auth (password second_factor_reply)) = true /\
   AuthSlice.isAuthenticated (OwnerApi.auth (social second_factor_reply)) = true /\
   AuthSlice.requires2FA (OwnerApi.auth (social second_factor_reply)) = false /\
   AuthSlice.token (OwnerApi.auth (social second_factor_reply)) = None /\
   getItem "token" (OwnerApi.storage (social second_factor_reply)) = None) /\
  (AuthSlice.owner (OwnerApi.auth (password signed_in_reply)) = Some an_owner /\
   AuthSlice.owner (OwnerApi.auth (social signed_in_reply)) = None /\
   getItem "pendingVerificationEmail" (OwnerApi.storage (password signed_in_reply)) = None /\
   getItem "pendingVerificationEmail" (OwnerApi.storage (social signed_in_reply))
     = Some "owner@example.com") /\
  (AuthSlice.isAuthenticated (OwnerApi.auth (general signed_in_reply)) = false /\
   AuthSlice.isAuthenticated (OwnerApi.auth (social signed_in_reply)) = true).
Proof. vm_compute. repeat split. Qed.

(** ** CSRF coordinator of the owner portal *)

Lemma request_interceptor_keeps w c :
  OwnerApi.url (OwnerApi.request_interceptor w c) = OwnerApi.url c /\
  OwnerApi._csrfRetried (OwnerApi.request_interceptor w c) = OwnerApi._csrfRetried c /\
  OwnerApi._retry (OwnerApi.request_interceptor w c) = OwnerApi._retry c.
Proof.
  unfold OwnerApi.request_interceptor.
  repeat match goal with |- context [if ?b then _ else _] => destruct b end;
    repeat split.
Qed.

Lemma getCSRFToken_joins w pid forceRefresh :
  OwnerApi.initializationPromise w = Some pid ->
  OwnerApi.misses_cache w forceRefresh ->
  OwnerApi.getCSRFToken forceRefresh w = (w, OwnerApi.Joined pid).
Proof.
  intros Hp Hmiss. unfold OwnerApi.getCSRFToken. rewrite Hp.
  destruct Hmiss as [-> | ->]; [reflexivity|].
  rewrite andb_false_r. reflexivity.
Qed.

Lemma getCSRFToken_starts w forceRefresh :
  OwnerApi.initializationPromise w = None ->
  OwnerApi.misses_cache w forceRefresh ->
  exists w' request,
    OwnerApi.getCSRFToken forceRefresh w
      = (w', OwnerApi.Started (length (OwnerApi.promises w)) request) /\
    OwnerApi.initializationPromise w' = Some (length (OwnerApi.promises w)) /\
    OwnerApi.promises w' = (OwnerApi.promises w ++ [None])%list /\
    OwnerApi.csrf_fetches w' = S (OwnerApi.csrf_fetches w) /\
    OwnerApi.initializationCount w' = S (OwnerApi.initializationCount w) /\
    OwnerApi.csrfToken w' = OwnerApi.csrfToken w.
Proof.
  intros Hp Hmiss. unfold OwnerApi.getCSRFToken. rewrite Hp.
  assert (Hcache : negb forceRefresh && Js.truthy (OwnerApi.csrfToken w) = false).
  { destruct Hmiss as [-> | ->]; [reflexivity | apply andb_false_r]. }
  rewrite Hcache. simpl. do 2 eexists. split; [reflexivity|].
  repeat split. unfold OwnerApi.csrf_fetches. simpl.
  unfold OwnerApi.is_csrf_fetch at 1.
  destruct (request_interceptor_keeps
              (OwnerApi.set_initializationCount (S (OwnerApi.initializationCount w)) w)
              OwnerApi.csrf_config) as (-> & _).
  reflexivity.
Qed.

Lemma run_calls_join w pid (forces : list bool) :
  OwnerApi.initializationPromise w = Some pid ->
  Forall (OwnerApi.misses_cache w) forces ->
  OwnerApi.run (map OwnerApi.Call forces) w
    = (w, map (fun _ => OwnerApi.Joined pid) forces).
Proof.
  intros Hp Hall. induction Hall as [| f fs Hf _ IH]; [reflexivity|].
  simpl. rewrite (getCSRFToken_joins _ _ _ Hp Hf), IH. reflexivity.
Qed.

Lemma csrf_settle_settles w pid reply :
  OwnerApi.initializationPromise w = Some pid ->
  pid < length (OwnerApi.promises w) ->
  let w' := OwnerApi.csrf_settle reply w in
  (exists result, OwnerApi.awaited pid w' = Some result) /\
  OwnerApi.initializationPromise w' = None /\
  OwnerApi.sent w' = OwnerApi.sent w.
Proof.
  intros Hp Hlt. unfold OwnerApi.csrf_settle, OwnerApi.awaited, OwnerApi.csrf_catch.
  rewrite Hp.
  destruct reply as [body | error]; simpl;
    repeat match goal with |- context [if ?b then _ else _] => destruct b end;
    simpl; rewrite list_lookup_insert_eq by assumption; simpl; eauto.
Qed.

(** *** The fetch of an acquisition on its way through the interceptors *)

Lemma request_interceptor_keeps_budget w c :
  OwnerApi.is_csrf_fetch (OwnerApi.request_interceptor w c) = OwnerApi.is_csrf_fetch c /\
  Acquisition.exempt (OwnerApi.request_interceptor w c) = Acquisition.exempt c /\
  Acquisition.csrf_resend_left (OwnerApi.request_interceptor w c)
    = Acquisition.csrf_resend_left c /\
  Acquisition.retry_left (OwnerApi.request_interceptor w c) = Acquisition.retry_left c.
Proof.
  destruct (request_interceptor_keeps w c) as (Hurl & Hcsrf & Hretry).
  assert (Hexempt : Acquisition.exempt (OwnerApi.request_interceptor w c)
                    = Acquisition.exempt c).
  { unfold Acquisition.exempt, OwnerApi.request_interceptor.
    repeat match goal with |- context [if ?b then _ else _] => destruct b end;
      cbn; rewrite ?lookup_insert_ne by discriminate; reflexivity. }
  unfold OwnerApi.is_csrf_fetch, Acquisition.csrf_resend_left, Acquisition.retry_left.
  rewrite Hurl, Hcsrf, Hretry, Hexempt. repeat split.
Qed.

Lemma refresh_is_no_csrf_fetch_of_owner token :
  OwnerApi.is_csrf_fetch (OwnerApi.refresh_config token) = false.
Proof. apply bool_decide_eq_false_2. discriminate. Qed.

Lemma quiet_here pid extra w o t :
  OwnerApi.initializationPromise w = Some pid ->
  Acquisition.quiet pid extra w (w, o, t).
Proof.
  intros Hp. unfold Acquisition.quiet. cbn [fst snd].
  split; [exact Hp|]. split; [reflexivity|]. split; [reflexivity|]. lia.
Qed.

Lemma quiet_more pid extra extra' w r :
  extra <= extra' -> Acquisition.quiet pid extra w r -> Acquisition.quiet pid extra' w r.
Proof.
  intros Hle (H1 & H2 & H3 & H4).
  split; [exact H1|]. split; [exact H2|]. split; [exact H3|]. lia.
Qed.

Lemma quiet_counted pid extra w t r :
  Acquisition.quiet pid extra w r -> Acquisition.quiet pid extra w (counted t r).
Proof. destruct r as [[w1 o] t1]. exact (fun H => H). Qed.

Section OneAcquisition.

Variable pid : nat.
Variable recv : OwnerApi.Config -> OwnerApi.World -> OwnerApi.World * OwnerApi.Outcome * Tally.
Hypothesis recv_quiet :
  forall c w, OwnerApi.initializationPromise w = Some pid ->
    Acquisition.quiet pid
      (Acquisition.resends c (Acquisition.csrf_resend_left c + Acquisition.retry_left c))
      w (recv c w).

Lemma api_with_quiet c w :
  OwnerApi.initializationPromise w = Some pid ->
  Acquisition.quiet pid
    (Acquisition.resends c (1 + Acquisition.csrf_resend_left c + Acquisition.retry_left c))
    w (OwnerApi.api_with recv c w).
Proof.
  intros Hp. unfold OwnerApi.api_with, OwnerApi.put_on_wire.
  apply quiet_counted.
  destruct (request_interceptor_keeps_budget w c) as (Hcsrf & _ & Hleft & Hretry).
  pose proof (recv_quiet (OwnerApi.request_interceptor w c)
                (OwnerApi.set_sent (OwnerApi.request_interceptor w c :: OwnerApi.sent w) w)
                Hp) as (H1 & H2 & H3 & H4).
  unfold Acquisition.resends in H4 |- *. rewrite Hcsrf, Hleft, Hretry in H4.
  split; [exact H1|]. split; [exact H2|]. split; [exact H3|].
  unfold OwnerApi.csrf_fetches in H4 |- *.
  cbn [OwnerApi.sent OwnerApi.set_sent List.filter] in H4.
  rewrite Hcsrf in H4.
  destruct (OwnerApi.is_csrf_fetch c); cbn [length] in H4; lia.
Qed.

Lemma await_getCSRFToken_joined w :
  OwnerApi.initializationPromise w = Some pid ->
  OwnerApi.await_getCSRFToken recv true w = (w, OwnerApi.awaited pid w).
Proof.
  intros Hp. unfold OwnerApi.await_getCSRFToken.
  rewrite (getCSRFToken_joins w pid true Hp (or_introl eq_refl)). reflexivity.
Qed.

Lemma jwt_expiration_quiet c response w :
  OwnerApi.initializationPromise w = Some pid ->
  Acquisition.quiet pid
    (Acquisition.resends c
       (if OwnerApi._retry c then 0 else 1 + Acquisition.csrf_resend_left c))
    w (OwnerApi.jwt_expiration recv c response w).
Proof.
  intros Hp. unfold OwnerApi.jwt_expiration.
  destruct (bool_decide _ && negb (OwnerApi._retry c)) eqn:Hcond;
    [| apply quiet_here; exact Hp].
  apply andb_true_iff in Hcond as [_ Hmark]. apply negb_true_iff in Hmark.
  rewrite Hmark.
  destruct (Js.truthy _); [| apply quiet_here; exact Hp].
  pose proof (api_with_quiet
                (OwnerApi.refresh_config
                   (Js.to_string (getItem "refreshToken" (OwnerApi.storage w)))) w Hp)
    as Hrefresh.
  unfold Acquisition.resends in Hrefresh at 1.
  rewrite refresh_is_no_csrf_fetch_of_owner in Hrefresh.
  destruct (OwnerApi.api_with recv (OwnerApi.refresh_config _) w) as [[w1 o] t1].
  destruct Hrefresh as (H1 & H2 & H3 & H4). cbn [fst snd] in *.
  destruct o as [[body | refreshError] |];
    try (repeat split; cbn [fst snd]; try assumption; lia).
  apply quiet_counted.
  match goal with |- context [OwnerApi.api_with recv ?c' ?w'] =>
    pose proof (api_with_quiet c' w' H1) as (K1 & K2 & K3 & K4);
    destruct (OwnerApi.api_with recv c' w') as [[w2 o2] t2] end.
  cbn [fst snd] in *.
  split; [exact K1|]. split; [exact (eq_trans K2 H2)|]. split; [exact (eq_trans K3 H3)|].
  unfold Acquisition.resends, Acquisition.csrf_resend_left, Acquisition.retry_left,
    Acquisition.exempt, OwnerApi.is_csrf_fetch, OwnerApi.csrf_fetches in *.
  cbn [OwnerApi.url OwnerApi._retry OwnerApi._csrfRetried OwnerApi.headers
       OwnerApi.set_header OwnerApi.set__retry OwnerApi.sent OwnerApi.set_storage] in K4.
  rewrite lookup_insert_ne in K4 by discriminate. cbn [fst snd].
  destruct (bool_decide (OwnerApi.url c = "/auth/csrf/"));
    destruct (OwnerApi._csrfRetried c || Js.truthy (OwnerApi.headers c !! "X-CSRF-Request"));
    lia.
Qed.

Lemma response_error_quiet c response w :
  OwnerApi.initializationPromise w = Some pid ->
  Acquisition.quiet pid
    (Acquisition.resends c (Acquisition.csrf_resend_left c + Acquisition.retry_left c))
    w (OwnerApi.response_error recv (OwnerApi.AxiosError c response) w).
Proof.
  intros Hp. unfold OwnerApi.response_error.
  destruct (bool_decide _ && negb (OwnerApi._csrfRetried c) && negb (Js.truthy _)) eqn:Hcond.
  - apply andb_true_iff in Hcond as [Hcond Hexempt].
    apply andb_true_iff in Hcond as [_ Hmark].
    apply negb_true_iff in Hmark, Hexempt.
    rewrite (await_getCSRFToken_joined w Hp).
    destruct (OwnerApi.awaited pid w) as [[token | csrfError] |];
      try (apply quiet_here; exact Hp).
    destruct (Js.truthy (OwnerApi.csrfToken w)); apply quiet_counted.
    + match goal with |- context [OwnerApi.api_with recv ?c' ?w'] =>
        pose proof (api_with_quiet c' w' Hp) as Hq end.
      eapply quiet_more; [|exact Hq].
      unfold Acquisition.resends, Acquisition.csrf_resend_left, Acquisition.retry_left,
        Acquisition.exempt, OwnerApi.is_csrf_fetch.
      cbn [OwnerApi.url OwnerApi._retry OwnerApi._csrfRetried OwnerApi.headers
           OwnerApi.set_header OwnerApi.set__csrfRetried orb].
      rewrite Hmark, Hexempt. cbn [orb].
      destruct (bool_decide (OwnerApi.url c = "/auth/csrf/")), (OwnerApi._retry c); lia.
    + match goal with |- context [OwnerApi.jwt_expiration recv ?c' ?r' ?w'] =>
        pose proof (jwt_expiration_quiet c' r' w' Hp) as Hq end.
      eapply quiet_more; [|exact Hq].
      unfold Acquisition.resends, Acquisition.csrf_resend_left, Acquisition.retry_left,
        Acquisition.exempt, OwnerApi.is_csrf_fetch.
      cbn [OwnerApi.url OwnerApi._retry OwnerApi._csrfRetried OwnerApi.headers
           OwnerApi.set__csrfRetried orb].
      rewrite Hmark, Hexempt. cbn [orb].
      destruct (bool_decide (OwnerApi.url c = "/auth/csrf/")), (OwnerApi._retry c); lia.
  - eapply quiet_more; [|apply jwt_expiration_quiet; exact Hp].
    unfold Acquisition.resends, Acquisition.retry_left.
    destruct (OwnerApi.is_csrf_fetch c), (OwnerApi._retry c); lia.
Qed.

End OneAcquisition.

Lemma receive_quiet pid fuel :
  forall c w, OwnerApi.initializationPromise w = Some pid ->
    Acquisition.quiet pid
      (Acquisition.resends c (Acquisition.csrf_resend_left c + Acquisition.retry_left c))
      w (OwnerApi.receive fuel c w).
Proof.
  induction fuel as [| fuel IH]; intros c w Hp; cbn [OwnerApi.receive];
    [apply quiet_here; exact Hp|].
  destruct (OwnerApi.inbox w) as [| r rest] eqn:Hin; [apply quiet_here; exact Hp|].
  assert (Hbase : forall extra o t,
             Acquisition.quiet pid extra w (OwnerApi.set_inbox rest w, o, t)).
  { intros extra o t. unfold Acquisition.quiet. cbn [fst snd].
    split; [exact Hp|]. split; [reflexivity|]. split; [reflexivity|].
    unfold OwnerApi.csrf_fetches. cbn [OwnerApi.sent OwnerApi.set_inbox]. lia. }
  assert (Herror : forall response,
             Acquisition.quiet pid
               (Acquisition.resends c
                  (Acquisition.csrf_resend_left c + Acquisition.retry_left c)) w
               (OwnerApi.response_error (OwnerApi.receive fuel)
                  (OwnerApi.AxiosError c response) (OwnerApi.set_inbox rest w))).
  { intros response.
    exact (response_error_quiet pid (OwnerApi.receive fuel) IH c response
             (OwnerApi.set_inbox rest w) Hp). }
  unfold OwnerApi.reply_of. destruct r as [status body |].
  - destruct (is_2xx status); [apply Hbase | apply Herror].
  - apply Herror.
Qed.

(** The request that a call of [getCSRFToken] starts. *)
Lemma getCSRFToken_starts_with w forceRefresh w' pid request :
  OwnerApi.getCSRFToken forceRefresh w = (w', OwnerApi.Started pid request) ->
  OwnerApi.is_csrf_fetch request = true /\
  Acquisition.exempt request = true /\
  OwnerApi._retry request = false /\
  OwnerApi._csrfRetried request = false /\
  OwnerApi.storage w' = OwnerApi.storage w /\
  OwnerApi.inbox w' = OwnerApi.inbox w.
Proof.
  unfold OwnerApi.getCSRFToken.
  destruct (negb forceRefresh && _); [discriminate|].
  destruct (OwnerApi.initializationPromise w); [discriminate|].
  cbn. intros [= <- _ <-].
  match goal with |- context [OwnerApi.request_interceptor ?w0 ?c0] =>
    destruct (request_interceptor_keeps_budget w0 c0) as (-> & -> & _);
    destruct (request_interceptor_keeps w0 c0) as (_ & -> & ->) end.
  repeat split.
Qed.

(** A request that carries the [X-CSRF-Request] mark is never recovered
    from a 403, and one already resent after a token refresh, or answered
    with anything but a 401, is over with that answer. *)
Lemma exempt_request_is_not_recovered fuel request w r rest :
  Acquisition.exempt request = true ->
  OwnerApi.inbox w = r :: rest ->
  OwnerApi._retry request = true \/ (forall body, r <> Http 401 body) ->
  OwnerApi.receive (S fuel) request w
  = (OwnerApi.set_inbox rest w, OwnerApi.Done (OwnerApi.reply_of request r), no_tally).
Proof.
  intros Hexempt Hin Hnot. cbn [OwnerApi.receive]. rewrite Hin.
  unfold OwnerApi.reply_of. unfold Acquisition.exempt in Hexempt.
  destruct r as [status body |].
  - destruct (is_2xx status); [reflexivity|].
    unfold OwnerApi.response_error, OwnerApi.jwt_expiration. rewrite Hexempt.
    cbn [negb fmap option_fmap option_map fst]. rewrite andb_false_r.
    destruct Hnot as [-> | Hnot]; [rewrite andb_false_r; reflexivity|].
    rewrite (bool_decide_eq_false_2 (Some status = Some 401%Z));
      [reflexivity|].
    intros [= ->]. exact (Hnot body eq_refl).
  - unfold OwnerApi.response_error, OwnerApi.jwt_expiration. rewrite Hexempt.
    cbn [negb fmap option_fmap option_map]. rewrite andb_false_r.
    rewrite (bool_decide_eq_false_2 (None = Some 401%Z)) by discriminate.
    reflexivity.
Qed.

(** One answer taken from the network. *)
Lemma receive_step fuel c w r rest :
  OwnerApi.inbox w = r :: rest ->
  OwnerApi.receive (S fuel) c w
  = match OwnerApi.reply_of c r with
    | OwnerApi.Response body =>
        (OwnerApi.set_inbox rest w, OwnerApi.Done (OwnerApi.Response body), no_tally)
    | OwnerApi.Thrown error =>
        OwnerApi.response_error (OwnerApi.receive fuel) error (OwnerApi.set_inbox rest w)
    end.
Proof. intros Hin. cbn [OwnerApi.receive]. rewrite Hin. reflexivity. Qed.

(** The 401 branch when the refresh request is answered with a 2xx: the
    new access token is stored and the original request sent again. *)
Lemma jwt_refresh_then_resend recv c body401 w w1 body t1 :
  OwnerApi._retry c = false ->
  Js.truthy (getItem "refreshToken" (OwnerApi.storage w)) = true ->
  recv (OwnerApi.request_interceptor w
          (OwnerApi.refresh_config
             (Js.to_string (getItem "refreshToken" (OwnerApi.storage w)))))
       (snd (OwnerApi.put_on_wire
               (OwnerApi.refresh_config
                  (Js.to_string (getItem "refreshToken" (OwnerApi.storage w)))) w))
  = (w1, OwnerApi.Done (OwnerApi.Response body), t1) ->
  OwnerApi.jwt_expiration recv c (Some (401%Z, body401)) w
  = counted one_token_refresh
      (OwnerApi.api_with recv
         (OwnerApi.set_header "Authorization"
            ("Bearer " ++ Js.to_string (body !! "access")) (OwnerApi.set__retry true c))
         (OwnerApi.set_storage
            (setItem "token" (Js.to_string (body !! "access")) (OwnerApi.storage w1)) w1)).
Proof.
  intros Hretry Hrefresh Hrecv. unfold OwnerApi.jwt_expiration. rewrite Hretry, Hrefresh.
  cbn [negb fmap option_fmap option_map fst].
  rewrite (bool_decide_eq_true_2 (Some 401%Z = Some 401%Z)) by reflexivity.
  cbn [andb]. unfold OwnerApi.api_with at 1.
  unfold OwnerApi.put_on_wire at 1. unfold OwnerApi.put_on_wire in Hrecv. cbn [snd] in Hrecv.
  rewrite Hrecv. reflexivity.
Qed.

(** A fetch of the CSRF endpoint answered with a 401 while a refresh token
    is stored: the interceptor refreshes and sends the fetch again, so the
    endpoint has got one more GET when the fetch is over. *)
Lemma csrf_fetch_401_is_resent fuel request w b1 s2 b2 r3 rest :
  OwnerApi.is_csrf_fetch request = true ->
  Acquisition.exempt request = true ->
  OwnerApi._retry request = false ->
  OwnerApi.inbox w = Http 401 b1 :: Http s2 b2 :: r3 :: rest ->
  is_2xx s2 = true ->
  Js.truthy (getItem "refreshToken" (OwnerApi.storage w)) = true ->
  exists reply,
    (OwnerApi.receive (S (S fuel)) request w).1.2 = OwnerApi.Done reply /\
    OwnerApi.inbox (OwnerApi.receive (S (S fuel)) request w).1.1 = rest /\
    OwnerApi.csrf_fetches (OwnerApi.receive (S (S fuel)) request w).1.1
    = S (OwnerApi.csrf_fetches w).
Proof.
  intros Hcsrf Hexempt Hretry Hin H2xx Hrefresh.
  enough (Hrun : exists wD reply t,
             OwnerApi.receive (S (S fuel)) request w = (wD, OwnerApi.Done reply, t) /\
             OwnerApi.inbox wD = rest /\
             OwnerApi.csrf_fetches wD = S (OwnerApi.csrf_fetches w)).
  { destruct Hrun as (wD & reply & t & -> & ? & ?). exists reply. auto. }
  rewrite (receive_step (S fuel) request w _ _ Hin).
  unfold OwnerApi.reply_of at 1. change (is_2xx 401) with false. cbv iota.
  unfold OwnerApi.response_error.
  pose proof Hexempt as Hexempt'. unfold Acquisition.exempt in Hexempt'. rewrite Hexempt'.
  cbn [negb]. rewrite andb_false_r.
  set (w0 := OwnerApi.set_inbox (Http s2 b2 :: r3 :: rest) w).
  assert (Hrefresh0 : Js.truthy (getItem "refreshToken" (OwnerApi.storage w0)) = true)
    by exact Hrefresh.
  set (tok := Js.to_string (getItem "refreshToken" (OwnerApi.storage w0))).
  assert (Hrecv : OwnerApi.receive (S fuel)
                    (OwnerApi.request_interceptor w0 (OwnerApi.refresh_config tok))
                    (snd (OwnerApi.put_on_wire (OwnerApi.refresh_config tok) w0))
                  = (OwnerApi.set_inbox (r3 :: rest)
                       (snd (OwnerApi.put_on_wire (OwnerApi.refresh_config tok) w0)),
                     OwnerApi.Done (OwnerApi.Response b2), no_tally)).
  { rewrite (receive_step fuel _ _ (Http s2 b2) (r3 :: rest)) by reflexivity.
    unfold OwnerApi.reply_of. rewrite H2xx. reflexivity. }
  rewrite (jwt_refresh_then_resend _ request b1 w0 _ _ _ Hretry Hrefresh0 Hrecv).
  unfold OwnerApi.api_with, OwnerApi.put_on_wire.
  match goal with |- context [OwnerApi.receive (S fuel) ?c' ?w'] =>
    rewrite (exempt_request_is_not_recovered fuel c' w' r3 rest)
  end.
  - cbn [counted fst snd].
    eexists _, _, _. split; [reflexivity|]. split; [reflexivity|].
    unfold OwnerApi.csrf_fetches.
    cbn [OwnerApi.sent OwnerApi.set_inbox OwnerApi.set_sent OwnerApi.set_storage List.filter snd].
    match goal with |- context [OwnerApi.request_interceptor ?wa (OwnerApi.set_header ?k ?v ?c0)] =>
      destruct (request_interceptor_keeps_budget wa (OwnerApi.set_header k v c0)) as (-> & _)
    end.
    match goal with |- context [OwnerApi.request_interceptor ?wa (OwnerApi.refresh_config ?t0)] =>
      destruct (request_interceptor_keeps_budget wa (OwnerApi.refresh_config t0)) as (-> & _)
    end.
    rewrite refresh_is_no_csrf_fetch_of_owner.
    change (OwnerApi.is_csrf_fetch (OwnerApi.set_header _ _ (OwnerApi.set__retry true request)))
      with (OwnerApi.is_csrf_fetch request).
    rewrite Hcsrf. reflexivity.
  - match goal with |- Acquisition.exempt (OwnerApi.request_interceptor ?wa ?c0) = true =>
      destruct (request_interceptor_keeps_budget wa c0) as (_ & -> & _)
    end.
    unfold Acquisition.exempt. cbn [OwnerApi.headers OwnerApi.set_header OwnerApi.set__retry].
    rewrite lookup_insert_ne by discriminate. exact Hexempt'.
  - reflexivity.
  - left.
    match goal with |- OwnerApi._retry (OwnerApi.request_interceptor ?wa ?c0) = true =>
      destruct (request_interceptor_keeps wa c0) as (_ & _ & ->)
    end.
    reflexivity.
Qed.

(** C1, for the owner portal.  When callers invoke [getCSRFToken] one after
    the other before the network has answered, starting with no
    acquisition in flight and none of them served from the cache (the 403
    recovery forces the refresh), exactly one acquisition is started: the
    first caller starts it and puts one GET of the CSRF endpoint on the
    wire, and every other caller gets the promise of that same
    acquisition and sends nothing.  That GET is a request of the [api]
    instance: however the network answers, no second acquisition is
    started while it is on its way, the endpoint gets at most one more
    GET, and when the fetch is over that one promise carries the result
    all callers receive.  The endpoint gets exactly one GET when the
    answer is anything but a 401; a 401 with a refresh token stored makes
    the response interceptor refresh the access token and send the GET
    again, which makes two GETs for the one acquisition. *)
Theorem getCSRFToken_single_flight (w : OwnerApi.World) (first : bool)
    (others : list bool) :
  OwnerApi.initializationPromise w = None ->
  Forall (OwnerApi.misses_cache w) (first :: others) ->
  exists pid request,
    let w' := fst (OwnerApi.run (map OwnerApi.Call (first :: others)) w) in
    snd (OwnerApi.run (map OwnerApi.Call (first :: others)) w)
      = OwnerApi.Started pid request :: map (fun _ => OwnerApi.Joined pid) others /\
    Forall (fun r => OwnerApi.promise_of r = Some pid)
           (snd (OwnerApi.run (map OwnerApi.Call (first :: others)) w)) /\
    OwnerApi.csrf_fetches w' = S (OwnerApi.csrf_fetches w) /\
    OwnerApi.initializationCount w' = S (OwnerApi.initializationCount w) /\
    OwnerApi.awaited pid w' = None /\
    (forall fuel : nat,
       let done := OwnerApi.receive fuel request w' in
       OwnerApi.initializationCount done.1.1 = S (OwnerApi.initializationCount w) /\
       OwnerApi.csrf_fetches done.1.1 <= S (S (OwnerApi.csrf_fetches w)) /\
       forall reply, done.1.2 = OwnerApi.Done reply ->
         (exists result,
             OwnerApi.awaited pid (OwnerApi.csrf_settle reply done.1.1) = Some result) /\
         OwnerApi.initializationPromise (OwnerApi.csrf_settle reply done.1.1) = None /\
         OwnerApi.csrf_fetches (OwnerApi.csrf_settle reply done.1.1)
           = OwnerApi.csrf_fetches done.1.1) /\
    (forall (fuel : nat) r rest,
       OwnerApi.inbox w = r :: rest ->
       (forall body, r <> Http 401 body) ->
       OwnerApi.receive (S fuel) request w'
         = (OwnerApi.set_inbox rest w', OwnerApi.Done (OwnerApi.reply_of request r), no_tally) /\
       OwnerApi.csrf_fetches
         (OwnerApi.csrf_settle (OwnerApi.reply_of request r) (OwnerApi.set_inbox rest w'))
         = S (OwnerApi.csrf_fetches w)) /\
    (forall (fuel : nat) b1 s2 b2 r3 rest,
       OwnerApi.inbox w = Http 401 b1 :: Http s2 b2 :: r3 :: rest ->
       is_2xx s2 = true ->
       Js.truthy (getItem "refreshToken" (OwnerApi.storage w)) = true ->
       let done := OwnerApi.receive (S (S fuel)) request w' in
       exists reply,
         done.1.2 = OwnerApi.Done reply /\
         OwnerApi.csrf_fetches (OwnerApi.csrf_settle reply done.1.1)
           = S (S (OwnerApi.csrf_fetches w))).
Proof.
  intros Hidle Hall. inversion Hall as [| ? ? Hfirst Hothers]; subst.
  destruct (getCSRFToken_starts w first Hidle Hfirst)
    as (w1 & request & Hstart & Hp1 & Hps & Hfetch & Hcount & Hcache).
  destruct (getCSRFToken_starts_with _ _ _ _ _ Hstart)
    as (Hcsrf & Hexempt & Hretry & Hmark & Hstorage & Hinbox).
  assert (Hothers1 : Forall (OwnerApi.misses_cache w1) others).
  { eapply Forall_impl; [|exact Hothers]. unfold OwnerApi.misses_cache. rewrite Hcache. auto. }
  exists (length (OwnerApi.promises w)), request.
  cbn [map OwnerApi.run]. rewrite Hstart, (run_calls_join w1 _ others Hp1 Hothers1).
  cbn [fst snd]. cbv zeta.
  assert (Hlt : length (OwnerApi.promises w) < length (OwnerApi.promises w1)).
  { rewrite Hps, length_app. simpl. lia. }
  repeat match goal with |- _ /\ _ => split end; auto.
  - constructor; [reflexivity|]. apply Forall_map. apply Forall_true. reflexivity.
  - unfold OwnerApi.awaited. rewrite Hps, lookup_app_r by reflexivity.
    rewrite Nat.sub_diag. reflexivity.
  - intros fuel.
    pose proof (receive_quiet _ fuel request w1 Hp1) as (Q1 & Q2 & Q3 & Q4).
    unfold Acquisition.resends, Acquisition.csrf_resend_left, Acquisition.retry_left in Q4.
    rewrite Hcsrf, Hexempt, Hretry, orb_true_r in Q4.
    repeat match goal with |- _ /\ _ => split end.
    + rewrite Q2. exact Hcount.
    + lia.
    + intros reply _.
      assert (Hlt2 : length (OwnerApi.promises w)
                     < length (OwnerApi.promises (OwnerApi.receive fuel request w1).1.1))
        by (rewrite Q3; exact Hlt).
      destruct (csrf_settle_settles _ _ reply Q1 Hlt2) as (Hres & Hnone & Hsent).
      repeat split; [exact Hres | exact Hnone |].
      unfold OwnerApi.csrf_fetches. rewrite Hsent. reflexivity.
  - intros fuel r rest Hin Hnot. split.
    + apply exempt_request_is_not_recovered; [exact Hexempt | congruence | right; exact Hnot].
    + destruct (csrf_settle_settles (OwnerApi.set_inbox rest w1) _
                  (OwnerApi.reply_of request r) Hp1 Hlt) as (_ & _ & Hsent).
      unfold OwnerApi.csrf_fetches in *. rewrite Hsent. exact Hfetch.
  - intros fuel b1 s2 b2 r3 rest Hin H2xx Hrefresh.
    rewrite <- Hinbox in Hin. rewrite <- Hstorage in Hrefresh.
    destruct (csrf_fetch_401_is_resent fuel request w1 b1 s2 b2 r3 rest
                Hcsrf Hexempt Hretry Hin H2xx Hrefresh) as (reply & Hdone & _ & Hsends).
    pose proof (receive_quiet _ (S (S fuel)) request w1 Hp1) as (Q1 & _ & Q3 & _).
    exists reply. split; [exact Hdone|].
    assert (Hlt2 : length (OwnerApi.promises w)
                   < length (OwnerApi.promises
                               (OwnerApi.receive (S (S fuel)) request w1).1.1))
      by (rewrite Q3; exact Hlt).
    destruct (csrf_settle_settles _ _ reply Q1 Hlt2) as (_ & _ & Hsent).
    unfold OwnerApi.csrf_fetches at 1. rewrite Hsent.
    fold (OwnerApi.csrf_fetches (OwnerApi.receive (S (S fuel)) request w1).1.1).
    rewrite Hsends, Hfetch. reflexivity.
Qed.

Lemma getCSRFToken_single_flight_witness :
  OwnerApi.csrf_fetches
    (fst (OwnerApi.run (map OwnerApi.Call [true; true; true; true; true]) portal_in_use)) = 1 /\
  Forall (fun r => OwnerApi.promise_of r = Some 1)
    (snd (OwnerApi.run (map OwnerApi.Call [true; true; true; true; true]) portal_in_use)).
Proof.
  destruct (getCSRFToken_single_flight portal_in_use true [true; true; true; true]
              eq_refl ltac:(repeat constructor))
    as (pid & request & Hrets & Hsame & Hfetches & _).
  split; [exact Hfetches|].
  injection Hrets as Hpid _. subst pid. exact Hsame.
Defined.

(** C1 as stated fails in the customer storefront: [ensureCSRFToken] keeps
    no handle of a fetch in flight, so two callers that find no
    [csrftoken] cookie start two fetches of the CSRF endpoint. *)
Lemma ensureCSRFToken_fetches_per_caller :
  snd (CustomerApi.callers "https://shop.example" 2 storefront_no_cookie)
    = [CustomerApi.Fetching; CustomerApi.Fetching] /\
  CustomerApi.csrf_fetches "https://shop.example"
    (fst (CustomerApi.callers "https://shop.example" 2 storefront_no_cookie)) = 2.
Proof. split; reflexivity. Qed.

Lemma csrf_settle_keeps_auth reply w :
  OwnerApi.auth (OwnerApi.csrf_settle reply w) = OwnerApi.auth w.
Proof.
  unfold OwnerApi.csrf_settle, OwnerApi.csrf_catch.
  destruct (OwnerApi.initializationPromise w); [|reflexivity].
  destruct reply; simpl;
    repeat match goal with |- context [if ?b then _ else _] => destruct b end;
    reflexivity.
Qed.

Lemma initializeCSRF_always_fulfilled reply w :
  snd (Thunks.initializeCSRF reply w) = AuthSlice.initializeCSRF_fulfilled /\
  AuthSlice.csrfError (OwnerApi.auth (fst (Thunks.initializeCSRF reply w))) = None /\
  AuthSlice.csrfInitialized (OwnerApi.auth (fst (Thunks.initializeCSRF reply w))) = true /\
  AuthSlice.csrfLoading (OwnerApi.auth (fst (Thunks.initializeCSRF reply w))) = false.
Proof.
  unfold Thunks.initializeCSRF. simpl.
  destruct (AuthSlice.csrfInitialized (OwnerApi.auth w)); [repeat split|].
  unfold OwnerApi.initializeApp, OwnerApi.getCSRFToken. simpl.
  repeat match goal with
         | |- context [if ?b then _ else _] => destruct b; simpl
         | |- context [match OwnerApi.initializationPromise w with _ => _ end] =>
             destruct (OwnerApi.initializationPromise w); simpl
         end;
    unfold Thunks.finish, Thunks.dispatch; simpl;
    rewrite ?csrf_settle_keeps_auth; simpl; repeat split.
Qed.

(** C6, as the code has it.  When the fetch of an acquisition fails, the
    error settles the shared promise, so the caller that started it and
    every waiter receive that same error, and no acquisition is in flight
    any more.  The cached token, in memory and in [localStorage], is
    cleared when the error carries status 401 or 403, and kept otherwise
    (a 5xx, no response at all, a body without token).  The session is not
    touched by the coordinator, and [initializeCSRF] swallows the failure:
    it is always fulfilled, with [csrfError] null and [csrfInitialized]
    set. *)
Theorem csrf_failure_shared_cache_cleared_on_401_403 (w : OwnerApi.World) (pid : nat)
    (error : OwnerApi.Error) (body : Body) (w0 : OwnerApi.World) :
  OwnerApi.initializationPromise w = Some pid ->
  pid < length (OwnerApi.promises w) ->
  let w' := OwnerApi.csrf_settle (OwnerApi.Thrown error) w in
  let wb := OwnerApi.csrf_settle (OwnerApi.Response body) w in
  let wi := fst (Thunks.initializeCSRF (OwnerApi.Thrown error) w0) in
  OwnerApi.awaited pid w' = Some (OwnerApi.RejectedWith error) /\
  OwnerApi.initializationPromise w' = None /\
  (OwnerApi.status_of error = Some 401%Z \/ OwnerApi.status_of error = Some 403%Z ->
   OwnerApi.csrfToken w' = None /\
   getItem "csrfToken" (OwnerApi.storage w') = None /\
   OwnerApi.isInitialized w' = false) /\
  (OwnerApi.status_of error <> Some 401%Z -> OwnerApi.status_of error <> Some 403%Z ->
   OwnerApi.csrfToken w' = OwnerApi.csrfToken w /\
   OwnerApi.storage w' = OwnerApi.storage w /\
   OwnerApi.isInitialized w' = OwnerApi.isInitialized w) /\
  (Js.truthy (body !! "csrfToken") = false ->
   OwnerApi.awaited pid wb
     = Some (OwnerApi.RejectedWith (OwnerApi.JsError "No CSRF token in response")) /\
   OwnerApi.csrfToken wb = OwnerApi.csrfToken w /\
   OwnerApi.storage wb = OwnerApi.storage w) /\
  OwnerApi.auth w' = OwnerApi.auth w /\
  snd (Thunks.initializeCSRF (OwnerApi.Thrown error) w0) = AuthSlice.initializeCSRF_fulfilled /\
  AuthSlice.csrfError (OwnerApi.auth wi) = None /\
  AuthSlice.csrfInitialized (OwnerApi.auth wi) = true.
Proof.
  intros Hp Hlt w' wb wi. subst w' wb wi.
  destruct (initializeCSRF_always_fulfilled (OwnerApi.Thrown error) w0)
    as (Hact & Herr & Hinit & _).
  rewrite csrf_settle_keeps_auth.
  unfold OwnerApi.csrf_settle, OwnerApi.csrf_catch, OwnerApi.awaited. rewrite Hp.
  repeat match goal with |- _ /\ _ => split end; auto.
  - simpl. destruct (_ || _); simpl;
      rewrite list_lookup_insert_eq by assumption; reflexivity.
  - intros Hst.
    assert (Hb : bool_decide (OwnerApi.status_of error = Some 403%Z)
                 || bool_decide (OwnerApi.status_of error = Some 401%Z) = true).
    { destruct Hst as [H | H]; rewrite H; reflexivity. }
    simpl. rewrite Hb. simpl. repeat split. apply lookup_delete_eq.
  - intros H401 H403. simpl.
    rewrite !bool_decide_eq_false_2 by assumption. simpl. repeat split.
  - intros Hbody. rewrite Hbody. simpl.
    rewrite list_lookup_insert_eq by assumption. repeat split.
Qed.

Lemma csrf_failure_shared_cache_cleared_on_401_403_witness :
  OwnerApi.awaited 1
    (OwnerApi.csrf_settle (OwnerApi.Thrown csrf_fetch_fails)
       (fst (OwnerApi.getCSRFToken true portal_in_use)))
    = Some (OwnerApi.RejectedWith csrf_fetch_fails) /\
  OwnerApi.csrfToken
    (OwnerApi.csrf_settle (OwnerApi.Thrown csrf_fetch_fails)
       (fst (OwnerApi.getCSRFToken true portal_in_use))) = Some "c0".
Proof.
  destruct (csrf_failure_shared_cache_cleared_on_401_403
              (fst (OwnerApi.getCSRFToken true portal_in_use)) 1 csrf_fetch_fails ∅
              portal_in_use eq_refl ltac:(simpl; lia))
    as (Hshared & _ & _ & Hkept & _).
  split; [exact Hshared|].
  destruct (Hkept ltac:(discriminate) ltac:(discriminate)) as (Htoken & _).
  exact Htoken.
Defined.

(** C6 as stated fails: a fetch that fails with a server error leaves the
    cached token where it was, in memory and in [localStorage], and the
    start-up thunk that met the failure leaves [csrfError] null. *)
Lemma csrf_failure_keeps_cache_and_sets_no_error :
  let w := fst (OwnerApi.getCSRFToken true portal_in_use) in
  let w' := OwnerApi.csrf_settle (OwnerApi.Thrown csrf_fetch_fails) w in
  let wi := fst (Thunks.initializeCSRF (OwnerApi.Thrown csrf_fetch_fails)
                   (OwnerApi.boot ∅ [])) in
  OwnerApi.awaited 1 w' = Some (OwnerApi.RejectedWith csrf_fetch_fails) /\
  OwnerApi.csrfToken w' = Some "c0" /\
  getItem "csrfToken" (OwnerApi.storage w') = Some "c0" /\
  OwnerApi.csrf_fetches wi = 1 /\
  AuthSlice.csrfError (OwnerApi.auth wi) = None.
Proof. vm_compute. repeat split. Qed.

(** ** Retry bounds of the response interceptors *)

Lemma counted_tally {W O : Type} (t : Tally) (r : W * O * Tally) :
  snd (counted t r)
  = mkTally (sends t + sends (snd r)) (csrf_recoveries t + csrf_recoveries (snd r))
            (token_refreshes t + token_refreshes (snd r)).
Proof. destruct r as [[? ?] ?]. reflexivity. Qed.

Section OwnerBounds.

Variable recv : OwnerApi.Config -> OwnerApi.World -> OwnerApi.World * OwnerApi.Outcome * Tally.
Hypothesis recv_allowed : forall c w, Retry.owner_allows c (snd (recv c w)).

Lemma api_with_tally c w :
  snd (OwnerApi.api_with recv c w)
  = mkTally (1 + sends (snd (recv (OwnerApi.request_interceptor w c)
                                  (snd (OwnerApi.put_on_wire c w)))))
            (csrf_recoveries (snd (recv (OwnerApi.request_interceptor w c)
                                        (snd (OwnerApi.put_on_wire c w)))))
            (token_refreshes (snd (recv (OwnerApi.request_interceptor w c)
                                        (snd (OwnerApi.put_on_wire c w))))).
Proof. unfold OwnerApi.api_with. simpl. rewrite counted_tally. reflexivity. Qed.

Lemma resend_allowed c w :
  let t := snd (OwnerApi.api_with recv c w) in
  csrf_recoveries t <= (if OwnerApi._csrfRetried c then 0 else 1) /\
  token_refreshes t <= (if OwnerApi._retry c then 0 else 1) /\
  sends t <= 1 + csrf_recoveries t + token_refreshes t.
Proof.
  simpl. rewrite api_with_tally. simpl.
  pose proof (recv_allowed (OwnerApi.request_interceptor w c)
                           (snd (OwnerApi.put_on_wire c w))) as (H1 & H2 & H3).
  destruct (request_interceptor_keeps w c) as (_ & Hc & Hr).
  rewrite Hc, Hr in *.
  destruct (OwnerApi._csrfRetried c), (OwnerApi._retry c); simpl in *; lia.
Qed.

Lemma jwt_expiration_allowed c response w :
  let t := snd (OwnerApi.jwt_expiration recv c response w) in
  csrf_recoveries t <= (if OwnerApi._csrfRetried c then 0 else 1) /\
  token_refreshes t <= (if OwnerApi._retry c then 0 else 1) /\
  sends t <= csrf_recoveries t + token_refreshes t.
Proof.
  unfold OwnerApi.jwt_expiration.
  destruct (bool_decide _ && negb (OwnerApi._retry c)) eqn:Hguard;
    [| simpl; repeat split; destruct (OwnerApi._csrfRetried c), (OwnerApi._retry c); simpl; lia].
  apply andb_true_iff in Hguard as [_ Hretry]. apply negb_true_iff in Hretry.
  destruct (Js.truthy _);
    [| simpl; repeat split; destruct (OwnerApi._csrfRetried c), (OwnerApi._retry c); simpl; lia].
  destruct (OwnerApi.api_with recv (OwnerApi.refresh_config _) w) as [[w1 o] t1].
  destruct o as [[body | refreshError] |];
    try (simpl; rewrite Hretry; destruct (OwnerApi._csrfRetried c); simpl; lia).
  rewrite counted_tally.
  match goal with |- context [OwnerApi.api_with recv ?c' ?w'] =>
    pose proof (resend_allowed c' w') as (H1 & H2 & H3) end.
  simpl in *. rewrite Hretry. destruct (OwnerApi._csrfRetried c); simpl in *; lia.
Qed.

Lemma response_error_allowed c response w :
  Retry.owner_allows c (snd (OwnerApi.response_error recv (OwnerApi.AxiosError c response) w)).
Proof.
  unfold Retry.owner_allows, OwnerApi.response_error.
  destruct (bool_decide _ && negb (OwnerApi._csrfRetried c) && _) eqn:Hguard;
    [| apply jwt_expiration_allowed].
  apply andb_true_iff in Hguard as [Hguard _].
  apply andb_true_iff in Hguard as [_ Hmark]. apply negb_true_iff in Hmark.
  destruct (OwnerApi.await_getCSRFToken recv true w) as [w1 token].
  destruct token as [[token | csrfError] |];
    try (simpl; rewrite Hmark; destruct (OwnerApi._retry c); simpl; lia).
  destruct (Js.truthy (OwnerApi.csrfToken w1)); rewrite counted_tally.
  - match goal with |- context [OwnerApi.api_with recv ?c' ?w'] =>
      pose proof (resend_allowed c' w') as (H1 & H2 & H3) end.
    simpl in *. rewrite Hmark. destruct (OwnerApi._retry c); simpl in *; lia.
  - match goal with |- context [OwnerApi.jwt_expiration recv ?c' ?r' ?w'] =>
      pose proof (jwt_expiration_allowed c' r' w') as (H1 & H2 & H3) end.
    simpl in *. rewrite Hmark. destruct (OwnerApi._retry c); simpl in *; lia.
Qed.

End OwnerBounds.

Lemma receive_allowed fuel :
  forall c w, Retry.owner_allows c (snd (OwnerApi.receive fuel c w)).
Proof.
  induction fuel as [| fuel IH]; intros c w; simpl.
  - unfold Retry.owner_allows. simpl.
    destruct (OwnerApi._csrfRetried c), (OwnerApi._retry c); lia.
  - destruct (OwnerApi.inbox w) as [| r rest].
    + unfold Retry.owner_allows. simpl.
      destruct (OwnerApi._csrfRetried c), (OwnerApi._retry c); lia.
    + unfold OwnerApi.reply_of. destruct r as [status body |].
      * destruct (is_2xx status).
        -- unfold Retry.owner_allows. simpl.
           destruct (OwnerApi._csrfRetried c), (OwnerApi._retry c); lia.
        -- apply response_error_allowed, IH.
      * apply response_error_allowed, IH.
Qed.

Lemma owner_marked_403_is_final recv c body w :
  OwnerApi.response_error recv
    (OwnerApi.AxiosError (OwnerApi.set__csrfRetried true c) (Some (403%Z, body))) w
  = (w, OwnerApi.Done (OwnerApi.Thrown
          (OwnerApi.AxiosError (OwnerApi.set__csrfRetried true c) (Some (403%Z, body)))),
     no_tally).
Proof. reflexivity. Qed.

Lemma owner_marked_401_is_final recv c body w :
  OwnerApi.response_error recv
    (OwnerApi.AxiosError (OwnerApi.set__retry true c) (Some (401%Z, body))) w
  = (w, OwnerApi.Done (OwnerApi.Thrown
          (OwnerApi.AxiosError (OwnerApi.set__retry true c) (Some (401%Z, body)))),
     no_tally).
Proof. reflexivity. Qed.

Lemma customer_marked_is_final base call c response w :
  CustomerApi.response_error base call (CustomerApi.set__retry true c) response w
  = (w, CustomerApi.Done (CustomerApi.Thrown
          (CustomerApi.ApiError (CustomerApi.set__retry true c) response)),
     no_tally).
Proof.
  unfold CustomerApi.response_error. simpl. rewrite !andb_false_r. reflexivity.
Qed.

Lemma customer_request_interceptor_keeps base c w c' w' :
  CustomerApi.request_interceptor base c w = (w', Some c') ->
  CustomerApi._retry c' = CustomerApi._retry c.
Proof.
  unfold CustomerApi.request_interceptor.
  destruct (negb _).
  - destruct (CustomerApi.await_ensureCSRFToken base w) as [w1 [csrfToken |]];
      [| discriminate].
    destruct (Js.truthy csrfToken), (Js.truthy (getItem "access_token" _));
      intros [= <- <-]; reflexivity.
  - destruct (Js.truthy (getItem "access_token" _)); intros [= <- <-]; reflexivity.
Qed.

Lemma customer_response_error_allowed base call c response w :
  (forall c w, Retry.customer_allows c (snd (call c w))) ->
  let t := snd (CustomerApi.response_error base call c response w) in
  csrf_recoveries t + token_refreshes t <= (if CustomerApi._retry c then 0 else 1) /\
  sends t <= csrf_recoveries t + token_refreshes t.
Proof.
  intros Hcall. cbv zeta. unfold CustomerApi.response_error.
  destruct (bool_decide _ && negb (CustomerApi._retry c)) eqn:H403.
  { apply andb_true_iff in H403 as [_ Hmark]. apply negb_true_iff in Hmark.
    rewrite Hmark.
    destruct (CustomerApi.await_ensureCSRFToken base w) as [w1 [newCSRFToken |]];
      [| simpl; lia].
    rewrite counted_tally.
    match goal with |- context [call ?c' ?w'] =>
      pose proof (Hcall c' w') as (H1 & H2) end.
    simpl in *. lia. }
  destruct (bool_decide (_ = Some 401%Z) && negb (CustomerApi._retry c)) eqn:H401;
    [| simpl; destruct (CustomerApi._retry c); lia].
  apply andb_true_iff in H401 as [_ Hmark]. apply negb_true_iff in Hmark.
  rewrite Hmark.
  destruct (Js.truthy _); [| simpl; lia].
  simpl. destruct (CustomerApi.inbox w) as [| r rest]; [simpl; lia|].
  destruct r as [status body |]; [| simpl; lia].
  destruct (is_2xx status); [| simpl; lia].
  rewrite counted_tally.
  match goal with |- context [call ?c' ?w'] =>
    pose proof (Hcall c' w') as (H1 & H2) end.
  simpl in *. lia.
Qed.

Lemma customer_api_allowed base fuel :
  forall c w, Retry.customer_allows c (snd (CustomerApi.api_fuel base fuel c w)).
Proof.
  induction fuel as [| fuel IH]; intros c w; simpl.
  - unfold Retry.customer_allows. simpl. destruct (CustomerApi._retry c); lia.
  - destruct (CustomerApi.request_interceptor base c w) as [w1 [c1 |]] eqn:Hreq;
      [| unfold Retry.customer_allows; simpl; destruct (CustomerApi._retry c); lia].
    apply customer_request_interceptor_keeps in Hreq.
    unfold Retry.customer_allows. rewrite <- Hreq. simpl.
    destruct (CustomerApi.inbox w1) as [| r rest];
      [simpl; destruct (CustomerApi._retry c1); lia|].
    unfold CustomerApi.reply_of. destruct r as [status body |].
    + destruct (is_2xx status); [simpl; destruct (CustomerApi._retry c1); lia|].
      rewrite counted_tally.
      match goal with |- context [CustomerApi.response_error base ?k ?c' ?r' ?w'] =>
        pose proof (customer_response_error_allowed base k c' r' w' IH) as (H1 & H2) end.
      simpl in *. lia.
    + rewrite counted_tally.
      match goal with |- context [CustomerApi.response_error base ?k ?c' ?r' ?w'] =>
        pose proof (customer_response_error_allowed base k c' r' w' IH) as (H1 & H2) end.
      simpl in *. lia.
Qed.

(** C5, as the code has it.  For every request each recovery is made at
    most once: the mark is written on the request before the recovery and
    is carried by every resend, so a failure of a class whose mark is set
    is rejected at once, with that error, with no request sent.  In the
    customer client the CSRF recovery and the token refresh share one mark
    ([_retry]): at most one of the two is made for a request, which is sent
    at most twice.  In the owner client the marks are separate
    ([_csrfRetried], [_retry]): a request may get one CSRF re-fetch and one
    token refresh, and is sent at most three times. *)
Theorem each_recovery_at_most_once_per_request :
  (forall config w,
      let t := snd (OwnerApi.api config w) in
      csrf_recoveries t <= (if OwnerApi._csrfRetried config then 0 else 1) /\
      token_refreshes t <= (if OwnerApi._retry config then 0 else 1) /\
      sends t <= 1 + csrf_recoveries t + token_refreshes t /\
      sends t <= 3) /\
  (forall recv c body w,
      OwnerApi.response_error recv
        (OwnerApi.AxiosError (OwnerApi.set__csrfRetried true c) (Some (403%Z, body))) w
      = (w, OwnerApi.Done (OwnerApi.Thrown
              (OwnerApi.AxiosError (OwnerApi.set__csrfRetried true c) (Some (403%Z, body)))),
         no_tally)) /\
  (forall recv c body w,
      OwnerApi.response_error recv
        (OwnerApi.AxiosError (OwnerApi.set__retry true c) (Some (401%Z, body))) w
      = (w, OwnerApi.Done (OwnerApi.Thrown
              (OwnerApi.AxiosError (OwnerApi.set__retry true c) (Some (401%Z, body)))),
         no_tally)) /\
  (forall base config w,
      let t := snd (CustomerApi.api base config w) in
      csrf_recoveries t + token_refreshes t
        <= (if CustomerApi._retry config then 0 else 1) /\
      sends t <= 1 + csrf_recoveries t + token_refreshes t /\
      sends t <= 2) /\
  (forall base call c response w,
      CustomerApi.response_error base call (CustomerApi.set__retry true c) response w
      = (w, CustomerApi.Done (CustomerApi.Thrown
              (CustomerApi.ApiError (CustomerApi.set__retry true c) response)),
         no_tally)).
Proof.
  split; [| split; [| split; [| split]]].
  - intros config w. unfold OwnerApi.api.
    pose proof (resend_allowed (OwnerApi.receive (S (length (OwnerApi.inbox w))))
                  (receive_allowed _) config w) as (H1 & H2 & H3).
    simpl in *. repeat split; try assumption.
    destruct (OwnerApi._csrfRetried config), (OwnerApi._retry config); simpl in *; lia.
  - intros. apply owner_marked_403_is_final.
  - intros. apply owner_marked_401_is_final.
  - intros base config w. unfold CustomerApi.api.
    pose proof (customer_api_allowed base (S (length (CustomerApi.inbox w))) config w)
      as (H1 & H2).
    simpl in *. repeat split; try assumption.
    destruct (CustomerApi._retry config); simpl in *; lia.
  - intros. apply customer_marked_is_final.
Qed.

(** C5 as stated fails in the owner client: the two recoveries are not
    exclusive.  A request whose CSRF token is rejected and whose access
    token has expired gets the CSRF re-fetch and then the token refresh; it
    is sent three times and succeeds. *)
Lemma owner_request_gets_both_recoveries :
  snd (OwnerApi.api place_order (stale_session csrf_then_expiry)) = mkTally 3 1 1 /\
  snd (fst (OwnerApi.api place_order (stale_session csrf_then_expiry)))
    = OwnerApi.Done (OwnerApi.Response {["order" := "17"]}) /\
  map OwnerApi.url
      (OwnerApi.sent (fst (fst (OwnerApi.api place_order (stale_session csrf_then_expiry)))))
    = ["/orders/"; "/auth/token/refresh/"; "/orders/"; "/auth/csrf/"; "/orders/"].
Proof. vm_compute. repeat split. Qed.

(** ** Refresh failure in the owner client *)

Lemma put_on_wire_facts c w :
  OwnerApi.put_on_wire c w
    = (OwnerApi.request_interceptor w c, snd (OwnerApi.put_on_wire c w)) /\
  OwnerApi.inbox (snd (OwnerApi.put_on_wire c w)) = OwnerApi.inbox w /\
  OwnerApi.storage (snd (OwnerApi.put_on_wire c w)) = OwnerApi.storage w /\
  OwnerApi.auth (snd (OwnerApi.put_on_wire c w)) = OwnerApi.auth w /\
  OwnerApi.refresh_calls (snd (OwnerApi.put_on_wire c w))
    = (if OwnerApi.is_refresh_call c then 1 else 0) + OwnerApi.refresh_calls w.
Proof.
  repeat split. unfold OwnerApi.refresh_calls, OwnerApi.put_on_wire. cbn [snd].
  change (OwnerApi.sent (OwnerApi.set_sent ?l w)) with l.
  cbn [List.filter]. unfold OwnerApi.is_refresh_call at 1.
  destruct (request_interceptor_keeps w c) as (-> & _).
  fold (OwnerApi.is_refresh_call c). destruct (OwnerApi.is_refresh_call c); reflexivity.
Qed.

Lemma refresh_call_is_refreshed_again (k : nat) :
  forall fuel c w,
    k < fuel ->
    OwnerApi.inbox w = repeat (Http 401 ∅) k ->
    OwnerApi._retry c = false ->
    Js.truthy (getItem "refreshToken" (OwnerApi.storage w)) = true ->
    exists w' t,
      OwnerApi.receive fuel c w = (w', OwnerApi.Pending, t) /\
      OwnerApi.refresh_calls w' = k + OwnerApi.refresh_calls w /\
      OwnerApi.storage w' = OwnerApi.storage w /\
      OwnerApi.auth w' = OwnerApi.auth w.
Proof.
  induction k as [| k IH]; intros fuel c w Hfuel Hinbox Hretry Hrefresh;
    destruct fuel as [| fuel]; try lia; simpl; rewrite Hinbox; simpl.
  - do 2 eexists. repeat split.
  - unfold OwnerApi.jwt_expiration. rewrite Hretry. simpl. rewrite Hrefresh.
    unfold OwnerApi.api_with.
    match goal with |- context [OwnerApi.put_on_wire ?c' ?w'] =>
      pose proof (put_on_wire_facts c' w') as (Heq & Hin & Hst & Hau & Hrc);
      destruct (IH fuel (OwnerApi.request_interceptor w' c')
                  (snd (OwnerApi.put_on_wire c' w')))
        as (w1 & t1 & Hrun & Hcalls & Hstore & Hauth)
    end.
    + lia.
    + rewrite Hin. reflexivity.
    + match goal with |- context [OwnerApi.request_interceptor ?w' ?c'] =>
        destruct (request_interceptor_keeps w' c') as (_ & _ & ->) end.
      reflexivity.
    + rewrite Hst. exact Hrefresh.
    + rewrite Heq, Hrun. simpl. do 2 eexists. split; [reflexivity|].
      rewrite Hcalls, Hstore, Hauth, Hrc, Hst, Hau. repeat split.
      unfold OwnerApi.refresh_calls. simpl. lia.
Qed.

(** C3 fails in the owner client.  With an expired access token and a
    refresh token the server refuses, a request answered 401 calls the
    refresh endpoint, and when that call fails the original error is
    rejected with both tokens still in [localStorage] and the session still
    authenticated.  When the refusal of the refresh call is itself a 401,
    the refresh request, which goes through the same interceptor, is
    refreshed in turn: [n + 1] such answers give [n + 1] refresh calls and
    no outcome yet. *)
Theorem owner_refresh_failure_keeps_tokens :
  let r := OwnerApi.api list_restaurants (stale_session [Http 401 ∅; Http 400 ∅]) in
  (exists c, snd (fst r)
             = OwnerApi.Done (OwnerApi.Thrown (OwnerApi.AxiosError c (Some (401%Z, ∅)))) /\
             OwnerApi.url c = "/owner/restaurants/") /\
  OwnerApi.refresh_calls (fst (fst r)) = 1 /\
  OwnerApi.storage (fst (fst r)) = stale_tokens /\
  getItem "token" (OwnerApi.storage (fst (fst r))) = Some "expired" /\
  getItem "refreshToken" (OwnerApi.storage (fst (fst r))) = Some "invalid" /\
  AuthSlice.isAuthenticated (OwnerApi.auth (fst (fst r))) = true /\
  (forall n,
      let r := OwnerApi.api list_restaurants
                 (stale_session (repeat (Http 401 ∅) (S n))) in
      snd (fst r) = OwnerApi.Pending /\
      OwnerApi.refresh_calls (fst (fst r)) = S n /\
      OwnerApi.storage (fst (fst r)) = stale_tokens).
Proof.
  cbv zeta. split; [eexists; split; vm_compute; reflexivity|].
  do 5 (split; [vm_compute; reflexivity|]).
  intros n. unfold OwnerApi.api, OwnerApi.api_with.
  match goal with |- context [OwnerApi.put_on_wire ?c' ?w'] =>
    pose proof (put_on_wire_facts c' w') as (Heq & Hin & Hst & _ & Hrc);
    destruct (refresh_call_is_refreshed_again (S n)
                (S (length (OwnerApi.inbox w')))
                (OwnerApi.request_interceptor w' c')
                (snd (OwnerApi.put_on_wire c' w')))
      as (w1 & t1 & Hrun & Hcalls & Hstore & _)
  end.
  - simpl. rewrite repeat_length. lia.
  - rewrite Hin. reflexivity.
  - reflexivity.
  - rewrite Hst. reflexivity.
  - rewrite Heq, Hrun. simpl. rewrite Hcalls, Hstore, Hrc, Hst. repeat split.
    change (OwnerApi.is_refresh_call list_restaurants) with false.
    change (OwnerApi.refresh_calls (stale_session (repeat (Http 401 ∅) (S n)))) with 0.
    cbn iota. lia.
Qed.

(** ** The fuel of [receive] is enough

    Every step of [receive] takes a reply from [inbox], so a run never
    stops for lack of fuel once the fuel exceeds the replies there are:
    [Pending] then means that a reply, or the promise of another task, is
    awaited. *)

Lemma getCSRFToken_keeps_inbox forceRefresh w :
  OwnerApi.inbox (fst (OwnerApi.getCSRFToken forceRefresh w)) = OwnerApi.inbox w.
Proof.
  unfold OwnerApi.getCSRFToken.
  destruct (negb forceRefresh && _); [reflexivity|].
  destruct (OwnerApi.initializationPromise w); reflexivity.
Qed.

Lemma csrf_settle_keeps_inbox reply w :
  OwnerApi.inbox (OwnerApi.csrf_settle reply w) = OwnerApi.inbox w.
Proof.
  unfold OwnerApi.csrf_settle, OwnerApi.csrf_catch.
  destruct (OwnerApi.initializationPromise w); [|reflexivity].
  destruct reply; simpl;
    repeat match goal with |- context [if ?b then _ else _] => destruct b end;
    reflexivity.
Qed.

Section Shrinks.

Variable recv : OwnerApi.Config -> OwnerApi.World -> OwnerApi.World * OwnerApi.Outcome * Tally.
Hypothesis recv_shrinks :
  forall c w, length (OwnerApi.inbox (fst (fst (recv c w)))) <= length (OwnerApi.inbox w).

Lemma api_with_shrinks c w :
  length (OwnerApi.inbox (fst (fst (OwnerApi.api_with recv c w)))) <= length (OwnerApi.inbox w).
Proof.
  unfold OwnerApi.api_with.
  destruct (put_on_wire_facts c w) as (Heq & Hin & _). rewrite Heq.
  pose proof (recv_shrinks (OwnerApi.request_interceptor w c)
                           (snd (OwnerApi.put_on_wire c w))) as H.
  rewrite Hin in H.
  destruct (recv _ _) as [[w1 o] t]. simpl in *. lia.
Qed.

Lemma await_getCSRFToken_shrinks forceRefresh w :
  length (OwnerApi.inbox (fst (OwnerApi.await_getCSRFToken recv forceRefresh w)))
  <= length (OwnerApi.inbox w).
Proof.
  unfold OwnerApi.await_getCSRFToken.
  pose proof (getCSRFToken_keeps_inbox forceRefresh w) as Hk.
  destruct (OwnerApi.getCSRFToken forceRefresh w) as [w1 ret]. simpl in Hk.
  destruct ret as [token | pid | pid request].
  - simpl. rewrite Hk. lia.
  - simpl. rewrite Hk. lia.
  - pose proof (recv_shrinks request w1) as H. rewrite Hk in H.
    destruct (recv request w1) as [[w2 o] t]. simpl in H.
    destruct o as [reply |]; simpl; [rewrite csrf_settle_keeps_inbox|]; lia.
Qed.

Lemma jwt_expiration_shrinks c response w :
  length (OwnerApi.inbox (fst (fst (OwnerApi.jwt_expiration recv c response w))))
  <= length (OwnerApi.inbox w).
Proof.
  unfold OwnerApi.jwt_expiration.
  destruct (_ && _); [| simpl; lia].
  destruct (Js.truthy _); [| simpl; lia].
  pose proof (api_with_shrinks
                (OwnerApi.refresh_config
                   (Js.to_string (getItem "refreshToken" (OwnerApi.storage w)))) w) as H1.
  destruct (OwnerApi.api_with recv (OwnerApi.refresh_config _) w) as [[w1 o] t1].
  simpl in H1.
  destruct o as [[body | refreshError] |]; simpl; try lia.
  match goal with |- context [OwnerApi.api_with recv ?c' ?w'] =>
    pose proof (api_with_shrinks c' w') as H2;
    destruct (OwnerApi.api_with recv c' w') as [[w2 o2] t2] end.
  simpl in *. lia.
Qed.

Lemma response_error_shrinks error w :
  length (OwnerApi.inbox (fst (fst (OwnerApi.response_error recv error w))))
  <= length (OwnerApi.inbox w).
Proof.
  unfold OwnerApi.response_error.
  destruct error as [c response | message]; [| simpl; lia].
  destruct (_ && _); [| apply jwt_expiration_shrinks].
  pose proof (await_getCSRFToken_shrinks true w) as H1.
  destruct (OwnerApi.await_getCSRFToken recv true w) as [w1 token]. simpl in H1.
  destruct token as [[token | csrfError] |]; simpl; try lia.
  destruct (Js.truthy (OwnerApi.csrfToken w1)).
  - match goal with |- context [OwnerApi.api_with recv ?c' ?w'] =>
      pose proof (api_with_shrinks c' w') as H2;
      destruct (OwnerApi.api_with recv c' w') as [[w2 o2] t2] end.
    simpl in *. lia.
  - match goal with |- context [OwnerApi.jwt_expiration recv ?c' ?r' ?w'] =>
      pose proof (jwt_expiration_shrinks c' r' w') as H2;
      destruct (OwnerApi.jwt_expiration recv c' r' w') as [[w2 o2] t2] end.
    simpl in *. lia.
Qed.

End Shrinks.

Lemma receive_shrinks fuel :
  forall c w,
    length (OwnerApi.inbox (fst (fst (OwnerApi.receive fuel c w))))
    <= length (OwnerApi.inbox w).
Proof.
  induction fuel as [| fuel IH]; intros c w; simpl; [lia|].
  destruct (OwnerApi.inbox w) as [| r rest] eqn:Hin; [simpl; rewrite Hin; simpl; lia|].
  destruct (OwnerApi.reply_of c r) as [body | error]; [simpl; lia|].
  pose proof (response_error_shrinks (OwnerApi.receive fuel) IH error
                (OwnerApi.set_inbox rest w)) as H.
  simpl in *. lia.
Qed.

Section SameRuns.

Variables recv1 recv2 :
  OwnerApi.Config -> OwnerApi.World -> OwnerApi.World * OwnerApi.Outcome * Tally.
Variable n : nat.
Hypothesis recv_agree :
  forall c w, length (OwnerApi.inbox w) <= n -> recv1 c w = recv2 c w.
Hypothesis recv1_shrinks :
  forall c w, length (OwnerApi.inbox (fst (fst (recv1 c w)))) <= length (OwnerApi.inbox w).

Lemma api_with_same c w :
  length (OwnerApi.inbox w) <= n ->
  OwnerApi.api_with recv1 c w = OwnerApi.api_with recv2 c w.
Proof.
  intros Hn. unfold OwnerApi.api_with.
  destruct (put_on_wire_facts c w) as (Heq & Hin & _). rewrite Heq.
  rewrite recv_agree by (rewrite Hin; exact Hn). reflexivity.
Qed.

Lemma await_getCSRFToken_same forceRefresh w :
  length (OwnerApi.inbox w) <= n ->
  OwnerApi.await_getCSRFToken recv1 forceRefresh w
  = OwnerApi.await_getCSRFToken recv2 forceRefresh w.
Proof.
  intros Hn. unfold OwnerApi.await_getCSRFToken.
  pose proof (getCSRFToken_keeps_inbox forceRefresh w) as Hk.
  destruct (OwnerApi.getCSRFToken forceRefresh w) as [w1 ret]. simpl in Hk.
  destruct ret as [token | pid | pid request]; try reflexivity.
  rewrite recv_agree by (rewrite Hk; exact Hn). reflexivity.
Qed.

Lemma jwt_expiration_same c response w :
  length (OwnerApi.inbox w) <= n ->
  OwnerApi.jwt_expiration recv1 c response w = OwnerApi.jwt_expiration recv2 c response w.
Proof.
  intros Hn. unfold OwnerApi.jwt_expiration.
  destruct (_ && _); [| reflexivity].
  destruct (Js.truthy _); [| reflexivity].
  rewrite <- (api_with_same _ w Hn).
  pose proof (api_with_shrinks recv1 recv1_shrinks
                (OwnerApi.refresh_config
                   (Js.to_string (getItem "refreshToken" (OwnerApi.storage w)))) w) as H1.
  destruct (OwnerApi.api_with recv1 (OwnerApi.refresh_config _) w) as [[w1 o] t1].
  simpl in H1.
  destruct o as [[body | refreshError] |]; try reflexivity.
  rewrite api_with_same by (simpl; lia). reflexivity.
Qed.

Lemma response_error_same error w :
  length (OwnerApi.inbox w) <= n ->
  OwnerApi.response_error recv1 error w = OwnerApi.response_error recv2 error w.
Proof.
  intros Hn. unfold OwnerApi.response_error.
  destruct error as [c response | message]; [| reflexivity].
  destruct (_ && _); [| apply jwt_expiration_same; exact Hn].
  rewrite <- (await_getCSRFToken_same true w Hn).
  pose proof (await_getCSRFToken_shrinks recv1 recv1_shrinks true w) as H1.
  destruct (OwnerApi.await_getCSRFToken recv1 true w) as [w1 token]. simpl in H1.
  destruct token as [[token | csrfError] |]; try reflexivity.
  destruct (Js.truthy (OwnerApi.csrfToken w1)).
  - rewrite api_with_same by lia. reflexivity.
  - rewrite jwt_expiration_same by lia. reflexivity.
Qed.

End SameRuns.

Lemma receive_fuel_enough fuel :
  forall fuel' c w,
    length (OwnerApi.inbox w) < fuel ->
    length (OwnerApi.inbox w) < fuel' ->
    OwnerApi.receive fuel c w = OwnerApi.receive fuel' c w.
Proof.
  induction fuel as [| fuel IH]; intros fuel' c w Hf Hf'; [lia|].
  destruct fuel' as [| fuel']; [lia|]. simpl.
  destruct (OwnerApi.inbox w) as [| r rest] eqn:Hin; [reflexivity|].
  destruct (OwnerApi.reply_of c r) as [body | error]; [reflexivity|].
  simpl in Hf, Hf'.
  apply (response_error_same (OwnerApi.receive fuel) (OwnerApi.receive fuel')
                             (length rest)).
  - intros c' w' Hle. apply IH; lia.
  - apply receive_shrinks.
  - simpl. lia.
Qed.

(** More fuel than [api] takes changes nothing. *)
Lemma api_fuel_enough config w fuel :
  length (OwnerApi.inbox w) < fuel ->
  OwnerApi.api_with (OwnerApi.receive fuel) config w = OwnerApi.api config w.
Proof.
  intros Hf. unfold OwnerApi.api.
  apply (api_with_same _ _ (length (OwnerApi.inbox w))).
  - intros c' w' Hle. apply receive_fuel_enough; lia.
  - lia.
Qed.

Section CustomerFuel.

Variable base : string.

Lemma await_ensureCSRFToken_shrinks w :
  length (CustomerApi.inbox (fst (CustomerApi.await_ensureCSRFToken base w)))
  <= length (CustomerApi.inbox w).
Proof.
  unfold CustomerApi.await_ensureCSRFToken, CustomerApi.ensureCSRFToken.
  destruct (negb _); simpl; [| lia].
  destruct (CustomerApi.inbox w) eqn:Hin; simpl; rewrite ?Hin; simpl; lia.
Qed.

Lemma customer_request_interceptor_shrinks c w :
  length (CustomerApi.inbox (fst (CustomerApi.request_interceptor base c w)))
  <= length (CustomerApi.inbox w).
Proof.
  unfold CustomerApi.request_interceptor.
  destruct (negb _); [| simpl; lia].
  pose proof (await_ensureCSRFToken_shrinks w) as H.
  destruct (CustomerApi.await_ensureCSRFToken base w) as [w1 [csrfToken |]];
    simpl in *; lia.
Qed.

Lemma customer_response_error_same call1 call2 n c response w :
  (forall c w, length (CustomerApi.inbox w) <= n -> call1 c w = call2 c w) ->
  length (CustomerApi.inbox w) <= n ->
  CustomerApi.response_error base call1 c response w
  = CustomerApi.response_error base call2 c response w.
Proof.
  intros Hagree Hn. unfold CustomerApi.response_error.
  destruct (bool_decide (_ = Some 403%Z) && _).
  { pose proof (await_ensureCSRFToken_shrinks w) as H.
    destruct (CustomerApi.await_ensureCSRFToken base w) as [w1 [newCSRFToken |]];
      [| reflexivity].
    simpl in H. rewrite Hagree by lia. reflexivity. }
  destruct (bool_decide (_ = Some 401%Z) && _); [| reflexivity].
  destruct (Js.truthy _); [| reflexivity].
  simpl. destruct (CustomerApi.inbox w) as [| r rest] eqn:Hin; [reflexivity|].
  destruct r as [status body |]; [| reflexivity].
  destruct (is_2xx status); [| reflexivity].
  simpl in Hn. rewrite Hagree by (simpl; lia). reflexivity.
Qed.

Lemma customer_api_fuel_enough fuel :
  forall fuel' c w,
    length (CustomerApi.inbox w) < fuel ->
    length (CustomerApi.inbox w) < fuel' ->
    CustomerApi.api_fuel base fuel c w = CustomerApi.api_fuel base fuel' c w.
Proof.
  induction fuel as [| fuel IH]; intros fuel' c w Hf Hf'; [lia|].
  destruct fuel' as [| fuel']; [lia|]. simpl.
  pose proof (customer_request_interceptor_shrinks c w) as Hreq.
  destruct (CustomerApi.request_interceptor base c w) as [w1 [c1 |]]; [| reflexivity].
  simpl in Hreq. simpl.
  destruct (CustomerApi.inbox w1) as [| r rest] eqn:Hin; [reflexivity|].
  simpl in Hreq.
  destruct (CustomerApi.reply_of c1 r) as [body | [c2 response | response]];
    try reflexivity.
  f_equal.
  apply (customer_response_error_same _ _ (length rest)).
  - intros c' w' Hle. apply IH; lia.
  - simpl. lia.
Qed.

(** More fuel than [api] takes changes nothing. *)
Lemma customer_api_enough config w fuel :
  length (CustomerApi.inbox w) < fuel ->
  CustomerApi.api_fuel base fuel config w = CustomerApi.api base config w.
Proof.
  intros Hf. unfold CustomerApi.api. apply customer_api_fuel_enough; lia.
Qed.

End CustomerFuel.

(** ** At most one acquisition in flight, in every interleaving *)

Lemma pending_after_settle (l : list (option OwnerApi.Settled)) :
  forall i r,
    l !! i = Some None ->
    S (length (List.filter OwnerApi.is_pending (<[i := Some r]> l)))
    = length (List.filter OwnerApi.is_pending l).
Proof.
  induction l as [| p l IH]; intros i r Hi; [discriminate|].
  destruct i as [| i]; simpl in *.
  - injection Hi as ->. reflexivity.
  - destruct (OwnerApi.is_pending p); simpl; rewrite <- (IH i r Hi); reflexivity.
Qed.

Lemma pending_after_start (l : list (option OwnerApi.Settled)) :
  length (List.filter OwnerApi.is_pending (l ++ [None]))
  = S (length (List.filter OwnerApi.is_pending l)).
Proof.
  rewrite List.filter_app, length_app. simpl. lia.
Qed.

Lemma getCSRFToken_coordinated forceRefresh w :
  OwnerApi.coordinated w ->
  OwnerApi.coordinated (fst (OwnerApi.getCSRFToken forceRefresh w)) /\
  OwnerApi.csrf_fetches (fst (OwnerApi.getCSRFToken forceRefresh w))
    + OwnerApi.in_flight w
    = OwnerApi.csrf_fetches w + OwnerApi.in_flight (fst (OwnerApi.getCSRFToken forceRefresh w)).
Proof.
  intros Hok. unfold OwnerApi.getCSRFToken.
  destruct (negb forceRefresh && _); [split; [exact Hok | reflexivity]|].
  unfold OwnerApi.coordinated in *.
  destruct (OwnerApi.initializationPromise w) as [pid |] eqn:Hp.
  - simpl. rewrite Hp. split; [exact Hok | reflexivity].
  - unfold OwnerApi.in_flight, OwnerApi.csrf_fetches in *. simpl.
    rewrite pending_after_start, Hok.
    unfold OwnerApi.is_csrf_fetch at 1.
    destruct (request_interceptor_keeps
                (OwnerApi.set_initializationCount (S (OwnerApi.initializationCount w)) w)
                OwnerApi.csrf_config) as (-> & _).
    simpl. repeat split; try lia.
    rewrite lookup_app_r by reflexivity. rewrite Nat.sub_diag. reflexivity.
Qed.

Lemma csrf_settle_coordinated reply w :
  OwnerApi.coordinated w ->
  OwnerApi.coordinated (OwnerApi.csrf_settle reply w) /\
  OwnerApi.in_flight (OwnerApi.csrf_settle reply w) = 0 /\
  OwnerApi.csrf_fetches (OwnerApi.csrf_settle reply w) = OwnerApi.csrf_fetches w.
Proof.
  intros Hok. unfold OwnerApi.csrf_settle, OwnerApi.csrf_catch, OwnerApi.coordinated in *.
  destruct (OwnerApi.initializationPromise w) as [pid |] eqn:Hp.
  - destruct Hok as [Hpid Hone]. unfold OwnerApi.in_flight in *.
    destruct reply as [body | error]; simpl;
      repeat match goal with |- context [if ?b then _ else _] => destruct b end;
      simpl;
      match goal with |- context [<[pid := Some ?r]> _] =>
        pose proof (pending_after_settle _ pid r Hpid) as Hcount end;
      repeat split; lia.
  - rewrite Hp. repeat split; exact Hok.
Qed.

(** In every interleaving of callers and settlements, starting from a
    consistent coordinator, at most one acquisition is in flight, and the
    fetches started exceed the settlements by no more than the fetch in
    flight at the end. *)
Lemma getCSRFToken_at_most_one_in_flight (events : list OwnerApi.Event) :
  forall w,
    OwnerApi.coordinated w ->
    OwnerApi.coordinated (fst (OwnerApi.run events w)) /\
    OwnerApi.in_flight (fst (OwnerApi.run events w)) <= 1 /\
    OwnerApi.csrf_fetches (fst (OwnerApi.run events w)) + OwnerApi.in_flight w
      <= OwnerApi.csrf_fetches w + OwnerApi.in_flight (fst (OwnerApi.run events w))
         + length (List.filter (fun e => match e with OwnerApi.Settle _ => true | _ => false end)
                               events).
Proof.
  assert (Hle : forall w, OwnerApi.coordinated w -> OwnerApi.in_flight w <= 1).
  { intros w. unfold OwnerApi.coordinated.
    destruct (OwnerApi.initializationPromise w); [intros [_ ->] | intros ->]; lia. }
  induction events as [| e events IH]; intros w Hok.
  - simpl. split; [exact Hok|]. split; [apply Hle, Hok | lia].
  - destruct e as [forceRefresh | reply]; simpl.
    + destruct (getCSRFToken_coordinated forceRefresh w Hok) as [Hok1 Hcount].
      destruct (OwnerApi.getCSRFToken forceRefresh w) as [w1 r]. simpl in *.
      destruct (IH w1 Hok1) as (Hok2 & Hone & Hfetch).
      destruct (OwnerApi.run events w1) as [w2 rs]. simpl in *.
      split; [exact Hok2|]. split; [exact Hone|]. lia.
    + destruct (csrf_settle_coordinated reply w Hok) as (Hok1 & Hzero & Hsame).
      destruct (IH _ Hok1) as (Hok2 & Hone & Hfetch).
      split; [exact Hok2|]. split; [exact Hone|].
      pose proof (Hle w Hok). lia.
Qed.

Lemma getCSRFToken_at_most_one_in_flight_witness :
  OwnerApi.in_flight
    (fst (OwnerApi.run [OwnerApi.Call true; OwnerApi.Call true;
                        OwnerApi.Settle (csrf_reply "c1");
                        OwnerApi.Call true; OwnerApi.Call false]
                       portal_in_use)) <= 1.
Proof.
  apply (getCSRFToken_at_most_one_in_flight
           [OwnerApi.Call true; OwnerApi.Call true;
            OwnerApi.Settle (csrf_reply "c1");
            OwnerApi.Call true; OwnerApi.Call false] portal_in_use).
  reflexivity.
Defined.

(** ** Refresh failure in the customer client *)

(** The sibling of the owner's 401 branch: when the refresh call of the
    customer client fails, the access token, the refresh token and the user
    are removed from [localStorage], the page is sent to [/login] and the
    error of the refresh call is rejected; the refresh endpoint was called
    once. *)
Lemma customer_refresh_failure_forces_login (base : string)
    (call : CustomerApi.Config -> CustomerApi.World
            -> CustomerApi.World * CustomerApi.Outcome * Tally)
    (c : CustomerApi.Config) (body : Body) (w : CustomerApi.World)
    (r : HttpResponse) (rest : list HttpResponse) :
  CustomerApi._retry c = false ->
  Js.truthy (getItem "refresh_token" (CustomerApi.storage w)) = true ->
  CustomerApi.inbox w = r :: rest ->
  match r with Http status _ => is_2xx status = false | NoResponse => True end ->
  let run := CustomerApi.response_error base call c (Some (401%Z, body)) w in
  getItem "access_token" (CustomerApi.storage (fst (fst run))) = None /\
  getItem "refresh_token" (CustomerApi.storage (fst (fst run))) = None /\
  getItem "user" (CustomerApi.storage (fst (fst run))) = None /\
  CustomerApi.location_href (fst (fst run)) = "/login" /\
  (exists response,
      snd (fst run) = CustomerApi.Done (CustomerApi.Thrown (CustomerApi.DirectError response))) /\
  CustomerApi.refresh_calls base (fst (fst run)) = S (CustomerApi.refresh_calls base w) /\
  snd run = one_token_refresh.
Proof.
  intros Hretry Hrefresh Hin Hfail. cbv zeta.
  unfold CustomerApi.response_error. rewrite Hretry. simpl.
  rewrite Hrefresh, Hin.
  assert (Hcalls : forall w',
    CustomerApi.sent w' = CustomerApi.Direct "post" (CustomerApi.refresh_url base)
                            :: CustomerApi.sent w ->
    CustomerApi.refresh_calls base w' = S (CustomerApi.refresh_calls base w)).
  { intros w' Hs. unfold CustomerApi.refresh_calls. rewrite Hs. simpl.
    rewrite bool_decide_eq_true_2 by reflexivity. reflexivity. }
  destruct r as [status rbody |]; [rewrite Hfail|]; simpl;
    (repeat match goal with |- _ /\ _ => split end;
     [ storage_lookup; reflexivity | storage_lookup; reflexivity
     | storage_lookup; reflexivity | reflexivity | eexists; reflexivity
     | apply Hcalls; reflexivity | reflexivity ]).
Qed.

Lemma customer_refresh_failure_forces_login_witness :
  CustomerApi.storage
    (fst (fst (CustomerApi.api "https://shop.example" storefront_orders
                 (CustomerApi.set_inbox [Http 401 ∅; Http 401 ∅] storefront_stale))))
    !! "refresh_token" = None /\
  getItem "refresh_token"
    (CustomerApi.storage
       (fst (fst (CustomerApi.response_error "https://shop.example"
                    (CustomerApi.api "https://shop.example") storefront_orders
                    (Some (401%Z, ∅)) storefront_stale)))) = None.
Proof.
  split; [reflexivity|].
  destruct (customer_refresh_failure_forces_login "https://shop.example"
              (CustomerApi.api "https://shop.example") storefront_orders ∅
              storefront_stale (Http 401 ∅) [] eq_refl eq_refl eq_refl eq_refl)
    as (_ & Hrefresh & _).
  exact Hrefresh.
Defined.

(** ** Hydration failure in the owner portal *)

(** In the same application the thunk that loads the user from a persisted
    token does fail closed: when the profile cannot be fetched, or no token
    is there, both tokens are removed from [localStorage] and the session
    ends unauthenticated, without user. *)
Lemma loadUserFromToken_failure_clears_tokens (e : Thunks.ServiceError)
    (w : OwnerApi.World) :
  let w' := fst (Thunks.loadUserFromToken (Thunks.ProfileThrew e) w) in
  getItem "token" (OwnerApi.storage w') = None /\
  getItem "refreshToken" (OwnerApi.storage w') = None /\
  AuthSlice.isAuthenticated (OwnerApi.auth w') = false /\
  AuthSlice.user (OwnerApi.auth w') = None.
Proof.
  cbv zeta. unfold Thunks.loadUserFromToken.
  destruct (Js.truthy _); simpl; repeat split; storage_lookup; reflexivity.
Qed.

(** ** Route table and staff permissions *)

Lemma own_has_owner_and_manager route allowed :
  RouteAccess.own route = Some allowed -> "owner" ∈ allowed /\ "manager" ∈ allowed.
Proof.
  unfold RouteAccess.own, RouteAccess.routePermissions. cbn [List.find fst snd].
  repeat (case_bool_decide;
          [cbn [fmap option_fmap option_map]; intros [= <-]; split; set_solver |]).
  discriminate.
Qed.

(** X4.  A staff member whose role is [manager] passes [canAccessRoute]
    wherever an owner does (and throws where an owner throws), and an
    owner is let in on exactly the six routes of the table. *)
Theorem canAccessRoute_manager_as_owner (o m : User) (sp : StaffProfile) (route : string) :
  user_type o = "owner" ->
  user_type m <> "owner" ->
  staff_profile m = Some sp ->
  role sp = "manager" ->
  RouteAccess.canAccessRoute (Some m) route = RouteAccess.canAccessRoute (Some o) route /\
  (RouteAccess.canAccessRoute (Some o) route = Some true <->
   route ∈ ["/owner/dashboard"; "/owner/reports"; "/owner/staff"; "/owner/menu";
            "/kitchen/orders"; "/cashier/pos"]).
Proof.
  intros Ho Hm Hsp Hrole. unfold RouteAccess.canAccessRoute, RouteAccess.level.
  rewrite (bool_decide_eq_true_2 _ Ho), (bool_decide_eq_false_2 _ Hm), Hsp.
  cbn [fmap option_fmap option_map]. rewrite Hrole.
  destruct (RouteAccess.own route) as [allowed|] eqn:Hown.
  - destruct (own_has_owner_and_manager _ _ Hown) as [Hin_o Hin_m].
    rewrite !bool_decide_eq_true_2 by assumption. split; [reflexivity|].
    split; [intros _ | reflexivity].
    revert Hown. unfold RouteAccess.own, RouteAccess.routePermissions.
    cbn [List.find fst snd].
    repeat (case_bool_decide; [subst route; intros _; set_solver |]).
    discriminate.
  - split; [reflexivity|]. split.
    + destruct (bool_decide _); discriminate.
    + intros Hin. exfalso. revert Hown.
      unfold RouteAccess.own, RouteAccess.routePermissions. cbn [List.find fst snd].
      repeat (case_bool_decide; [discriminate |]).
      intros _. rewrite !elem_of_cons, elem_of_nil in Hin.
      intuition congruence.
Qed.

Lemma canAccessRoute_manager_as_owner_witness :
  RouteAccess.canAccessRoute (Some (a_staff_member "manager")) "/owner/staff"
  = RouteAccess.canAccessRoute (Some an_owner) "/owner/staff" /\
  RouteAccess.canAccessRoute (Some an_owner) "/owner/staff" = Some true.
Proof.
  destruct (canAccessRoute_manager_as_owner an_owner (a_staff_member "manager")
              {| restaurant := {| restaurant_id := 7 |};
                 can_view_reports := true; can_manage_menu := false;
                 can_manage_orders := true; can_manage_staff := false;
                 role := "manager" |} "/owner/staff")
    as [Hsame Hsix]; try reflexivity; [discriminate|].
  split; [exact Hsame|]. apply Hsix. repeat constructor.
Defined.

(** X5.  The kitchen screen is guarded by two checks that name different
    roles: a staff member whose role is [chef] holds the permission
    [access_kitchen] and is refused the route [/kitchen/orders]; one whose
    role is [kitchen] is let in on the route and does not hold the
    permission. *)
Theorem kitchen_route_and_permission_disagree (u : User) (sp : StaffProfile) :
  user_type u = "staff" ->
  staff_profile u = Some sp ->
  (role sp = "chef" ->
   Permissions.hasPermission (Some u) "access_kitchen" None = true /\
   RouteAccess.canAccessRoute (Some u) "/kitchen/orders" = Some false) /\
  (role sp = "kitchen" ->
   Permissions.hasPermission (Some u) "access_kitchen" None = false /\
   RouteAccess.canAccessRoute (Some u) "/kitchen/orders" = Some true).
Proof.
  intros Hstaff Hsp.
  unfold Permissions.hasPermission, RouteAccess.canAccessRoute, RouteAccess.level.
  rewrite Hstaff, Hsp. cbn.
  split; intros ->; split; reflexivity.
Qed.

Lemma kitchen_route_and_permission_disagree_witness :
  (Permissions.hasPermission (Some (a_staff_member "chef")) "access_kitchen" None = true /\
   RouteAccess.canAccessRoute (Some (a_staff_member "chef")) "/kitchen/orders" = Some false) /\
  (Permissions.hasPermission (Some (a_staff_member "kitchen")) "access_kitchen" None = false /\
   RouteAccess.canAccessRoute (Some (a_staff_member "kitchen")) "/kitchen/orders" = Some true).
Proof.
  split.
  - apply (kitchen_route_and_permission_disagree (a_staff_member "chef")
             {| restaurant := {| restaurant_id := 7 |};
                can_view_reports := true; can_manage_menu := false;
                can_manage_orders := true; can_manage_staff := false;
                role := "chef" |}); reflexivity.
  - apply (kitchen_route_and_permission_disagree (a_staff_member "kitchen")
             {| restaurant := {| restaurant_id := 7 |};
                can_view_reports := true; can_manage_menu := false;
                can_manage_orders := true; can_manage_staff := false;
                role := "kitchen" |}); reflexivity.
Defined.

Lemma path_not_inherited route :
  Js.startsWith "/" route = true -> route ∉ RouteAccess.inherited.
Proof.
  intros Hpath Hin. unfold RouteAccess.inherited in Hin.
  rewrite !elem_of_cons, elem_of_nil in Hin.
  repeat destruct Hin as [-> | Hin]; try discriminate Hpath. exact Hin.
Qed.

(** X6.  For a route that is a path (it starts with a slash)
    [canAccessRoute] returns, and it returns [true] only for a route of
    the table and a user whose level (owner, or the role of the staff
    profile) is listed for it; a user that is neither an owner nor has a
    staff profile is refused every path. *)
Theorem canAccessRoute_paths (user : option User) (route : string) :
  Js.startsWith "/" route = true ->
  exists b : bool,
    RouteAccess.canAccessRoute user route = Some b /\
    (b = true ->
     exists (u : User) (l : string) (allowed : list string),
       user = Some u /\ RouteAccess.level u = Some l /\
       (route, allowed) ∈ RouteAccess.routePermissions /\ l ∈ allowed).
Proof.
  intros Hpath. unfold RouteAccess.canAccessRoute.
  destruct user as [u|]; [|exists false; split; [reflexivity | discriminate]].
  destruct (RouteAccess.own route) as [allowed|] eqn:Hown.
  - eexists. split; [reflexivity|].
    destruct (RouteAccess.level u) as [l|] eqn:Hl; [|discriminate].
    intros Hin%bool_decide_eq_true. exists u, l, allowed.
    split; [reflexivity|]. split; [exact Hl|]. split; [|exact Hin].
    unfold RouteAccess.own in Hown.
    destruct (List.find _ _) as [[r a]|] eqn:Hfind; [|discriminate].
    injection Hown as <-.
    apply find_some in Hfind as [Hin' Hr%bool_decide_eq_true]. cbn in Hr. subst r.
    apply list_elem_of_In. exact Hin'.
  - rewrite bool_decide_eq_false_2 by (apply path_not_inherited; exact Hpath).
    exists false. split; [reflexivity | discriminate].
Qed.

Lemma canAccessRoute_paths_witness :
  exists b : bool,
    RouteAccess.canAccessRoute (Some a_cashier) "/cashier/pos" = Some b /\
    (b = true ->
     exists (u : User) (l : string) (allowed : list string),
       Some a_cashier = Some u /\ RouteAccess.level u = Some l /\
       ("/cashier/pos", allowed) ∈ RouteAccess.routePermissions /\ l ∈ allowed).
Proof. apply (canAccessRoute_paths (Some a_cashier) "/cashier/pos"). reflexivity. Defined.

(** X7.  A staff member is refused every permission, whatever the flags
    and the role of the profile, when the check names a restaurant (an id
    other than [0]) that is not the restaurant of the profile. *)
Theorem hasPermission_other_restaurant_denied (u : User) (permission : string) (r : Z) :
  user_type u <> "owner" ->
  r <> 0%Z ->
  (forall sp, staff_profile u = Some sp -> restaurant_id (restaurant sp) <> r) ->
  Permissions.hasPermission (Some u) permission (Some r) = false.
Proof.
  intros Howner Hr Hother. unfold Permissions.hasPermission.
  rewrite (bool_decide_eq_false_2 _ Howner).
  destruct (bool_decide (user_type u = "staff")); [|reflexivity].
  destruct (staff_profile u) as [sp|]; [|reflexivity].
  unfold Permissions.id_truthy.
  rewrite (proj2 (Z.eqb_neq r 0) Hr). cbn [negb andb].
  rewrite bool_decide_eq_false_2; [reflexivity|].
  intros [= Heq]. exact (Hother sp eq_refl Heq).
Qed.

Lemma hasPermission_other_restaurant_denied_witness :
  Permissions.hasPermission (Some a_cashier) "manage_orders" (Some 8%Z) = false.
Proof.
  apply (hasPermission_other_restaurant_denied a_cashier "manage_orders" 8);
    [discriminate | discriminate |].
  intros sp [= <-]. discriminate.
Defined.

(** X8.  A check that names no restaurant, or the id [0], is answered
    as the check for the staff member's own restaurant is: the restaurant
    test is skipped. *)
Theorem hasPermission_without_restaurant (u : User) (permission : string) :
  Permissions.hasPermission (Some u) permission (Some 0%Z)
  = Permissions.hasPermission (Some u) permission None /\
  forall sp, staff_profile u = Some sp ->
    Permissions.hasPermission (Some u) permission (Some (restaurant_id (restaurant sp)))
    = Permissions.hasPermission (Some u) permission None.
Proof.
  unfold Permissions.hasPermission. split.
  - reflexivity.
  - intros sp ->.
    rewrite (bool_decide_eq_true_2 (Some _ = Some _)) by reflexivity.
    rewrite andb_false_r. reflexivity.
Qed.

(** ** What the route guard lets through *)

(** X9.  When [ProtectedRoute] renders its children, the session is not
    loading, and either it is authenticated and has passed every check the
    props ask for (a verified e-mail unless the route or the props waive
    it, an owner account for [ownerOnly], the required permission), or it
    is not authenticated, a verification is pending and the path is one of
    the verification pages. *)
Theorem ProtectedRoute_children_only_when (props : Guard.Props) (auth : AuthSlice.State)
    (ls : LocalStorage) (pathname : string) :
  Guard.ProtectedRoute props auth ls pathname = Guard.Children ->
  AuthSlice.loading auth = false /\
  (AuthSlice.isAuthenticated auth = false ->
   Js.truthy (getItem "pendingVerificationEmail" ls) = true /\
   Js.includes "/verify-email" pathname = true) /\
  (AuthSlice.isAuthenticated auth = true ->
   (Guard.requireEmailVerified props = true ->
    Guard.verified (AuthSlice.user auth) = true \/
    Guard.allowedWithoutVerification pathname = true \/
    Guard.allowUnverified props = true) /\
   (Guard.ownerOnly props = true ->
    exists u, AuthSlice.user auth = Some u /\ user_type u = "owner") /\
   (Js.truthy (Guard.requiredPermission props) = true ->
    Permissions.hasPermission (AuthSlice.user auth)
      (Js.to_string (Guard.requiredPermission props)) (Guard.restaurantId props) = true)).
Proof.
  unfold Guard.ProtectedRoute.
  destruct (AuthSlice.loading auth); [discriminate|].
  destruct (AuthSlice.isAuthenticated auth); cbn [andb negb].
  - destruct (Guard.verified (AuthSlice.user auth) && bool_decide (pathname = "/login"));
      [discriminate|].
    destruct (Guard.requireEmailVerified props) eqn:Hreq;
      destruct (Guard.verified (AuthSlice.user auth)) eqn:Hver;
      destruct (Guard.allowedWithoutVerification pathname) eqn:Hallowed;
      destruct (Guard.allowUnverified props) eqn:Hunv;
      cbn [andb negb]; try discriminate;
      (destruct (Guard.ownerOnly props) eqn:Honly;
       [ destruct (AuthSlice.user auth) as [u|] eqn:Hu;
         cbn [fmap option_fmap option_map]; [|discriminate];
         case_bool_decide as Howner; cbn [negb]; [|discriminate]
       | ]);
      destruct (Js.truthy (Guard.requiredPermission props)) eqn:Hperm; cbn [andb];
      try (destruct (Permissions.hasPermission _ _ _) eqn:Hhas; cbn [negb];
           [|discriminate]);
      intros _; (split; [reflexivity|]); (split; [discriminate|]); intros _;
      repeat match goal with |- _ /\ _ => split end;
      try discriminate; eauto.
  - destruct (Js.truthy (getItem "pendingVerificationEmail" ls)); cbn [negb andb];
      [|discriminate].
    destruct (Js.includes "/verify-email" pathname); cbn [negb]; [|discriminate].
    intros _. repeat split; discriminate.
Qed.

Lemma ProtectedRoute_children_only_when_witness :
  AuthSlice.loading (signed_in an_owner) = false /\
  (AuthSlice.isAuthenticated (signed_in an_owner) = true ->
   exists u, AuthSlice.user (signed_in an_owner) = Some u /\ user_type u = "owner").
Proof.
  destruct (ProtectedRoute_children_only_when
              {| Guard.requiredPermission := Some "manage_menu";
                 Guard.restaurantId := Some 7%Z;
                 Guard.ownerOnly := true;
                 Guard.requireEmailVerified := true;
                 Guard.allowUnverified := false |}
              (signed_in an_owner) ∅ "/owner/menu/items" eq_refl)
    as (Hloading & _ & Hauth).
  split; [exact Hloading|]. intros Hin. apply (Hauth Hin). reflexivity.
Defined.

(** X10.  [ProtectedRoute] throws (it reads [user_type] of a missing
    user) exactly for a session that is authenticated without a user, on
    an owner-only route, when the e-mail check does not redirect first:
    the props waive it, or the path is one of the pages allowed without
    verification. *)
Theorem ProtectedRoute_throws_iff (props : Guard.Props) (auth : AuthSlice.State)
    (ls : LocalStorage) (pathname : string) :
  Guard.ProtectedRoute props auth ls pathname = Guard.TypeError <->
  AuthSlice.loading auth = false /\
  AuthSlice.isAuthenticated auth = true /\
  AuthSlice.user auth = None /\
  Guard.ownerOnly props = true /\
  (Guard.requireEmailVerified props = false \/
   Guard.allowedWithoutVerification pathname = true \/
   Guard.allowUnverified props = true).
Proof.
  unfold Guard.ProtectedRoute.
  destruct (AuthSlice.loading auth);
    [split; [discriminate | intros (? & _); discriminate]|].
  destruct (AuthSlice.isAuthenticated auth); cbn [andb negb].
  - destruct (AuthSlice.user auth) as [u|].
    + split; [|intros (_ & _ & ? & _); discriminate].
      repeat match goal with
             | |- context [if ?b then _ else _] => destruct b; cbn
             end; discriminate.
    + destruct (Guard.requireEmailVerified props),
        (Guard.allowedWithoutVerification pathname), (Guard.allowUnverified props),
        (Guard.ownerOnly props); cbn;
        try (split; [discriminate | intros (_ & _ & _ & ? & [?|[?|?]]); discriminate]);
        try (split; [intros _; repeat split; auto | reflexivity]);
        destruct (Js.truthy (Guard.requiredPermission props)); cbn;
        split; try discriminate; intros (_ & _ & _ & ? & _); discriminate.
  - split; [|intros (_ & ? & _); discriminate].
    repeat match goal with
           | |- context [if ?b then _ else _] => destruct b; cbn
           end; discriminate.
Qed.

(** ** Redirects of [AutoRedirectHandler] *)




(** X12.  In a session that requires a second factor, is not
    authenticated and has a verification pending, the handler never
    rests on its own targets: on [/2fa] it navigates to [/verify-email],
    on [/verify-email] it navigates to [/2fa], and it navigates from every
    path that does not contain both. *)
Theorem AutoRedirectHandler_alternates (auth : AuthSlice.State) (ls : LocalStorage) :
  AuthSlice.loading auth = false ->
  AuthSlice.requires2FA auth = true ->
  AuthSlice.isAuthenticated auth = false ->
  Js.truthy (getItem "pendingVerificationEmail" ls) = true ->
  App.AutoRedirectHandler auth true ls "/2fa" = Some "/verify-email" /\
  App.AutoRedirectHandler auth true ls "/verify-email" = Some "/2fa" /\
  forall p : string,
    Js.includes "/2fa" p && Js.includes "/verify-email" p = false ->
    is_Some (App.AutoRedirectHandler auth true ls p).
Proof.
  intros Hloading H2fa Hauth Hpending. unfold App.AutoRedirectHandler.
  rewrite Hloading, H2fa, Hauth, Hpending. cbn [andb orb negb].
  split; [reflexivity|]. split; [reflexivity|].
  intros p Hp. destruct (Js.includes "/2fa" p); cbn [negb andb] in *; [|eauto].
  rewrite Hp. cbn. eauto.
Qed.

Lemma AutoRedirectHandler_alternates_witness :
  App.AutoRedirectHandler (OwnerApi.auth second_factor_pending) true
    (OwnerApi.storage second_factor_pending) "/2fa" = Some "/verify-email" /\
  App.AutoRedirectHandler (OwnerApi.auth second_factor_pending) true
    (OwnerApi.storage second_factor_pending) "/verify-email" = Some "/2fa".
Proof.
  destruct (AutoRedirectHandler_alternates (OwnerApi.auth second_factor_pending)
              (OwnerApi.storage second_factor_pending))
    as (H1 & H2 & _); try reflexivity.
  split; [exact H1 | exact H2].
Defined.



(** ** Start-up of the owner portal *)

Lemma initializeCSRF_keeps_session reply w :
  let w' := fst (Thunks.initializeCSRF reply w) in
  getItem "token" (OwnerApi.storage w') = getItem "token" (OwnerApi.storage w) /\
  getItem "refreshToken" (OwnerApi.storage w') = getItem "refreshToken" (OwnerApi.storage w) /\
  AuthSlice.isAuthenticated (OwnerApi.auth w') = AuthSlice.isAuthenticated (OwnerApi.auth w) /\
  AuthSlice.user (OwnerApi.auth w') = AuthSlice.user (OwnerApi.auth w) /\
  AuthSlice.token (OwnerApi.auth w') = AuthSlice.token (OwnerApi.auth w) /\
  AuthSlice.loading (OwnerApi.auth w') = AuthSlice.loading (OwnerApi.auth w) /\
  (OwnerApi.sent w' = OwnerApi.sent w \/
   exists c, OwnerApi.url c = "/auth/csrf/" /\ OwnerApi.sent w' = c :: OwnerApi.sent w).
Proof.
  unfold Thunks.initializeCSRF. cbn.
  destruct (AuthSlice.csrfInitialized (OwnerApi.auth w)); [cbn; repeat split; auto|].
  unfold OwnerApi.initializeApp, OwnerApi.getCSRFToken. cbn.
  destruct (OwnerApi.isInitialized w && Js.truthy (OwnerApi.csrfToken w));
    [cbn; repeat split; auto|].
  destruct (OwnerApi.initializationPromise w) as [pid|] eqn:Hpid.
  - unfold Thunks.finish, Thunks.dispatch, OwnerApi.csrf_settle, OwnerApi.csrf_catch.
    cbn. rewrite Hpid.
    destruct reply; cbn;
      repeat match goal with |- context [if ?b then _ else _] => destruct b; cbn end;
      repeat match goal with |- _ /\ _ => split end;
      storage_lookup; auto.
  - destruct (Js.truthy (OwnerApi.csrfToken w)); cbn; [repeat split; auto|].
    unfold Thunks.finish, Thunks.dispatch, OwnerApi.csrf_settle, OwnerApi.csrf_catch.
    cbn.
    destruct reply; cbn;
      repeat match goal with |- context [if ?b then _ else _] => destruct b; cbn end;
      repeat match goal with |- _ /\ _ => split end;
      storage_lookup; auto;
      right; eexists; (split; [|reflexivity]);
      apply request_interceptor_keeps.
Qed.

(** X14.  When the page is loaded with a stored token that has not the
    three dot-separated parts of a JWT, the start-up removes the token and
    the refresh token from [localStorage] and asks the server for no
    profile; the store, which took its initial state before, keeps saying
    that the session is authenticated, with the malformed token and no
    user.  The guard of the owner area then throws on a settings page. *)
Theorem mount_with_malformed_token (ls : LocalStorage) (t : string)
    (net : list HttpResponse) (csrfReply : OwnerApi.Reply)
    (profileReply : Thunks.ProfileReply) :
  getItem "token" ls = Some t ->
  t <> "" ->
  length (Js.split "." t) <> 3 ->
  let w := App.mount ls net csrfReply profileReply in
  getItem "token" (OwnerApi.storage w) = None /\
  getItem "refreshToken" (OwnerApi.storage w) = None /\
  AuthSlice.isAuthenticated (OwnerApi.auth w) = true /\
  AuthSlice.user (OwnerApi.auth w) = None /\
  AuthSlice.token (OwnerApi.auth w) = Some t /\
  Forall (fun c => OwnerApi.url c = "/auth/csrf/") (OwnerApi.sent w) /\
  Guard.ProtectedRoute owner_only_props (OwnerApi.auth w) (OwnerApi.storage w)
    "/owner/settings/basic" = Guard.TypeError.
Proof.
  intros Htoken Ht Hparts w.
  set (w0 := Thunks.store App.validateLocalStorage (OwnerApi.boot ls net)).
  assert (Hstore : OwnerApi.storage w0 = ls |> removeItem "token" |> removeItem "refreshToken").
  { subst w0. unfold Thunks.store, OwnerApi.set_storage. cbn [OwnerApi.storage].
    change (OwnerApi.storage (OwnerApi.boot ls net)) with ls.
    unfold App.validateLocalStorage. rewrite Htoken. cbn [Js.truthy Js.to_string].
    rewrite (bool_decide_eq_false_2 _ Ht).
    rewrite (proj2 (Nat.eqb_neq _ _) Hparts). reflexivity. }
  pose proof (initializeCSRF_keeps_session csrfReply w0) as Hkeep. cbv zeta in Hkeep.
  destruct Hkeep as (Ht1 & Hr1 & Ha1 & Hu1 & Hk1 & Hl1 & Hsent).
  assert (Hw : w = fst (Thunks.initializeCSRF csrfReply w0)).
  { subst w. unfold App.mount, App.initializeApp. fold w0.
    destruct (Thunks.initializeCSRF csrfReply w0) as [w1 a] eqn:Hinit. cbn [fst] in *.
    rewrite Ht1, Hstore. unfold getItem, removeItem.
    rewrite lookup_delete_ne by discriminate. rewrite lookup_delete_eq. reflexivity. }
  assert (Hauth0 : OwnerApi.auth w0 = AuthSlice.initialState ls) by reflexivity.
  rewrite Hw.
  assert (Hfields :
    AuthSlice.isAuthenticated (OwnerApi.auth (fst (Thunks.initializeCSRF csrfReply w0))) = true /\
    AuthSlice.user (OwnerApi.auth (fst (Thunks.initializeCSRF csrfReply w0))) = None /\
    AuthSlice.loading (OwnerApi.auth (fst (Thunks.initializeCSRF csrfReply w0))) = false).
  { rewrite Ha1, Hu1, Hl1, Hauth0. cbn [AuthSlice.initialState AuthSlice.isAuthenticated
      AuthSlice.user AuthSlice.loading]. rewrite Htoken. cbn [Js.truthy].
    rewrite (bool_decide_eq_false_2 _ Ht). repeat split. }
  destruct Hfields as (Hauth & Huser & Hloading).
  repeat match goal with |- _ /\ _ => split end.
  - rewrite Ht1, Hstore. unfold getItem, removeItem.
    rewrite lookup_delete_ne by discriminate. apply lookup_delete_eq.
  - rewrite Hr1, Hstore. unfold getItem, removeItem. apply lookup_delete_eq.
  - exact Hauth.
  - exact Huser.
  - rewrite Hk1, Hauth0. exact Htoken.
  - destruct Hsent as [-> | (c & Hc & ->)].
    + constructor.
    + repeat constructor. exact Hc.
  - unfold Guard.ProtectedRoute. rewrite Hloading, Hauth, Huser. reflexivity.
Qed.

Lemma mount_with_malformed_token_witness :
  AuthSlice.isAuthenticated
    (OwnerApi.auth (App.mount {["token" := "not-a-jwt"]} []
                      (csrf_reply "c0") (Thunks.ProfileThrew server_down))) = true /\
  getItem "token"
    (OwnerApi.storage (App.mount {["token" := "not-a-jwt"]} []
                         (csrf_reply "c0") (Thunks.ProfileThrew server_down))) = None.
Proof.
  destruct (mount_with_malformed_token {["token" := "not-a-jwt"]} "not-a-jwt" []
              (csrf_reply "c0") (Thunks.ProfileThrew server_down))
    as (Hgone & _ & Hauth & _); [reflexivity | discriminate | vm_compute; lia |].
  split; [exact Hauth | exact Hgone].
Defined.

(** ** Two-factor login *)

Lemma request_interceptor_keeps_data w c :
  OwnerApi.data (OwnerApi.request_interceptor w c) = OwnerApi.data c /\
  OwnerApi.method (OwnerApi.request_interceptor w c) = OwnerApi.method c.
Proof.
  unfold OwnerApi.request_interceptor.
  repeat match goal with |- context [if ?b then _ else _] => destruct b end;
    repeat split.
Qed.

(** X15.  A login that the server answers with [requires_2fa] and the
    user keeps the credentials in the store and authenticates nobody; the
    second step posts them with the code to [/auth/login/], and a reply
    with tokens signs the user in, stores both tokens and drops the
    credentials.  When the reply with [requires_2fa] names no user, the
    thunk fails on [response.user.email_verified] and is rejected with
    the message of that error: no second factor is asked for and no
    credentials are kept. *)
Theorem second_factor_round_trip (w : OwnerApi.World) (credentials : AuthSlice.Credentials)
    (first second : AuthSlice.AuthResponse) (t : AuthSlice.Tokens)
    (code : string) (rememberDevice : bool) :
  AuthSlice.requires_2fa first = true ->
  AuthSlice.tokens second = Some t ->
  let w1 := fst (Thunks.ownerLogin credentials (Thunks.Returned first) w) in
  let w2 := fst (VerificationThunks.verify2FACode code rememberDevice
                   (AuthSlice.tempLoginData (OwnerApi.auth w1))
                   (Thunks.Returned second) w1) in
  match AuthSlice.resp_user first with
  | None =>
      snd (Thunks.ownerLogin credentials (Thunks.Returned first) w)
      = AuthSlice.ownerLogin_rejected
          (Some (AuthSlice.PData {| AuthSlice.error_text :=
                            Some "Cannot read properties of undefined (reading 'email_verified')";
                          AuthSlice.requiresVerification := false;
                          AuthSlice.error_email := None |})) /\
      AuthSlice.requires2FA (OwnerApi.auth w1) = AuthSlice.requires2FA (OwnerApi.auth w) /\
      AuthSlice.tempLoginData (OwnerApi.auth w1) = AuthSlice.tempLoginData (OwnerApi.auth w) /\
      AuthSlice.isAuthenticated (OwnerApi.auth w1)
      = AuthSlice.isAuthenticated (OwnerApi.auth w) /\
      AuthSlice.user (OwnerApi.auth w1) = AuthSlice.user (OwnerApi.auth w)
  | Some u =>
      (AuthSlice.requires2FA (OwnerApi.auth w1) = true /\
       AuthSlice.tempLoginData (OwnerApi.auth w1) = Some credentials /\
       AuthSlice.isAuthenticated (OwnerApi.auth w1)
       = AuthSlice.isAuthenticated (OwnerApi.auth w) /\
       AuthSlice.user (OwnerApi.auth w1) = AuthSlice.user (OwnerApi.auth w) /\
       AuthSlice.token (OwnerApi.auth w1) = AuthSlice.token (OwnerApi.auth w)) /\
      (exists c, OwnerApi.sent w2 = c :: OwnerApi.sent w1 /\
                 OwnerApi.url c = "/auth/login/" /\
                 OwnerApi.data c = VerificationThunks.totp_body code (Some credentials)) /\
      (AuthSlice.isAuthenticated (OwnerApi.auth w2) = true /\
       AuthSlice.requires2FA (OwnerApi.auth w2) = false /\
       AuthSlice.tempLoginData (OwnerApi.auth w2) = None /\
       AuthSlice.user (OwnerApi.auth w2) = AuthSlice.resp_user second /\
       AuthSlice.token (OwnerApi.auth w2) = AuthSlice.access t /\
       AuthSlice.refreshToken (OwnerApi.auth w2) = AuthSlice.refresh t /\
       getItem "token" (OwnerApi.storage w2) = Some (Js.to_string (AuthSlice.access t)) /\
       getItem "refreshToken" (OwnerApi.storage w2)
       = Some (Js.to_string (AuthSlice.refresh t)))
  end.
Proof.
  intros H2fa Htokens w1 w2.
  destruct (AuthSlice.resp_user first) as [u |] eqn:Huser.
  - assert (Hauth1 : OwnerApi.auth w1
                     = OwnerApi.auth w
                         |> AuthSlice.set_loginLoading true |> AuthSlice.set_loginError None
                         |> AuthSlice.set_loginLoading false |> AuthSlice.set_requires2FA true
                         |> AuthSlice.set_tempLoginData (Some credentials)).
    { subst w1. unfold Thunks.ownerLogin, Thunks.keep_refresh. rewrite Huser.
      destruct (Js.truthy (Thunks.tokens_refresh first));
        unfold Thunks.finish, Thunks.dispatch; cbn; rewrite H2fa; reflexivity. }
    assert (Htemp : AuthSlice.tempLoginData (OwnerApi.auth w1) = Some credentials)
      by (rewrite Hauth1; reflexivity).
    split; [rewrite Hauth1; repeat split|].
    subst w2. rewrite Htemp.
    unfold VerificationThunks.verify2FACode, VerificationThunks.verify2FACode_creator,
      Thunks.keep_refresh, Thunks.tokens_refresh, Thunks.finish, Thunks.dispatch.
    rewrite Htokens.
    split.
    + eexists. cbn. destruct (Js.truthy (AuthSlice.refresh t)); cbn; rewrite Htokens;
        cbn; (split; [reflexivity|]);
        (split; [apply request_interceptor_keeps | apply request_interceptor_keeps_data]).
    + cbn. destruct (Js.truthy (AuthSlice.refresh t)); cbn; rewrite Htokens; cbn;
        repeat match goal with |- _ /\ _ => split end; storage_lookup; reflexivity.
  - subst w1. clear w2. unfold Thunks.ownerLogin, Thunks.keep_refresh. rewrite Huser.
    cbn [Thunks.response_data Thunks.error_message].
    change (Thunks.includes_not_verified _) with false. cbv iota.
    destruct (Js.truthy (Thunks.tokens_refresh first));
      unfold Thunks.finish, Thunks.dispatch; cbn; repeat split.
Qed.

Lemma second_factor_round_trip_witness :
  AuthSlice.requires2FA
    (OwnerApi.auth (fst (Thunks.ownerLogin some_credentials
                           (Thunks.Returned second_factor_reply) first_visit))) = true /\
  AuthSlice.isAuthenticated
    (OwnerApi.auth
       (fst (VerificationThunks.verify2FACode "123456" false
               (AuthSlice.tempLoginData
                  (OwnerApi.auth (fst (Thunks.ownerLogin some_credentials
                                         (Thunks.Returned second_factor_reply) first_visit))))
               (Thunks.Returned signed_in_reply)
               (fst (Thunks.ownerLogin some_credentials
                       (Thunks.Returned second_factor_reply) first_visit))))) = true.
Proof.
  pose proof (second_factor_round_trip first_visit some_credentials second_factor_reply
                signed_in_reply
                {| AuthSlice.access := Some "a1"; AuthSlice.refresh := Some "r1" |}
                "123456" false eq_refl eq_refl) as H.
  cbv zeta in H. cbn [second_factor_reply AuthSlice.resp_user] in H.
  destruct H as ((H1 & _) & _ & (H2 & _)).
  split; [exact H1 | exact H2].
Defined.

(** X16.  When the reply to the second step carries no tokens, the
    reducer of the fulfilled action throws and drops its changes: the
    session stays as the pending action left it, unauthenticated, with
    [requires2FA] and [verificationLoading] set, and nothing is written to
    [localStorage]. *)
Theorem verify2FACode_reply_without_tokens (w : OwnerApi.World) (code : string)
    (rememberDevice : bool) (loginData : option AuthSlice.Credentials)
    (response : AuthSlice.AuthResponse) :
  AuthSlice.tokens response = None ->
  let w' := fst (VerificationThunks.verify2FACode code rememberDevice loginData
                   (Thunks.Returned response) w) in
  OwnerApi.auth w'
  = OwnerApi.auth w |> AuthSlice.set_verificationLoading true
                    |> AuthSlice.set_verificationError None /\
  OwnerApi.storage w' = OwnerApi.storage w /\
  AuthSlice.verificationLoading (OwnerApi.auth w') = true /\
  AuthSlice.isAuthenticated (OwnerApi.auth w') = AuthSlice.isAuthenticated (OwnerApi.auth w) /\
  AuthSlice.requires2FA (OwnerApi.auth w') = AuthSlice.requires2FA (OwnerApi.auth w).
Proof.
  intros Htokens w'. subst w'.
  unfold VerificationThunks.verify2FACode, VerificationThunks.verify2FACode_creator,
    Thunks.keep_refresh, Thunks.tokens_refresh, Thunks.finish, Thunks.dispatch.
  rewrite Htokens. cbn. rewrite Htokens. cbn. repeat split.
Qed.

Lemma verify2FACode_reply_without_tokens_witness :
  AuthSlice.verificationLoading
    (OwnerApi.auth (fst (VerificationThunks.verify2FACode "123456" false
                           (Some some_credentials)
                           (Thunks.Returned second_factor_reply)
                           second_factor_pending))) = true.
Proof.
  destruct (verify2FACode_reply_without_tokens second_factor_pending "123456" false
              (Some some_credentials) second_factor_reply eq_refl)
    as (_ & _ & H & _).
  exact H.
Defined.

Lemma verify2FACode_type_is_not_verify2FA a :
  bool_decide (VerificationThunks.verify2FACode_type a = "auth/verify2FA/fulfilled") = false.
Proof. destruct a; reflexivity. Qed.

(** X17.  [handleSubmit] compares the type of the thunk's action with
    [auth/verify2FA/fulfilled], which no action of [verify2FACode] has: a
    code that the server accepts signs the user in, and the component
    navigates nowhere; [AutoRedirectHandler] does not navigate from
    [/2fa] either. *)
Theorem two_factor_success_stays_on_2fa (w : OwnerApi.World) (code : string)
    (rememberDevice : bool) (returnUrl : option string)
    (response : AuthSlice.AuthResponse) (t : AuthSlice.Tokens)
    (initialCheckComplete : bool) :
  String.length code = 6 ->
  TwoFactorAuth.all_digits code = true ->
  AuthSlice.tokens response = Some t ->
  let r := TwoFactorAuth.handleSubmit code rememberDevice returnUrl
             (Thunks.Returned response) w in
  AuthSlice.isAuthenticated (OwnerApi.auth (TwoFactorAuth.world r)) = true /\
  AuthSlice.requires2FA (OwnerApi.auth (TwoFactorAuth.world r)) = false /\
  TwoFactorAuth.navigated r = None /\
  App.AutoRedirectHandler (OwnerApi.auth (TwoFactorAuth.world r)) initialCheckComplete
    (OwnerApi.storage (TwoFactorAuth.world r)) "/2fa" = None.
Proof.
  intros Hlen Hdigits Htokens r. subst r. unfold TwoFactorAuth.handleSubmit.
  rewrite Hlen, Hdigits. cbn [Nat.eqb negb orb].
  unfold VerificationThunks.verify2FACode_creator, Thunks.keep_refresh,
    Thunks.tokens_refresh, Thunks.dispatch.
  rewrite Htokens, verify2FACode_type_is_not_verify2FA. cbn.
  destruct (Js.truthy (AuthSlice.refresh t)); cbn; rewrite Htokens; cbn;
    (split; [reflexivity|]); (split; [reflexivity|]); (split; [reflexivity|]);
    unfold App.AutoRedirectHandler; cbn [andb orb negb];
    change (bool_decide ("/2fa" = "/login")) with false;
    change (bool_decide ("/2fa" = "/verify-email")) with false;
    change (Js.includes "/2fa" "/2fa") with true;
    change (Js.includes "/owner" "/2fa") with false;
    rewrite ?andb_false_r; cbn;
    destruct (AuthSlice.loading (OwnerApi.auth w)), initialCheckComplete; reflexivity.
Qed.

Lemma two_factor_success_stays_on_2fa_witness :
  TwoFactorAuth.navigated
    (TwoFactorAuth.handleSubmit "123456" true None (Thunks.Returned signed_in_reply)
       second_factor_pending) = None.
Proof.
  destruct (two_factor_success_stays_on_2fa second_factor_pending "123456" true None
              signed_in_reply
              {| AuthSlice.access := Some "a1"; AuthSlice.refresh := Some "r1" |}
              true eq_refl eq_refl eq_refl)
    as (_ & _ & H & _).
  exact H.
Defined.

Lemma string_length_of_list (l : list ascii) :
  String.length (string_of_list_ascii l) = length l.
Proof. induction l as [|c l IH]; cbn; [reflexivity | rewrite IH; reflexivity]. Qed.

Lemma filter_take_digits (n : nat) (l : list ascii) :
  Forall (fun c => TwoFactorAuth.is_digit c = true) l ->
  List.filter TwoFactorAuth.is_digit (take n l) = take n l.
Proof.
  intros Hl. revert n. induction Hl as [|c l Hc Hl IH]; intros [|n]; cbn; try reflexivity.
  rewrite Hc, IH. reflexivity.
Qed.

Lemma filter_digits_all (l : list ascii) :
  Forall (fun c => TwoFactorAuth.is_digit c = true) (List.filter TwoFactorAuth.is_digit l).
Proof.
  induction l as [|c l IH]; cbn; [constructor|].
  destruct (TwoFactorAuth.is_digit c) eqn:Hc; [constructor|]; assumption.
Qed.

(** X18.  What the input of the 2FA form keeps of any text typed or
    pasted into it has at most six characters, all of them digits, and is
    left as it is when it goes through the handler again; the check of
    [handleSubmit] accepts it exactly when it has six characters, which
    is when the submit button is enabled (the session not loading). *)
Theorem onChange_gives_valid_codes (value : string) :
  let code := TwoFactorAuth.onChange value in
  (String.length code <= 6)%nat /\
  forallb TwoFactorAuth.is_digit (list_ascii_of_string code) = true /\
  TwoFactorAuth.onChange code = code /\
  (negb (String.length code =? 6)%nat || negb (TwoFactorAuth.all_digits code) = false
   <-> String.length code = 6) /\
  (forall auth, AuthSlice.loading auth = false ->
     (TwoFactorAuth.submit_enabled auth code = true <-> String.length code = 6)).
Proof.
  intros code. subst code. unfold TwoFactorAuth.onChange.
  set (digits := List.filter TwoFactorAuth.is_digit (list_ascii_of_string value)).
  assert (Hdigits : Forall (fun c => TwoFactorAuth.is_digit c = true) (take 6 digits)).
  { apply Forall_take. apply filter_digits_all. }
  assert (Hall : forallb TwoFactorAuth.is_digit
                   (list_ascii_of_string (string_of_list_ascii (take 6 digits))) = true).
  { rewrite list_ascii_of_string_of_list_ascii. apply forallb_forall.
    intros c Hc. exact (proj1 (List.Forall_forall _ _) Hdigits c Hc). }
  rewrite string_length_of_list.
  split; [rewrite length_take; lia|]. split; [exact Hall|]. split; [|split].
  - rewrite list_ascii_of_string_of_list_ascii.
    rewrite (filter_take_digits 6 digits) by apply filter_digits_all.
    rewrite take_take. reflexivity.
  - unfold TwoFactorAuth.all_digits. rewrite Hall, andb_true_r. split.
    + destruct (length (take 6 digits) =? 6)%nat eqn:Hlen; [|discriminate].
      intros _. apply Nat.eqb_eq. exact Hlen.
    + intros Hlen. rewrite Hlen. cbn [Nat.eqb negb orb].
      rewrite bool_decide_eq_false_2; [reflexivity|].
      intros Hempty. apply (f_equal String.length) in Hempty.
      rewrite string_length_of_list, Hlen in Hempty. discriminate.
  - intros auth Hloading. unfold TwoFactorAuth.submit_enabled.
    rewrite Hloading, string_length_of_list. cbn [orb].
    rewrite negb_involutive. apply Nat.eqb_eq.
Qed.

(** ** Verification thunks *)

(** X19.  Verifying a code through the owner endpoint signs nobody in:
    user, token and [isAuthenticated] stay as they were.  A code that the
    server accepts clears both pending markers, so that the guard sends an
    unauthenticated session from any page to [/login]; a code that the
    server rejects leaves [localStorage] alone and records the error. *)
Theorem ownerVerifyCode_clears_markers_only (w : OwnerApi.World) (email code : string)
    (reply : Thunks.ServiceReply) (props : Guard.Props) (pathname : string) :
  let w' := fst (VerificationThunks.ownerVerifyCode email code reply w) in
  AuthSlice.isAuthenticated (OwnerApi.auth w') = AuthSlice.isAuthenticated (OwnerApi.auth w) /\
  AuthSlice.user (OwnerApi.auth w') = AuthSlice.user (OwnerApi.auth w) /\
  AuthSlice.token (OwnerApi.auth w') = AuthSlice.token (OwnerApi.auth w) /\
  match reply with
  | Thunks.Returned response =>
      getItem "pendingVerificationEmail" (OwnerApi.storage w') = None /\
      getItem "pendingUserType" (OwnerApi.storage w') = None /\
      (AuthSlice.isAuthenticated (OwnerApi.auth w) = false ->
       AuthSlice.loading (OwnerApi.auth w) = false ->
       Guard.ProtectedRoute props (OwnerApi.auth w') (OwnerApi.storage w') pathname
       = Guard.Navigate "/login" (Some pathname))
  | Thunks.Threw e =>
      OwnerApi.storage w' = OwnerApi.storage w /\
      AuthSlice.verificationError (OwnerApi.auth w') = Some (Thunks.payload_of e)
  end.
Proof.
  intros w'. subst w'. unfold VerificationThunks.ownerVerifyCode.
  destruct reply as [response | e]; cbn;
    repeat match goal with |- _ /\ _ => split end;
    storage_lookup; try reflexivity.
  intros Hauth Hloading. unfold Guard.ProtectedRoute. cbn.
  rewrite Hauth, Hloading. cbn. storage_lookup. reflexivity.
Qed.

(** X20.  A login that the server refuses because the account is not
    verified stores the user name typed as the pending verification
    e-mail; the login error kept in the store is the fixed text with
    [requiresVerification], without the server's message; the session
    stays unauthenticated, the guard sends it to [/verify-email], and that
    route shows the verification form. *)
Theorem ownerLogin_unverified_account (w : OwnerApi.World)
    (credentials : AuthSlice.Credentials) (e : Thunks.ServiceError) (d : AuthSlice.ErrorData)
    (props : Guard.Props) (pathname : string) :
  Thunks.response_data e = Some d ->
  Thunks.includes_not_verified d = true ->
  AuthSlice.username credentials <> "" ->
  AuthSlice.isAuthenticated (OwnerApi.auth w) = false ->
  AuthSlice.loading (OwnerApi.auth w) = false ->
  Js.includes "/verify-email" pathname = false ->
  let w' := fst (Thunks.ownerLogin credentials (Thunks.Threw e) w) in
  getItem "pendingVerificationEmail" (OwnerApi.storage w')
    = Some (AuthSlice.username credentials) /\
  getItem "pendingUserType" (OwnerApi.storage w') = Some "owner" /\
  AuthSlice.loginError (OwnerApi.auth w')
    = Some (AuthSlice.PData
              {| AuthSlice.error_text :=
                   Some "Please verify your email to activate your account.";
                 AuthSlice.requiresVerification := true;
                 AuthSlice.error_email := None |}) /\
  AuthSlice.isAuthenticated (OwnerApi.auth w') = false /\
  Guard.ProtectedRoute props (OwnerApi.auth w') (OwnerApi.storage w') pathname
    = Guard.Navigate "/verify-email" None /\
  VerifyEmail.VerifyEmailRoute (OwnerApi.auth w') (OwnerApi.storage w')
    = VerifyEmail.EmailVerification.
Proof.
  intros Hdata Hnot Hname Hauth Hloading Hpath w'. subst w'.
  unfold Thunks.ownerLogin. rewrite Hdata, Hnot.
  unfold Thunks.finish, Thunks.dispatch, Thunks.store, Thunks.post.
  cbn. repeat match goal with |- _ /\ _ => split end; storage_lookup; try reflexivity.
  - exact Hauth.
  - unfold Guard.ProtectedRoute. cbn. rewrite Hauth, Hloading. cbn.
    storage_lookup. cbn. rewrite (bool_decide_eq_false_2 _ Hname), Hpath. reflexivity.
  - unfold VerifyEmail.VerifyEmailRoute. cbn. rewrite Hloading.
    storage_lookup. cbn. rewrite (bool_decide_eq_false_2 _ Hname). reflexivity.
Qed.

Lemma ownerLogin_unverified_account_witness :
  Guard.ProtectedRoute owner_only_props
    (OwnerApi.auth (fst (Thunks.ownerLogin some_credentials
                           (Thunks.Threw account_not_verified) (OwnerApi.boot ∅ []))))
    (OwnerApi.storage (fst (Thunks.ownerLogin some_credentials
                              (Thunks.Threw account_not_verified) (OwnerApi.boot ∅ []))))
    "/owner/dashboard"
  = Guard.Navigate "/verify-email" None.
Proof.
  destruct (ownerLogin_unverified_account (OwnerApi.boot ∅ []) some_credentials
              account_not_verified
              {| AuthSlice.error_text := Some "Account not verified";
                 AuthSlice.requiresVerification := false;
                 AuthSlice.error_email := None |}
              owner_only_props "/owner/dashboard"
              eq_refl eq_refl ltac:(discriminate) eq_refl eq_refl eq_refl)
    as (_ & _ & _ & _ & H & _).
  exact H.
Defined.

(** ** The CSRF token from acquisition to use *)

(** X21.  A token that an acquisition brings back is what the next
    unforced call returns, without a request; it is what a reload of the
    page finds in [localStorage]; and the request interceptor puts it on a
    state-changing request to the own API, and on no [get]. *)
Theorem csrf_token_round_trip (w : OwnerApi.World) (pid : nat) (body : Body)
    (token : string) (net : list HttpResponse) (url : string) (data : Body) :
  OwnerApi.initializationPromise w = Some pid ->
  body !! "csrfToken" = Some token ->
  token <> "" ->
  Js.startsWith "/" url = true ->
  let w' := OwnerApi.csrf_settle (OwnerApi.Response body) w in
  OwnerApi.getCSRFToken false w' = (w', OwnerApi.Cached token) /\
  OwnerApi.sent w' = OwnerApi.sent w /\
  OwnerApi.csrfToken (OwnerApi.boot (OwnerApi.storage w') net) = Some token /\
  OwnerApi.headers (OwnerApi.request_interceptor w' (OwnerApi.new_config "post" url ∅ data))
    !! "X-CSRFToken" = Some token /\
  OwnerApi.headers (OwnerApi.request_interceptor w' (OwnerApi.new_config "get" url ∅ data))
    !! "X-CSRFToken" = None.
Proof.
  intros Hpid Hbody Htoken Hurl w'. subst w'.
  unfold OwnerApi.csrf_settle. rewrite Hpid, Hbody. cbn [Js.truthy Js.to_string].
  rewrite (bool_decide_eq_false_2 _ Htoken). cbn [negb].
  repeat match goal with |- _ /\ _ => split end.
  - unfold OwnerApi.getCSRFToken. cbn. rewrite (bool_decide_eq_false_2 _ Htoken).
    reflexivity.
  - reflexivity.
  - cbn. storage_lookup. reflexivity.
  - unfold OwnerApi.request_interceptor. cbn -[Js.startsWith].
    destruct (Js.truthy (_ !! "token")); cbn -[Js.startsWith];
      rewrite Hurl, (bool_decide_eq_false_2 _ Htoken); cbn; storage_lookup; cbn;
      storage_lookup; reflexivity.
  - unfold OwnerApi.request_interceptor. cbn.
    destruct (Js.truthy (_ !! "token")); cbn; storage_lookup; reflexivity.
Qed.

Lemma csrf_token_round_trip_witness :
  OwnerApi.getCSRFToken false
    (OwnerApi.csrf_settle (csrf_reply "c1")
       (fst (OwnerApi.getCSRFToken false (OwnerApi.boot ∅ []))))
  = (OwnerApi.csrf_settle (csrf_reply "c1")
       (fst (OwnerApi.getCSRFToken false (OwnerApi.boot ∅ []))),
     OwnerApi.Cached "c1").
Proof.
  assert (Hpid : OwnerApi.initializationPromise
                   (fst (OwnerApi.getCSRFToken false (OwnerApi.boot ∅ []))) = Some 0)
    by (vm_compute; reflexivity).
  assert (Hbody : ({["csrfToken" := "c1"]} : Body) !! "csrfToken" = Some "c1")
    by (vm_compute; reflexivity).
  pose proof (csrf_token_round_trip _ 0 _ "c1" [] "/orders/" ∅ Hpid Hbody
                ltac:(discriminate) eq_refl) as H.
  cbv zeta in H. exact (proj1 H).
Defined.

Lemma initializeCSRF_when_initialized reply w :
  AuthSlice.csrfInitialized (OwnerApi.auth w) = true ->
  OwnerApi.sent (fst (Thunks.initializeCSRF reply w)) = OwnerApi.sent w /\
  OwnerApi.csrfToken (fst (Thunks.initializeCSRF reply w)) = OwnerApi.csrfToken w /\
  OwnerApi.storage (fst (Thunks.initializeCSRF reply w)) = OwnerApi.storage w /\
  OwnerApi.promises (fst (Thunks.initializeCSRF reply w)) = OwnerApi.promises w /\
  OwnerApi.inbox (fst (Thunks.initializeCSRF reply w)) = OwnerApi.inbox w.
Proof.
  intros Hinit. unfold Thunks.initializeCSRF.
  assert (Hpending : AuthSlice.csrfInitialized
                       (OwnerApi.auth (Thunks.dispatch AuthSlice.initializeCSRF_pending w))
                     = AuthSlice.csrfInitialized (OwnerApi.auth w)) by reflexivity.
  rewrite Hpending, Hinit. repeat split.
Qed.

(** X22.  The start-up thunk asks for the CSRF token at most once per
    page load: whatever the first run got (a token, an error, nothing),
    it ends with [csrfInitialized] set, and a second run sends no request
    and changes neither the cached token nor [localStorage]. *)
Theorem initializeCSRF_fetches_once (w : OwnerApi.World) (first second : OwnerApi.Reply) :
  let w1 := fst (Thunks.initializeCSRF first w) in
  let w2 := fst (Thunks.initializeCSRF second w1) in
  AuthSlice.csrfInitialized (OwnerApi.auth w1) = true /\
  OwnerApi.sent w2 = OwnerApi.sent w1 /\
  OwnerApi.csrfToken w2 = OwnerApi.csrfToken w1 /\
  OwnerApi.storage w2 = OwnerApi.storage w1 /\
  OwnerApi.promises w2 = OwnerApi.promises w1 /\
  OwnerApi.inbox w2 = OwnerApi.inbox w1.
Proof.
  cbv zeta.
  destruct (initializeCSRF_always_fulfilled first w) as (_ & _ & Hinit & _).
  split; [exact Hinit|].
  exact (initializeCSRF_when_initialized second _ Hinit).
Qed.

(** ** The storefront client and the CSRF cookie *)

Lemma string_app_inj (base a b : string) : base ++ a = base ++ b -> a = b.
Proof. induction base as [|c base IH]; cbn; [auto | intros [= H]; auto]. Qed.

Section CustomerCookie.

Variable base : string.

Lemma refresh_is_no_csrf_fetch :
  bool_decide (CustomerApi.refresh_url base = CustomerApi.csrf_url base) = false.
Proof.
  apply bool_decide_eq_false_2. unfold CustomerApi.refresh_url, CustomerApi.csrf_url.
  intros H%string_app_inj. discriminate.
Qed.

Lemma await_ensureCSRFToken_with_cookie w :
  CustomerApi.getCSRFToken w <> "" ->
  CustomerApi.await_ensureCSRFToken base w = (w, Some (Some (CustomerApi.getCSRFToken w))).
Proof.
  intros Hcookie. unfold CustomerApi.await_ensureCSRFToken, CustomerApi.ensureCSRFToken.
  cbn [Js.truthy]. rewrite (bool_decide_eq_false_2 _ Hcookie). reflexivity.
Qed.

Lemma customer_response_error_keeps_cookie call c response w :
  (forall c w, CustomerApi.getCSRFToken w <> "" ->
     CustomerApi.csrf_fetches base (call c w).1.1 = CustomerApi.csrf_fetches base w /\
     CustomerApi.document_cookie (call c w).1.1 = CustomerApi.document_cookie w) ->
  CustomerApi.getCSRFToken w <> "" ->
  CustomerApi.csrf_fetches base (CustomerApi.response_error base call c response w).1.1
  = CustomerApi.csrf_fetches base w /\
  CustomerApi.document_cookie (CustomerApi.response_error base call c response w).1.1
  = CustomerApi.document_cookie w.
Proof.
  intros Hcall Hcookie. unfold CustomerApi.response_error.
  destruct (bool_decide (_ = Some 403%Z) && _).
  { rewrite (await_ensureCSRFToken_with_cookie w Hcookie).
    match goal with |- context [call ?c' ?w'] =>
      pose proof (Hcall c' w' Hcookie) as (H1 & H2);
      destruct (call c' w') as [[w2 o2] t2] end.
    cbn in *. auto. }
  destruct (bool_decide (_ = Some 401%Z) && _); [| cbn; auto].
  destruct (Js.truthy _); [| cbn; auto].
  cbn [CustomerApi.inbox CustomerApi.set_sent].
  destruct (CustomerApi.inbox w) as [| r rest] eqn:Hin.
  { cbn. unfold CustomerApi.csrf_fetches. cbn [CustomerApi.sent List.filter CustomerApi.is_csrf_fetch].
    rewrite refresh_is_no_csrf_fetch. auto. }
  destruct r as [status body |].
  - destruct (is_2xx status).
    + match goal with |- context [call ?c' ?w'] =>
        assert (Hcookie' : CustomerApi.getCSRFToken w' <> "") by exact Hcookie;
        pose proof (Hcall c' w' Hcookie') as (H1 & H2);
        destruct (call c' w') as [[w2 o2] t2] end.
      cbn in *. rewrite H1, H2. unfold CustomerApi.csrf_fetches.
      cbn [CustomerApi.sent List.filter CustomerApi.is_csrf_fetch]. rewrite refresh_is_no_csrf_fetch. auto.
    + cbn. unfold CustomerApi.csrf_fetches. cbn [CustomerApi.sent List.filter CustomerApi.is_csrf_fetch].
      rewrite refresh_is_no_csrf_fetch. auto.
  - cbn. unfold CustomerApi.csrf_fetches. cbn [CustomerApi.sent List.filter CustomerApi.is_csrf_fetch].
    rewrite refresh_is_no_csrf_fetch. auto.
Qed.

Lemma customer_request_interceptor_with_cookie c w :
  CustomerApi.getCSRFToken w <> "" ->
  exists c', CustomerApi.request_interceptor base c w = (w, Some c').
Proof.
  intros Hcookie. unfold CustomerApi.request_interceptor.
  destruct (negb _); [rewrite (await_ensureCSRFToken_with_cookie w Hcookie)|];
    eexists; reflexivity.
Qed.

Lemma customer_api_fuel_keeps_cookie fuel :
  forall c w, CustomerApi.getCSRFToken w <> "" ->
    CustomerApi.csrf_fetches base (CustomerApi.api_fuel base fuel c w).1.1
    = CustomerApi.csrf_fetches base w /\
    CustomerApi.document_cookie (CustomerApi.api_fuel base fuel c w).1.1
    = CustomerApi.document_cookie w.
Proof.
  induction fuel as [| fuel IH]; intros c w Hcookie; [cbn; auto|].
  cbn [CustomerApi.api_fuel].
  destruct (customer_request_interceptor_with_cookie c w Hcookie) as [c1 ->].
  cbn [CustomerApi.inbox CustomerApi.set_sent].
  destruct (CustomerApi.inbox w) as [| r rest] eqn:Hin; [cbn; auto|].
  destruct (CustomerApi.reply_of c1 r) as [body | [c2 response | response]];
    [cbn; auto | | cbn; auto].
  match goal with |- context [CustomerApi.response_error base ?k ?c' ?r' ?w'] =>
    assert (Hcookie' : CustomerApi.getCSRFToken w' <> "") by exact Hcookie;
    pose proof (customer_response_error_keeps_cookie k c' r' w' IH Hcookie') as (H1 & H2);
    destruct (CustomerApi.response_error base k c' r' w') as [[w2 o2] t2] end.
  cbn in *. auto.
Qed.

End CustomerCookie.

(** X23.  While the browser holds a [csrftoken] cookie, the storefront
    client never asks the CSRF endpoint for a token: a request, with its
    recovery from a 403 and from a 401, is run to the end without any such
    fetch, and the header of every state-changing request is the cookie
    value. *)
Theorem customer_cookie_is_trusted (base : string) (config : CustomerApi.Config)
    (w : CustomerApi.World) :
  CustomerApi.getCSRFToken w <> "" ->
  let w' := (CustomerApi.api base config w).1.1 in
  CustomerApi.csrf_fetches base w' = CustomerApi.csrf_fetches base w /\
  CustomerApi.getCSRFToken w' = CustomerApi.getCSRFToken w /\
  (CustomerApi.method config <> "get" ->
   exists c', CustomerApi.request_interceptor base config w = (w, Some c') /\
              CustomerApi.headers c' !! "X-CSRFToken" = Some (CustomerApi.getCSRFToken w)).
Proof.
  intros Hcookie w'. subst w'. unfold CustomerApi.api.
  destruct (customer_api_fuel_keeps_cookie base (S (length (CustomerApi.inbox w)))
              config w Hcookie) as (Hfetches & Hdoc).
  split; [exact Hfetches|]. split.
  - unfold CustomerApi.getCSRFToken. rewrite Hdoc. reflexivity.
  - intros Hmethod. unfold CustomerApi.request_interceptor.
    rewrite (bool_decide_eq_false_2 _ Hmethod). cbn [negb].
    rewrite (await_ensureCSRFToken_with_cookie base w Hcookie). cbn [Js.truthy].
    rewrite (bool_decide_eq_false_2 _ Hcookie). cbn [negb].
    destruct (Js.truthy (getItem "access_token" _)); eexists; (split; [reflexivity|]);
      cbn; storage_lookup; reflexivity.
Qed.

Lemma customer_cookie_is_trusted_witness :
  CustomerApi.csrf_fetches "https://shop.example"
    (CustomerApi.api "https://shop.example" storefront_orders storefront_stale).1.1
  = CustomerApi.csrf_fetches "https://shop.example" storefront_stale.
Proof.
  destruct (customer_cookie_is_trusted "https://shop.example" storefront_orders
              storefront_stale ltac:(discriminate))
    as (H & _).
  exact H.
Defined.


(** ** Responses of any shape *)

Ltac decide_strings :=
  repeat match goal with
         | |- context [bool_decide (?a = ?b)] =>
             first [ rewrite (bool_decide_eq_true_2 (a = b)) by reflexivity
                   | rewrite (bool_decide_eq_false_2 (a = b)) by discriminate ]
         end.

(** X24.  [extractDataFromResponse] never gives a falsy value; what it
    gives is an array, or else the response itself; and applied to its
    own result it changes nothing. *)
Theorem extractDataFromResponse_settles (response : Json.Value) :
  let data := PaginationUtils.extractDataFromResponse response in
  Json.truthy data = true /\
  (Json.isArray data = true \/ data = response) /\
  PaginationUtils.extractDataFromResponse data = data.
Proof.
  cbv zeta. unfold PaginationUtils.extractDataFromResponse.
  destruct (Json.truthy response) eqn:Htruthy; cbn [negb]; [|repeat split; auto].
  destruct (Json.isArray response) eqn:Harray.
  { rewrite Htruthy, Harray. cbn. auto. }
  assert (Harr : forall v, Json.isArray v = true ->
            Json.truthy v = true /\
            (if negb (Json.truthy v) then Json.Arr []
             else if Json.isArray v then v else Json.Undefined) = v).
  { intros [] Hv; try discriminate Hv. split; reflexivity. }
  destruct (Json.isArray (Json.get "results" response)) eqn:Hresults.
  { destruct (Harr _ Hresults) as [Ht _]. rewrite Ht, Hresults. cbn. auto. }
  destruct (Json.truthy (Json.get "data" response)
            && Json.isArray (Json.get "results" (Json.get "data" response))) eqn:Hnested.
  { apply andb_true_iff in Hnested as [_ Hnested].
    destruct (Harr _ Hnested) as [Ht _]. rewrite Ht, Hnested. cbn. auto. }
  destruct (Json.truthy (Json.get "data" response)
            && Json.isArray (Json.get "data" response)) eqn:Hdata.
  { apply andb_true_iff in Hdata as [_ Hdata].
    destruct (Harr _ Hdata) as [Ht _]. rewrite Ht, Hdata. cbn. auto. }
  unfold Json.or_else. rewrite Htruthy. cbn [negb].
  rewrite ?Htruthy, Harray, Hresults, Hnested, Hdata. cbn [negb]. auto.
Qed.

Lemma or_else_truthy a b : Json.truthy b = true -> Json.truthy (Json.or_else a b) = true.
Proof. unfold Json.or_else. destruct (Json.truthy a) eqn:Ha; auto. Qed.

Lemma or_else_defined a b : b <> Json.Undefined -> Json.or_else a b <> Json.Undefined.
Proof.
  unfold Json.or_else. destruct (Json.truthy a) eqn:Ha; [|auto].
  intros _ ->. discriminate Ha.
Qed.

(** X25.  [getPaginationInfo] gives [null] exactly for a falsy response
    and for an array.  Otherwise the page number and the page size it
    reports are never falsy (a missing one, or [0], becomes [1] and [20]),
    the count prefers [count] to [total_count], and [next] and [previous]
    are never [undefined]. *)
Theorem getPaginationInfo_defaults (response : Json.Value) :
  let info := PaginationUtils.getPaginationInfo response in
  (info = Json.Null <-> Json.truthy response = false \/ Json.isArray response = true) /\
  (info <> Json.Null ->
   Json.truthy (Json.get "currentPage" info) = true /\
   Json.truthy (Json.get "pageSize" info) = true /\
   Json.get "next" info <> Json.Undefined /\
   Json.get "previous" info <> Json.Undefined /\
   (Json.truthy (Json.get "count" response) = true ->
    Json.get "count" info = Json.get "count" response) /\
   (Json.truthy (Json.get "count" response) = false ->
    Json.truthy (Json.get "total_count" response) = false ->
    Json.get "count" info = Json.Num 0)).
Proof.
  cbv zeta. unfold PaginationUtils.getPaginationInfo.
  destruct (Json.truthy response) eqn:Htruthy; cbn [negb orb].
  2: { split; [split; auto|]. intros H; contradiction H; reflexivity. }
  destruct (Json.isArray response) eqn:Harray.
  { split; [split; auto|]. intros H; contradiction H; reflexivity. }
  split; [split; [discriminate | intros [?|?]; discriminate]|].
  intros _. cbn [Json.get Json.lookup]. decide_strings. cbn iota.
  repeat match goal with |- _ /\ _ => split end.
  - apply or_else_truthy. reflexivity.
  - apply or_else_truthy. reflexivity.
  - apply or_else_defined. discriminate.
  - apply or_else_defined. discriminate.
  - intros Hcount. unfold Json.or_else. rewrite Hcount. cbn iota. rewrite Hcount.
    reflexivity.
  - intros Hcount Htotal. unfold Json.or_else. rewrite Hcount. cbn iota.
    rewrite Htotal. reflexivity.
Qed.

(** ** The owner slice and the combined logout *)

Lemma find_gives_listed payload items current :
  OwnerAuthSlice.find payload items = Some current ->
  current = Json.Undefined \/ current ∈ items.
Proof.
  induction items as [|r items IH]; cbn.
  - intros [= <-]. left. reflexivity.
  - destruct r; try discriminate;
      (destruct (Json.strict_eq _ payload);
       [ intros [= <-]; right; constructor
       | intros H; destruct (IH H) as [-> | Hin]; [left; reflexivity | right; constructor; exact Hin] ]).
Qed.

Lemma dispatch_keeps_current_listed a s w :
  (forall items, OwnerAuthSlice.restaurants s = Json.Arr items ->
     OwnerAuthSlice.currentRestaurant s = Json.Null \/
     OwnerAuthSlice.currentRestaurant s = Json.Undefined \/
     OwnerAuthSlice.currentRestaurant s ∈ items) ->
  forall items,
    OwnerAuthSlice.restaurants (fst (OwnerAuthSlice.dispatch a (s, w))) = Json.Arr items ->
    OwnerAuthSlice.currentRestaurant (fst (OwnerAuthSlice.dispatch a (s, w))) = Json.Null \/
    OwnerAuthSlice.currentRestaurant (fst (OwnerAuthSlice.dispatch a (s, w))) = Json.Undefined \/
    OwnerAuthSlice.currentRestaurant (fst (OwnerAuthSlice.dispatch a (s, w))) ∈ items.
Proof.
  intros Hs. unfold OwnerAuthSlice.dispatch. cbn [fst snd].
  destruct a as [payload | | | payload_owner payload_restaurants | message];
    cbn [OwnerAuthSlice.reducer].
  - destruct (OwnerAuthSlice.restaurants s) as [| | | | |items0|] eqn:Hrest;
      cbn; try (rewrite Hrest; exact (Hs)); try exact Hs.
    destruct (OwnerAuthSlice.find payload items0) as [current|] eqn:Hfind; cbn.
    + intros items [= <-].
      destruct (find_gives_listed _ _ _ Hfind) as [-> | Hin]; auto.
    + rewrite Hrest. exact Hs.
  - cbn. intros items _. left. reflexivity.
  - cbn. exact Hs.
  - destruct payload_restaurants as [| | | | |items0|]; cbn; try exact Hs; try discriminate.
    intros items [= <-]. destruct items0 as [|x items0]; cbn; [left; reflexivity|].
    unfold Json.or_else. destruct (Json.truthy x); [|left; reflexivity].
    right; right. constructor.
  - cbn. exact Hs.
Qed.

(** X26.  Whatever is dispatched to the owner slice, when its list of
    restaurants is an array the current restaurant is [null],
    [undefined], or one of the restaurants of that list. *)
Theorem currentRestaurant_is_listed (actions : list OwnerAuthSlice.Action)
    (w : OwnerApi.World) (items : list Json.Value) :
  let s := fst (OwnerAuthSlice.after actions (OwnerAuthSlice.initialState, w)) in
  OwnerAuthSlice.restaurants s = Json.Arr items ->
  OwnerAuthSlice.currentRestaurant s = Json.Null \/
  OwnerAuthSlice.currentRestaurant s = Json.Undefined \/
  OwnerAuthSlice.currentRestaurant s ∈ items.
Proof.
  cbv zeta. revert items.
  assert (Hgen : forall sw,
    (forall items, OwnerAuthSlice.restaurants (fst sw) = Json.Arr items ->
       OwnerAuthSlice.currentRestaurant (fst sw) = Json.Null \/
       OwnerAuthSlice.currentRestaurant (fst sw) = Json.Undefined \/
       OwnerAuthSlice.currentRestaurant (fst sw) ∈ items) ->
    forall items,
      OwnerAuthSlice.restaurants (fst (OwnerAuthSlice.after actions sw)) = Json.Arr items ->
      OwnerAuthSlice.currentRestaurant (fst (OwnerAuthSlice.after actions sw)) = Json.Null \/
      OwnerAuthSlice.currentRestaurant (fst (OwnerAuthSlice.after actions sw)) = Json.Undefined \/
      OwnerAuthSlice.currentRestaurant (fst (OwnerAuthSlice.after actions sw)) ∈ items).
  { induction actions as [|a actions IH]; intros [s0 w0] Hs; cbn [OwnerAuthSlice.after].
    - exact Hs.
    - apply IH. destruct (OwnerAuthSlice.dispatch a (s0, w0)) as [s1 w1] eqn:Hstep.
      pose proof (dispatch_keeps_current_listed a s0 w0 Hs) as Hkeep.
      rewrite Hstep in Hkeep. exact Hkeep. }
  apply Hgen. intros items _. left. reflexivity.
Qed.

Lemma currentRestaurant_is_listed_witness :
  OwnerAuthSlice.currentRestaurant
    (fst (OwnerAuthSlice.after
            [OwnerAuthSlice.fetchOwnerProfile Json.Null
               (Json.Obj [("results",
                           Json.Arr [Json.Obj [("restaurant_id", Json.Num 7)];
                                     Json.Obj [("restaurant_id", Json.Num 9)]])]);
             OwnerAuthSlice.switchRestaurant (Json.Num 9)]
            (OwnerAuthSlice.initialState, portal_in_use))) = Json.Null \/
  OwnerAuthSlice.currentRestaurant
    (fst (OwnerAuthSlice.after
            [OwnerAuthSlice.fetchOwnerProfile Json.Null
               (Json.Obj [("results",
                           Json.Arr [Json.Obj [("restaurant_id", Json.Num 7)];
                                     Json.Obj [("restaurant_id", Json.Num 9)]])]);
             OwnerAuthSlice.switchRestaurant (Json.Num 9)]
            (OwnerAuthSlice.initialState, portal_in_use))) = Json.Undefined \/
  OwnerAuthSlice.currentRestaurant
    (fst (OwnerAuthSlice.after
            [OwnerAuthSlice.fetchOwnerProfile Json.Null
               (Json.Obj [("results",
                           Json.Arr [Json.Obj [("restaurant_id", Json.Num 7)];
                                     Json.Obj [("restaurant_id", Json.Num 9)]])]);
             OwnerAuthSlice.switchRestaurant (Json.Num 9)]
            (OwnerAuthSlice.initialState, portal_in_use)))
  ∈ [Json.Obj [("restaurant_id", Json.Num 7)]; Json.Obj [("restaurant_id", Json.Num 9)]].
Proof.
  apply (currentRestaurant_is_listed
           [OwnerAuthSlice.fetchOwnerProfile Json.Null
              (Json.Obj [("results",
                          Json.Arr [Json.Obj [("restaurant_id", Json.Num 7)];
                                    Json.Obj [("restaurant_id", Json.Num 9)]])]);
            OwnerAuthSlice.switchRestaurant (Json.Num 9)]
           portal_in_use).
  vm_compute. reflexivity.
Defined.

Lemma post_without_token url data w :
  getItem "token" (OwnerApi.storage w) = None ->
  exists c,
    OwnerApi.sent (Thunks.post url data w) = c :: OwnerApi.sent w /\
    OwnerApi.url c = url /\
    OwnerApi.headers c !! "Authorization" = None /\
    OwnerApi.auth (Thunks.post url data w) = OwnerApi.auth w /\
    OwnerApi.storage (Thunks.post url data w) = OwnerApi.storage w.
Proof.
  intros Htoken. eexists. split; [reflexivity|].
  split; [apply request_interceptor_keeps|]. split; [|split; reflexivity].
  unfold OwnerApi.request_interceptor. rewrite Htoken. cbn [Js.truthy].
  match goal with |- context [if ?b then _ else _] => destruct b end;
    cbn; storage_lookup; reflexivity.
Qed.

(** ** Logging out through the interceptors *)

Lemma request_interceptor_keeps_logout w c :
  LogoutActions.is_logout_post (OwnerApi.request_interceptor w c)
  = LogoutActions.is_logout_post c.
Proof.
  unfold LogoutActions.is_logout_post.
  destruct (request_interceptor_keeps w c) as (-> & _). reflexivity.
Qed.

Lemma csrf_settle_keeps_sent reply w :
  OwnerApi.sent (OwnerApi.csrf_settle reply w) = OwnerApi.sent w.
Proof.
  unfold OwnerApi.csrf_settle, OwnerApi.csrf_catch.
  destruct (OwnerApi.initializationPromise w); [|reflexivity].
  destruct reply; simpl;
    repeat match goal with |- context [if ?b then _ else _] => destruct b end;
    reflexivity.
Qed.

Lemma calm_here extra w w' o t :
  OwnerApi.auth w' = OwnerApi.auth w ->
  OwnerApi.sent w' = OwnerApi.sent w ->
  LogoutActions.calm extra w (w', o, t).
Proof.
  intros Hauth Hsent. unfold LogoutActions.calm, LogoutActions.logout_posts.
  cbn [fst snd]. rewrite Hsent. split; [exact Hauth|]. lia.
Qed.

Lemma calm_more extra extra' w r :
  extra <= extra' -> LogoutActions.calm extra w r -> LogoutActions.calm extra' w r.
Proof. intros Hle (H1 & H2 & H3). split; [exact H1|]. lia. Qed.

Lemma calm_counted extra w t r :
  LogoutActions.calm extra w r -> LogoutActions.calm extra w (counted t r).
Proof. destruct r as [[w1 o] t1]. exact (fun H => H). Qed.

Lemma calm_then extra extra' w w1 r :
  OwnerApi.auth w1 = OwnerApi.auth w ->
  LogoutActions.logout_posts w <= LogoutActions.logout_posts w1 <= LogoutActions.logout_posts w + extra ->
  LogoutActions.calm extra' w1 r ->
  LogoutActions.calm (extra + extra') w r.
Proof.
  intros Hauth Hposts (H1 & H2 & H3).
  split; [exact (eq_trans H1 Hauth)|]. lia.
Qed.

Section LogoutCall.

Variable recv : OwnerApi.Config -> OwnerApi.World -> OwnerApi.World * OwnerApi.Outcome * Tally.
Hypothesis recv_calm :
  forall c w,
    LogoutActions.calm
      (LogoutActions.posts_left c
         (Acquisition.csrf_resend_left c + Acquisition.retry_left c))
      w (recv c w).

Lemma api_with_calm c w :
  LogoutActions.calm
    (LogoutActions.posts_left c
       (1 + Acquisition.csrf_resend_left c + Acquisition.retry_left c))
    w (OwnerApi.api_with recv c w).
Proof.
  unfold OwnerApi.api_with, OwnerApi.put_on_wire. apply calm_counted.
  destruct (request_interceptor_keeps_budget w c) as (_ & _ & Hleft & Hretry).
  pose proof (request_interceptor_keeps_logout w c) as Hurl.
  pose proof (recv_calm (OwnerApi.request_interceptor w c)
                (OwnerApi.set_sent (OwnerApi.request_interceptor w c :: OwnerApi.sent w) w))
    as (H1 & H2 & H3).
  unfold LogoutActions.posts_left in H3 |- *. rewrite Hurl, Hleft, Hretry in H3.
  split; [exact H1|].
  unfold LogoutActions.logout_posts in H2, H3 |- *.
  cbn [OwnerApi.sent OwnerApi.set_sent List.filter] in H2, H3.
  rewrite Hurl in H2, H3.
  destruct (LogoutActions.is_logout_post c); cbn [length] in H2, H3; lia.
Qed.

(** A call of the logout endpoint puts its request on the wire. *)
Lemma api_with_posts c w :
  LogoutActions.is_logout_post c = true ->
  LogoutActions.logout_posts w
  < LogoutActions.logout_posts (OwnerApi.api_with recv c w).1.1.
Proof.
  intros Hc. unfold OwnerApi.api_with, OwnerApi.put_on_wire.
  pose proof (request_interceptor_keeps_logout w c) as Hurl.
  pose proof (recv_calm (OwnerApi.request_interceptor w c)
                (OwnerApi.set_sent (OwnerApi.request_interceptor w c :: OwnerApi.sent w) w))
    as (_ & H2 & _).
  destruct (recv _ _) as [[w1 o] t]. cbn [counted fst snd] in *.
  unfold LogoutActions.logout_posts in H2 |- *.
  cbn [OwnerApi.sent OwnerApi.set_sent List.filter] in H2.
  rewrite Hurl, Hc in H2. cbn [length] in H2. lia.
Qed.

Lemma await_getCSRFToken_calm forceRefresh w :
  OwnerApi.auth (OwnerApi.await_getCSRFToken recv forceRefresh w).1 = OwnerApi.auth w /\
  LogoutActions.logout_posts (OwnerApi.await_getCSRFToken recv forceRefresh w).1
  = LogoutActions.logout_posts w.
Proof.
  unfold OwnerApi.await_getCSRFToken, OwnerApi.getCSRFToken.
  destruct (negb forceRefresh && _); [split; reflexivity|].
  destruct (OwnerApi.initializationPromise w); [split; reflexivity|].
  unfold OwnerApi.put_on_wire.
  match goal with |- context [recv ?c' ?w'] =>
    pose proof (recv_calm c' w') as (H1 & H2 & H3);
    destruct (recv c' w') as [[w1 o] t] end.
  unfold LogoutActions.posts_left in H3.
  rewrite request_interceptor_keeps_logout in H3.
  change (LogoutActions.is_logout_post OwnerApi.csrf_config) with false in H3.
  cbn [fst snd] in H1, H2, H3.
  unfold LogoutActions.logout_posts in H2, H3.
  cbn [OwnerApi.sent OwnerApi.set_sent OwnerApi.set_promises
       OwnerApi.set_initializationPromise OwnerApi.set_initializationCount
       List.filter] in H2, H3.
  rewrite request_interceptor_keeps_logout in H2, H3.
  change (LogoutActions.is_logout_post OwnerApi.csrf_config) with false in H2, H3.
  destruct o as [reply |]; cbn [fst snd].
  - unfold LogoutActions.logout_posts.
    rewrite csrf_settle_keeps_auth, csrf_settle_keeps_sent.
    split; [exact H1|]. unfold LogoutActions.logout_posts. lia.
  - split; [exact H1|]. unfold LogoutActions.logout_posts. lia.
Qed.

Lemma refresh_is_no_logout_post token :
  LogoutActions.is_logout_post (OwnerApi.refresh_config token) = false.
Proof. apply bool_decide_eq_false_2. discriminate. Qed.

Lemma jwt_expiration_calm c response w :
  LogoutActions.calm
    (LogoutActions.posts_left c
       (if OwnerApi._retry c then 0 else 1 + Acquisition.csrf_resend_left c))
    w (OwnerApi.jwt_expiration recv c response w).
Proof.
  unfold OwnerApi.jwt_expiration.
  destruct (bool_decide _ && negb (OwnerApi._retry c)) eqn:Hcond;
    [| apply calm_here; reflexivity].
  apply andb_true_iff in Hcond as [_ Hmark]. apply negb_true_iff in Hmark.
  rewrite Hmark.
  destruct (Js.truthy _); [| apply calm_here; reflexivity].
  pose proof (api_with_calm
                (OwnerApi.refresh_config
                   (Js.to_string (getItem "refreshToken" (OwnerApi.storage w)))) w)
    as Hrefresh.
  unfold LogoutActions.posts_left in Hrefresh at 1.
  rewrite refresh_is_no_logout_post in Hrefresh.
  destruct (OwnerApi.api_with recv (OwnerApi.refresh_config _) w) as [[w1 o] t1].
  destruct Hrefresh as (H1 & H2 & H3). cbn [fst snd] in H1, H2, H3.
  destruct o as [[body | refreshError] |];
    try (split; [exact H1|]; cbn [fst snd]; lia).
  apply calm_counted.
  match goal with |- context [OwnerApi.api_with recv ?c' ?w'] =>
    pose proof (api_with_calm c' w') as (K1 & K2 & K3);
    destruct (OwnerApi.api_with recv c' w') as [[w2 o2] t2] end.
  cbn [fst snd] in K1, K2, K3.
  split; [exact (eq_trans K1 H1)|]. cbn [fst snd].
  unfold LogoutActions.posts_left, Acquisition.csrf_resend_left, Acquisition.retry_left,
    Acquisition.exempt, LogoutActions.is_logout_post, LogoutActions.logout_posts in *.
  cbn [OwnerApi.url OwnerApi._retry OwnerApi._csrfRetried OwnerApi.headers
       OwnerApi.set_header OwnerApi.set__retry OwnerApi.sent OwnerApi.set_storage] in K2, K3.
  rewrite lookup_insert_ne in K3 by discriminate.
  destruct (bool_decide (OwnerApi.url c = "/auth/logout/"));
    destruct (OwnerApi._csrfRetried c || Js.truthy (OwnerApi.headers c !! "X-CSRF-Request"));
    lia.
Qed.

Lemma response_error_calm c response w :
  LogoutActions.calm
    (LogoutActions.posts_left c
       (Acquisition.csrf_resend_left c + Acquisition.retry_left c))
    w (OwnerApi.response_error recv (OwnerApi.AxiosError c response) w).
Proof.
  unfold OwnerApi.response_error.
  destruct (bool_decide _ && negb (OwnerApi._csrfRetried c) && negb (Js.truthy _)) eqn:Hcond.
  - apply andb_true_iff in Hcond as [Hcond Hexempt].
    apply andb_true_iff in Hcond as [_ Hmark].
    apply negb_true_iff in Hmark, Hexempt.
    pose proof (await_getCSRFToken_calm true w) as (A1 & A2).
    destruct (OwnerApi.await_getCSRFToken recv true w) as [w1 token].
    cbn [fst snd] in A1, A2.
    assert (Hstay : forall extra o t, LogoutActions.calm extra w (w1, o, t)).
    { intros extra o t. split; [exact A1|]. cbn [fst snd]. lia. }
    destruct token as [[token | csrfError] |]; try apply Hstay.
    destruct (Js.truthy (OwnerApi.csrfToken w1)); apply calm_counted.
    + match goal with |- context [OwnerApi.api_with recv ?c' ?w'] =>
        pose proof (api_with_calm c' w') as (K1 & K2 & K3) end.
      split; [exact (eq_trans K1 A1)|].
      unfold LogoutActions.posts_left, Acquisition.csrf_resend_left, Acquisition.retry_left,
        Acquisition.exempt, LogoutActions.is_logout_post in K3 |- *.
      cbn [OwnerApi.url OwnerApi._retry OwnerApi._csrfRetried OwnerApi.headers
           OwnerApi.set_header OwnerApi.set__csrfRetried orb] in K3.
      rewrite Hmark, Hexempt. cbn [orb].
      destruct (bool_decide (OwnerApi.url c = "/auth/logout/")), (OwnerApi._retry c); lia.
    + match goal with |- context [OwnerApi.jwt_expiration recv ?c' ?r' ?w'] =>
        pose proof (jwt_expiration_calm c' r' w') as (K1 & K2 & K3) end.
      split; [exact (eq_trans K1 A1)|].
      unfold LogoutActions.posts_left, Acquisition.csrf_resend_left, Acquisition.retry_left,
        Acquisition.exempt, LogoutActions.is_logout_post in K3 |- *.
      cbn [OwnerApi.url OwnerApi._retry OwnerApi._csrfRetried OwnerApi.headers
           OwnerApi.set__csrfRetried orb] in K3.
      rewrite Hmark, Hexempt. cbn [orb].
      destruct (bool_decide (OwnerApi.url c = "/auth/logout/")), (OwnerApi._retry c); lia.
  - eapply calm_more; [|apply jwt_expiration_calm].
    unfold LogoutActions.posts_left, Acquisition.retry_left.
    destruct (LogoutActions.is_logout_post c), (OwnerApi._retry c); lia.
Qed.

End LogoutCall.

Lemma receive_calm fuel :
  forall c w,
    LogoutActions.calm
      (LogoutActions.posts_left c
         (Acquisition.csrf_resend_left c + Acquisition.retry_left c))
      w (OwnerApi.receive fuel c w).
Proof.
  induction fuel as [| fuel IH]; intros c w; cbn [OwnerApi.receive];
    [apply calm_here; reflexivity|].
  destruct (OwnerApi.inbox w) as [| r rest] eqn:Hin; [apply calm_here; reflexivity|].
  assert (Herror : forall response,
             LogoutActions.calm
               (LogoutActions.posts_left c
                  (Acquisition.csrf_resend_left c + Acquisition.retry_left c)) w
               (OwnerApi.response_error (OwnerApi.receive fuel)
                  (OwnerApi.AxiosError c response) (OwnerApi.set_inbox rest w))).
  { intros response.
    exact (response_error_calm (OwnerApi.receive fuel) IH c response
             (OwnerApi.set_inbox rest w)). }
  unfold OwnerApi.reply_of. destruct r as [status body |].
  - destruct (is_2xx status); [apply calm_here; reflexivity | apply Herror].
  - apply Herror.
Qed.

(** [api.post('/auth/logout/')] run through the interceptors: the session
    is as it was, and the endpoint has got the request and at most two
    resends of it (one after a CSRF recovery, one after a token refresh). *)
Lemma logout_call_calm w :
  OwnerApi.auth (OwnerApi.api LogoutActions.logout_config w).1.1 = OwnerApi.auth w /\
  LogoutActions.logout_posts w
  < LogoutActions.logout_posts (OwnerApi.api LogoutActions.logout_config w).1.1 /\
  LogoutActions.logout_posts (OwnerApi.api LogoutActions.logout_config w).1.1
  <= LogoutActions.logout_posts w + 3.
Proof.
  unfold OwnerApi.api.
  pose proof (api_with_calm _ (receive_calm (S (length (OwnerApi.inbox w))))
                LogoutActions.logout_config w) as (H1 & _ & H3).
  pose proof (api_with_posts _ (receive_calm (S (length (OwnerApi.inbox w))))
                LogoutActions.logout_config w eq_refl) as H2.
  split; [exact H1|]. split; [exact H2|]. exact H3.
Qed.

Lemma clearAuth_clears w :
  OwnerApi.auth (Thunks.dispatch AuthSlice.other (Thunks.dispatch AuthSlice.clearAuth w))
  = Session.logged_out (OwnerApi.auth w) /\
  OwnerApi.storage (Thunks.dispatch AuthSlice.other (Thunks.dispatch AuthSlice.clearAuth w))
  = (OwnerApi.storage w |> removeItem "token" |> removeItem "refreshToken"
       |> removeItem "csrfToken" |> removeItem "pendingVerificationEmail"
       |> removeItem "pendingUserType") /\
  OwnerApi.sent (Thunks.dispatch AuthSlice.other (Thunks.dispatch AuthSlice.clearAuth w))
  = OwnerApi.sent w.
Proof. repeat split. Qed.

Lemma cleared_keys ls :
  Forall (fun key => getItem key
            (ls |> removeItem "token" |> removeItem "refreshToken"
                |> removeItem "csrfToken" |> removeItem "pendingVerificationEmail"
                |> removeItem "pendingUserType") = None)
         ["token"; "refreshToken"; "csrfToken";
          "pendingVerificationEmail"; "pendingUserType"].
Proof.
  repeat constructor; unfold getItem, removeItem;
    rewrite ?lookup_delete; repeat case_decide; congruence.
Qed.

(** The awaited [logout] thunk, once settled. *)
Lemma authLogout_settled w :
  LogoutActions.logout_posts w < LogoutActions.logout_posts (LogoutActions.authLogout w).1 /\
  LogoutActions.logout_posts (LogoutActions.authLogout w).1
  <= LogoutActions.logout_posts w + 3 /\
  (forall fulfilled, (LogoutActions.authLogout w).2 = Some fulfilled ->
     OwnerApi.auth (LogoutActions.authLogout w).1 = Session.logged_out (OwnerApi.auth w) /\
     Forall (fun key => getItem key (OwnerApi.storage (LogoutActions.authLogout w).1) = None)
            ["token"; "refreshToken"; "csrfToken";
             "pendingVerificationEmail"; "pendingUserType"]).
Proof.
  unfold LogoutActions.authLogout.
  pose proof (logout_call_calm (Thunks.dispatch AuthSlice.other w)) as (H1 & H2 & H3).
  destruct (OwnerApi.api LogoutActions.logout_config (Thunks.dispatch AuthSlice.other w))
    as [[w1 o] t].
  cbn [fst snd] in H1, H2, H3.
  change (LogoutActions.logout_posts (Thunks.dispatch AuthSlice.other w))
    with (LogoutActions.logout_posts w) in H2, H3.
  change (OwnerApi.auth (Thunks.dispatch AuthSlice.other w)) with (OwnerApi.auth w) in H1.
  destruct o as [[body | error] |]; cbn [fst snd].
  - match goal with |- context [Thunks.dispatch AuthSlice.clearAuth ?wx] =>
      destruct (clearAuth_clears wx) as (C1 & C2 & C3) end.
    unfold LogoutActions.logout_posts at 2 4. rewrite C3.
    split; [exact H2|]. split; [exact H3|].
    intros fulfilled _. rewrite C1, C2. split; [|apply cleared_keys].
    cbn [OwnerApi.auth Thunks.store OwnerApi.set_storage]. rewrite H1. reflexivity.
  - destruct (clearAuth_clears w1) as (C1 & C2 & C3).
    unfold LogoutActions.logout_posts at 2 4. rewrite C3.
    split; [exact H2|]. split; [exact H3|].
    intros fulfilled _. rewrite C1, C2, H1. split; [reflexivity | apply cleared_keys].
  - split; [exact H2|]. split; [exact H3|]. discriminate.
Qed.

(** X27.  [performLogout] awaits the [logout] thunk, whose request of the
    logout endpoint goes through the interceptors: the endpoint gets that
    POST and at most two resends of it (one after a CSRF recovery, one
    after a token refresh).  While the request does not settle nothing
    else happens.  Once the thunk has settled, fulfilled or rejected, the
    session and the five persisted keys are cleared and the owner slice is
    reset, and [authService.logout] is called again without being
    awaited: once (by the [logoutOwner] reducer) when the thunk was
    fulfilled, twice (by the thunk dispatched again, then by the reducer)
    when it was rejected; each of these requests is a POST of the logout
    endpoint that leaves without an [Authorization] header, the token
    being gone by then. *)
Theorem performLogout_clears_and_calls_again (s : OwnerAuthSlice.State)
    (w : OwnerApi.World) :
  let w1 := fst (LogoutActions.authLogout w) in
  let s' := fst (LogoutActions.performLogout (s, w)) in
  let w' := snd (LogoutActions.performLogout (s, w)) in
  LogoutActions.logout_posts w < LogoutActions.logout_posts w1 /\
  LogoutActions.logout_posts w1 <= LogoutActions.logout_posts w + 3 /\
  match snd (LogoutActions.authLogout w) with
  | None => s' = s /\ w' = w1
  | Some fulfilled =>
      OwnerApi.auth w' = Session.logged_out (OwnerApi.auth w) /\
      Forall (fun key => getItem key (OwnerApi.storage w') = None)
             ["token"; "refreshToken"; "csrfToken";
              "pendingVerificationEmail"; "pendingUserType"] /\
      (OwnerAuthSlice.owner s' = Json.Null /\
       OwnerAuthSlice.restaurants s' = Json.Arr [] /\
       OwnerAuthSlice.currentRestaurant s' = Json.Null) /\
      exists later : list OwnerApi.Config,
        OwnerApi.sent w' = (later ++ OwnerApi.sent w1)%list /\
        length later = (if fulfilled then 1 else 2) /\
        Forall (fun c => OwnerApi.url c = "/auth/logout/" /\
                         OwnerApi.headers c !! "Authorization" = None) later
  end.
Proof.
  cbv zeta. unfold LogoutActions.performLogout.
  destruct (authLogout_settled w) as (Hmore & Hbound & Hsettled).
  split; [exact Hmore|]. split; [exact Hbound|].
  destruct (LogoutActions.authLogout w) as [w1 [fulfilled |]]; cbn [fst snd] in *;
    [| split; reflexivity].
  destruct (Hsettled fulfilled eq_refl) as (Hstate & Hkeys).
  assert (Hgone : getItem "token" (OwnerApi.storage w1) = None)
    by (inversion Hkeys; assumption).
  destruct fulfilled.
  - unfold OwnerAuthSlice.dispatch. cbn [fst snd OwnerAuthSlice.reducer from_option id].
    destruct (post_without_token "/auth/logout/" ∅ w1 Hgone)
      as (c & Hc & Hurl & Hhdr & Hauth & Hstore).
    rewrite Hauth, Hstore, Hc.
    split; [exact Hstate|]. split; [exact Hkeys|]. split; [repeat split|].
    exists [c]. split; [reflexivity|]. split; [reflexivity|].
    repeat constructor; assumption.
  - unfold OwnerAuthSlice.dispatch. cbn [fst snd OwnerAuthSlice.reducer from_option id].
    set (w2 := Thunks.dispatch AuthSlice.other w1).
    assert (Hw2 : OwnerApi.storage w2 = OwnerApi.storage w1 /\
                  OwnerApi.auth w2 = OwnerApi.auth w1 /\
                  OwnerApi.sent w2 = OwnerApi.sent w1) by (repeat split).
    destruct Hw2 as (Hst2 & Hau2 & Hse2).
    assert (Hgone2 : getItem "token" (OwnerApi.storage w2) = None)
      by (rewrite Hst2; exact Hgone).
    destruct (post_without_token "/auth/logout/" ∅ w2 Hgone2)
      as (c2 & Hc2 & Hurl2 & Hhdr2 & Hauth2 & Hstore2).
    assert (Hgone3 : getItem "token"
                       (OwnerApi.storage (Thunks.post "/auth/logout/" ∅ w2)) = None)
      by (rewrite Hstore2; exact Hgone2).
    destruct (post_without_token "/auth/logout/" ∅ _ Hgone3)
      as (c3 & Hc3 & Hurl3 & Hhdr3 & Hauth3 & Hstore3).
    rewrite Hauth3, Hstore3, Hc3, Hauth2, Hstore2, Hc2, Hau2, Hst2, Hse2.
    split; [exact Hstate|]. split; [exact Hkeys|]. split; [repeat split|].
    exists [c3; c2]. split; [reflexivity|]. split; [reflexivity|].
    repeat constructor; assumption.
Qed.

Lemma performLogout_clears_and_calls_again_witness :
  LogoutActions.logout_posts (fst (LogoutActions.authLogout logout_refused)) = 3 /\
  snd (LogoutActions.authLogout logout_refused) = Some false /\
  map (fun c => (OwnerApi.url c, OwnerApi.headers c !! "Authorization"))
      (OwnerApi.sent
         (snd (LogoutActions.performLogout (OwnerAuthSlice.initialState, logout_refused))))
  = [("/auth/logout/", None);
     ("/auth/logout/", None);
     ("/auth/logout/", Some "Bearer a2");
     ("/auth/token/refresh/", Some "Bearer jwt");
     ("/auth/logout/", Some "Bearer jwt");
     ("/auth/csrf/", Some "Bearer jwt");
     ("/auth/logout/", Some "Bearer jwt")] /\
  OwnerApi.auth
    (snd (LogoutActions.performLogout (OwnerAuthSlice.initialState, logout_refused)))
  = Session.logged_out (OwnerApi.auth logout_refused).
Proof.
  pose proof (performLogout_clears_and_calls_again OwnerAuthSlice.initialState
                logout_refused) as H.
  cbv zeta in H.
  assert (Hrejected : snd (LogoutActions.authLogout logout_refused) = Some false)
    by (vm_compute; reflexivity).
  destruct H as (_ & _ & H). rewrite Hrejected in H. destruct H as (Hstate & _).
  split; [vm_compute; reflexivity|]. split; [exact Hrejected|].
  split; [vm_compute; reflexivity|]. exact Hstate.
Defined.

(** ** Owners behind the guard *)

(** X28.  A session that is authenticated as an owner with a verified
    e-mail is let through by [ProtectedRoute] on every path other than
    [/login], whatever permission and restaurant the props name. *)
Theorem ProtectedRoute_verified_owner_passes (props : Guard.Props) (auth : AuthSlice.State)
    (ls : LocalStorage) (pathname : string) (u : User) :
  AuthSlice.loading auth = false ->
  AuthSlice.isAuthenticated auth = true ->
  AuthSlice.user auth = Some u ->
  user_type u = "owner" ->
  email_verified u = Some true ->
  pathname <> "/login" ->
  Guard.ProtectedRoute props auth ls pathname = Guard.Children.
Proof.
  intros Hloading Hauth Huser Howner Hverified Hpath. unfold Guard.ProtectedRoute.
  rewrite Hloading, Hauth, Huser. unfold Guard.verified. cbn [mbind option_bind].
  rewrite Hverified. rewrite (bool_decide_eq_false_2 _ Hpath).
  cbn [andb negb fmap option_fmap option_map]. rewrite andb_false_r.
  rewrite (bool_decide_eq_true_2 _ Howner).
  unfold Permissions.hasPermission. rewrite (bool_decide_eq_true_2 _ Howner).
  destruct (Guard.ownerOnly props), (Js.truthy (Guard.requiredPermission props));
    reflexivity.
Qed.

Lemma ProtectedRoute_verified_owner_passes_witness :
  Guard.ProtectedRoute
    {| Guard.requiredPermission := Some "manage_staff";
       Guard.restaurantId := Some 42%Z;
       Guard.ownerOnly := true;
       Guard.requireEmailVerified := true;
       Guard.allowUnverified := false |}
    (signed_in an_owner) ∅ "/owner/staff/team" = Guard.Children.
Proof.
  apply (ProtectedRoute_verified_owner_passes _ (signed_in an_owner) ∅
           "/owner/staff/team" an_owner); try reflexivity.
  discriminate.
Defined.

(** X29.  Behind the guard of the owner area, the dashboard route
    always shows the dashboard: when [ProtectedRoute ownerOnly] renders
    its children on [/owner/dashboard], the user is there and verified, so
    neither the waiting state nor the redirect of [DashboardRoute] is
    reached. *)
Theorem DashboardRoute_behind_guard (auth : AuthSlice.State) (ls : LocalStorage) :
  Guard.ProtectedRoute owner_only_props auth ls "/owner/dashboard" = Guard.Children ->
  App.DashboardRoute auth = App.DashboardOverview.
Proof.
  unfold Guard.ProtectedRoute, App.DashboardRoute.
  change (Guard.allowedWithoutVerification "/owner/dashboard") with false.
  change (Js.includes "/verify-email" "/owner/dashboard") with false.
  change (bool_decide ("/owner/dashboard" = "/login")) with false.
  cbn [owner_only_props Guard.requireEmailVerified Guard.allowUnverified Guard.ownerOnly
       Guard.requiredPermission Guard.restaurantId Js.truthy andb negb].
  destruct (AuthSlice.loading auth); [discriminate|].
  destruct (AuthSlice.isAuthenticated auth); cbn [andb negb].
  - rewrite andb_false_r.
    destruct (AuthSlice.user auth) as [u|].
    + destruct (Guard.verified (Some u)); [reflexivity | discriminate].
    + cbn. discriminate.
  - destruct (Js.truthy (getItem "pendingVerificationEmail" ls)); discriminate.
Qed.

Lemma DashboardRoute_behind_guard_witness :
  App.DashboardRoute (signed_in an_owner) = App.DashboardOverview.
Proof. apply (DashboardRoute_behind_guard (signed_in an_owner) ∅). reflexivity. Defined.

(** ** A refused CSRF fetch *)

(** X30.  The fetch of the CSRF endpoint is never recovered by another
    acquisition: when the server refuses it with any status other than
    401 (a 403, a 5xx), the error is final, nothing more is sent and no
    further reply is taken. *)
Theorem csrf_fetch_refusal_is_final (w : OwnerApi.World) (status : Z) (body : Body)
    (rest : list HttpResponse) :
  OwnerApi.inbox w = Http status body :: rest ->
  is_2xx status = false ->
  status <> 401%Z ->
  exists request,
    OwnerApi.api OwnerApi.csrf_config w
    = (w |> OwnerApi.set_sent (request :: OwnerApi.sent w) |> OwnerApi.set_inbox rest,
       OwnerApi.Done (OwnerApi.Thrown (OwnerApi.AxiosError request (Some (status, body)))),
       one_send) /\
    OwnerApi.url request = "/auth/csrf/".
Proof.
  intros Hinbox Hnot2xx Hnot401.
  exists (OwnerApi.request_interceptor w OwnerApi.csrf_config).
  split; [|apply request_interceptor_keeps].
  unfold OwnerApi.api, OwnerApi.api_with, OwnerApi.put_on_wire. rewrite Hinbox.
  cbn [length OwnerApi.receive OwnerApi.inbox OwnerApi.set_sent OwnerApi.set_inbox].
  rewrite Hinbox. unfold OwnerApi.reply_of. rewrite Hnot2xx.
  unfold OwnerApi.response_error, OwnerApi.jwt_expiration.
  assert (Hmark : Js.truthy (OwnerApi.headers (OwnerApi.request_interceptor w OwnerApi.csrf_config)
                               !! "X-CSRF-Request") = true).
  { unfold OwnerApi.request_interceptor.
    repeat match goal with |- context [if ?b then _ else _] => destruct b end;
      cbn; storage_lookup; reflexivity. }
  rewrite Hmark. cbn [negb fmap option_fmap option_map fst].
  rewrite andb_false_r.
  rewrite (bool_decide_eq_false_2 (Some status = Some 401%Z)) by congruence.
  reflexivity.
Qed.

Lemma csrf_fetch_refusal_is_final_witness :
  exists request,
    OwnerApi.api OwnerApi.csrf_config (OwnerApi.boot ∅ [Http 403 ∅])
    = (OwnerApi.boot ∅ [Http 403 ∅]
         |> OwnerApi.set_sent (request :: OwnerApi.sent (OwnerApi.boot ∅ [Http 403 ∅]))
         |> OwnerApi.set_inbox [],
       OwnerApi.Done (OwnerApi.Thrown (OwnerApi.AxiosError request (Some (403%Z, ∅)))),
       one_send) /\
    OwnerApi.url request = "/auth/csrf/".
Proof.
  apply (csrf_fetch_refusal_is_final (OwnerApi.boot ∅ [Http 403 ∅]) 403 ∅ []);
    [reflexivity | reflexivity | discriminate].
Defined.
